(** * Stock Tracking Simulator: a shallow embedding of [main.py]

    The program keeps two in-memory stores, [portfolio] and [alert_history],
    both Python dictionaries keyed by the integer transaction id.  A background
    job, [monitor_market], re-prices every active position and records an
    alert when the price has moved 5% away from the purchase price; the HTTP
    handlers buy, reset, simulate and report.

    Prices are Python floats, that is IEEE 754 binary64 numbers: they are
    modelled by Rocq's primitive floats, which are the same numbers with the
    same rounding.  Dictionaries are association lists in insertion order,
    the order in which Python iterates over them.  Every handler and every
    run of the monitor is modelled as one atomic step on the pair of stores;
    what the outside world answers (the quote provider, the clock) is an
    explicit argument of the step. *)

From Stdlib Require Import ZArith List Bool String Ascii Floats Lia.
From Stdlib Require Import Sorting.Sorted Sorting.Permutation FinFun.
From Stdlib Require Uint63.
Import ListNotations.

Local Open Scope string_scope.
Local Open Scope list_scope.
Local Open Scope Z_scope.

(** ** Python floats *)

Module PyFloat.

(** [x > y] and [x >= y]; both are false as soon as one side is a NaN. *)
Definition gtb (x y : float) : bool := PrimFloat.ltb y x.
Definition geb (x y : float) : bool := PrimFloat.leb y x.

(** [bool(x)]: a float is falsy exactly when it compares equal to zero. *)
Definition truthy (x : float) : bool := negb (PrimFloat.eqb x 0).

(** The integer nearest to [a * 2^e], ties going to the even one. *)
Definition round_half_even (a e : Z) : Z :=
  if 0 <=? e then a * 2 ^ e
  else
    let d := 2 ^ (- e) in
    let q := a / d in
    let r := a mod d in
    match (2 * r) ?= d with
    | Lt => q
    | Gt => q + 1
    | Eq => if Z.even q then q else q + 1
    end.

(** [round(x, 2)].  CPython converts the exact binary value of [x] to the
    nearest decimal with two fractional digits (ties to even) and reads
    that decimal back as the nearest float; zeros, infinities and NaN
    round to themselves, and the sign is kept. *)
Definition round2 (x : float) : float :=
  match Prim2SF x with
  | S754_finite s m e =>
      match round_half_even (Zpos m * 100) e with
      | Zpos n =>
          SF2Prim (SFdiv prec emax (S754_finite s n 0)
                                   (S754_finite false 100 0))
      | _ => if s then (-0)%float else 0%float
      end
  | _ => x
  end.

End PyFloat.

(** ** Python dictionaries with integer keys, in insertion order *)

Module Dict.
Section Defs.
Context {V : Type}.

Definition t := list (Z * V).

Definition keys (d : t) : list Z := map fst d.

(** [d.get(k)] *)
Fixpoint get (k : Z) (d : t) : option V :=
  match d with
  | [] => None
  | (k', v) :: d' => if k =? k' then Some v else get k d'
  end.

(** [k in d] *)
Definition mem (k : Z) (d : t) : bool :=
  match get k d with Some _ => true | None => false end.

(** [d[k] = v]: an existing key keeps its place, a new one goes last. *)
Fixpoint set (k : Z) (v : V) (d : t) : t :=
  match d with
  | [] => [(k, v)]
  | (k', v') :: d' =>
      if k =? k' then (k, v) :: d' else (k', v') :: set k v d'
  end.

(** A dictionary holds each key once. *)
Definition wf (d : t) : Prop := NoDup (keys d).
End Defs.
Arguments t : clear implicits.
End Dict.

(** ** The data model *)

Inductive alert_kind := PROFIT | LOSS.

(** A position: the dictionary [buy_stock] stores under a transaction id.
    The last three keys are optional: they are added by the monitor and by
    the simulation endpoint, and removed with [pop]. *)
Record position := mkPosition {
  symbol : string;
  buy_price : float;
  bought_at : string;
  status : string;
  alert_sent : bool;
  current_price : float;
  percent_change : float;
  alert_type : option alert_kind;
  alert_triggered_at : option string;
  simulated_current_price : option float
}.

(** An alert event: the dictionary appended to a transaction's history.
    [transaction_id] is not among the keys the monitor writes. *)
Record alert_event := mkEvent {
  timestamp : string;
  ev_type : alert_kind;
  ev_percent_change : float;
  ev_current_price : float;
  ev_buy_price : float;
  transaction_id : option Z
}.

Record state := mkState {
  portfolio : Dict.t position;
  alert_history : Dict.t (list alert_event)
}.

Definition empty_state : state := mkState [] [].

Definition WATCHLIST : list string :=
  ["RELIANCE.NS"; "TCS.NS"; "INF,NS"; "HDFCBANK.NS"].

(** ** The outside world *)

(** What one strategy of the price lookup finds: the attempt raised, the
    field is absent (or [None], or falsy where the code tests truthiness),
    or it converted to a float. *)
Inductive fetched := Raised | Missing | Got (p : float).

(** The answers of a [yf.Ticker] object, one per field the lookup reads.
    [fast_info_last_price] is [Missing] when the attribute is absent or
    [None].  The two [info] fields are [Missing] when the key is absent or
    its value is falsy (so a [currentPrice] of 0 is [Missing]), and [Got p]
    when the value is truthy and [float] of it is [p]; [info_currentPrice]
    is [Raised] also when reading [ticker.info] raised.  A history is
    [Missing] when the frame is empty or has no [Close] column.  A field is
    [Raised] when reading or converting it raised. *)
Record ticker := mkTicker {
  fast_info_last_price : fetched;
  info_currentPrice : fetched;
  info_regularMarketPrice : fetched;
  history_1m_close : fetched;
  history_1d_close : fetched
}.

(** The world as one step observes it: the quote provider ([None] when
    building the ticker raises) and the successive readings of
    [datetime.now().isoformat()]. *)
Record world := mkWorld {
  yf_Ticker : string -> option ticker;
  clock : nat -> string
}.

(** ** The price lookup *)

Definition or_else {A} (a b : option A) : option A :=
  match a with Some _ => a | None => b end.

(** [if price > 0: return round(price, 2)] *)
Definition accept (price : float) : option float :=
  if PyFloat.gtb price 0 then Some (PyFloat.round2 price) else None.

Definition method1 (t : ticker) : option float :=
  match fast_info_last_price t with Got p => accept p | _ => None end.

Definition method2 (t : ticker) : option float :=
  match info_currentPrice t with
  | Got p => accept p
  | Missing =>
      match info_regularMarketPrice t with Got p => accept p | _ => None end
  | Raised => None
  end.

Definition method3 (t : ticker) : option float :=
  match history_1m_close t with Got p => accept p | _ => None end.

Definition method4 (t : ticker) : option float :=
  match history_1d_close t with Got p => accept p | _ => None end.

Definition get_live_price (yf : string -> option ticker) (sym : string)
  : option float :=
  match yf sym with
  | None => None
  | Some t =>
      or_else (method1 t) (or_else (method2 t) (or_else (method3 t) (method4 t)))
  end.

(** ** The monitor *)

(** A handler or a run of the monitor either returns or lets an exception
    escape; the stores keep whatever was written before the exception. *)
Inductive completion := Returned | ZeroDivisionError.

(** The price the monitor uses for a position: the simulated override when
    the key is present, a live lookup otherwise. *)
Definition resolve_price (w : world) (data : position) : option float :=
  match simulated_current_price data with
  | Some p => Some p
  | None => get_live_price (yf_Ticker w) (symbol data)
  end.

(** [((current_price - buy_price) / buy_price) * 100]; Python raises
    [ZeroDivisionError] on a zero divisor, which is the [None] here. *)
Definition percent_change_of (buy cur : float) : option float :=
  if PrimFloat.eqb buy 0 then None
  else Some (((cur - buy) / buy) * 100)%float.

(** The threshold test of the monitor. *)
Definition classify (pc : float) : option alert_kind :=
  if PyFloat.geb pc 5 then Some PROFIT
  else if PrimFloat.leb pc (-5) then Some LOSS
  else None.

Definition set_tracking (data : position) (cp pc : float) : position :=
  mkPosition (symbol data) (buy_price data) (bought_at data) (status data)
             (alert_sent data) cp pc
             (alert_type data) (alert_triggered_at data)
             (simulated_current_price data).

Definition set_alerted (data : position) (k : alert_kind) (at_ : string)
  : position :=
  mkPosition (symbol data) (buy_price data) (bought_at data) (status data)
             true (current_price data) (percent_change data)
             (Some k) (Some at_)
             (simulated_current_price data).

(** The event the monitor builds for a crossing. *)
Definition new_event (w : world) (k : alert_kind) (pc cp buy : float)
  : alert_event :=
  mkEvent (clock w 1) k (PyFloat.round2 pc) cp buy None.

(** The body of the loop for one item of the portfolio: the record as the
    body leaves it and the event it appends, if any.  [None] stands for the
    [ZeroDivisionError] of the division, raised before anything is written. *)
Definition monitor_position (w : world) (data : position)
  : option (position * option alert_event) :=
  if negb (String.eqb (status data) "ACTIVE") then Some (data, None)
  else
    match resolve_price w data with
    | None => Some (data, None)
    | Some cp =>
        match percent_change_of (buy_price data) cp with
        | None => None
        | Some pc =>
            let data1 := set_tracking data cp (PyFloat.round2 pc) in
            match classify pc with
            | Some k =>
                if alert_sent data1 then Some (data1, None)
                else Some (set_alerted data1 k (clock w 0),
                           Some (new_event w k pc cp (buy_price data)))
            | None => Some (data1, None)
            end
        end
    end.

(** The list stored for a transaction, empty when the key is absent. *)
Definition history_of (tx_id : Z) (h : Dict.t (list alert_event))
  : list alert_event :=
  match Dict.get tx_id h with Some l => l | None => [] end.

(** [if tx_id not in alert_history: alert_history[tx_id] = []] followed by
    [alert_history[tx_id].append(ev)]. *)
Definition record_alert (tx_id : Z) (ev : option alert_event)
  (h : Dict.t (list alert_event)) : Dict.t (list alert_event) :=
  match ev with
  | Some e => Dict.set tx_id (history_of tx_id h ++ [e]) h
  | None => h
  end.

(** The loop over [portfolio.items()].  The world is given per transaction:
    [env tx_id] is what the body observes while it handles [tx_id]. *)
Fixpoint monitor_loop (env : Z -> world) (items : Dict.t position)
  (h : Dict.t (list alert_event))
  : Dict.t position * Dict.t (list alert_event) * completion :=
  match items with
  | [] => ([], h, Returned)
  | (tx_id, data) :: rest =>
      match monitor_position (env tx_id) data with
      | None => (items, h, ZeroDivisionError)
      | Some (data', ev) =>
          let '(rest', h', c) := monitor_loop env rest (record_alert tx_id ev h) in
          ((tx_id, data') :: rest', h', c)
      end
  end.

Definition monitor_market (env : Z -> world) (st : state)
  : state * completion :=
  let '(p, h, c) := monitor_loop env (portfolio st) (alert_history st) in
  (mkState p h, c).

(** The state a tick leaves. *)
Definition tick (env : Z -> world) (st : state) : state :=
  fst (monitor_market env st).

(** ** The request handlers *)

Inductive response (A : Type) :=
| Ok (body : A)
| HTTPException (status_code : Z) (detail : string)
| Unhandled (exn : completion).
Arguments Ok {A} body.
Arguments HTTPException {A} status_code detail.
Arguments Unhandled {A} exn.

(** [str.upper] maps each character of the string by itself to its full
    uppercase mapping, one to three characters long; a character without a
    mapping is kept.  [uppercase_mappings] lists the characters that have
    one, by code point, as CPython 3.11 (Unicode 14.0) has them. *)
Definition uppercase_mappings : list (N * list N) :=
 [
  (97, [65]); (98, [66]); (99, [67]); (100, [68]); (101, [69]); (102, [70]);
  (103, [71]); (104, [72]); (105, [73]); (106, [74]); (107, [75]);
  (108, [76]); (109, [77]); (110, [78]); (111, [79]); (112, [80]);
  (113, [81]); (114, [82]); (115, [83]); (116, [84]); (117, [85]);
  (118, [86]); (119, [87]); (120, [88]); (121, [89]); (122, [90]);
  (181, [924]); (223, [83; 83]); (224, [192]); (225, [193]); (226, [194]);
  (227, [195]); (228, [196]); (229, [197]); (230, [198]); (231, [199]);
  (232, [200]); (233, [201]); (234, [202]); (235, [203]); (236, [204]);
  (237, [205]); (238, [206]); (239, [207]); (240, [208]); (241, [209]);
  (242, [210]); (243, [211]); (244, [212]); (245, [213]); (246, [214]);
  (248, [216]); (249, [217]); (250, [218]); (251, [219]); (252, [220]);
  (253, [221]); (254, [222]); (255, [376]); (257, [256]); (259, [258]);
  (261, [260]); (263, [262]); (265, [264]); (267, [266]); (269, [268]);
  (271, [270]); (273, [272]); (275, [274]); (277, [276]); (279, [278]);
  (281, [280]); (283, [282]); (285, [284]); (287, [286]); (289, [288]);
  (291, [290]); (293, [292]); (295, [294]); (297, [296]); (299, [298]);
  (301, [300]); (303, [302]); (305, [73]); (307, [306]); (309, [308]);
  (311, [310]); (314, [313]); (316, [315]); (318, [317]); (320, [319]);
  (322, [321]); (324, [323]); (326, [325]); (328, [327]); (329, [700; 78]);
  (331, [330]); (333, [332]); (335, [334]); (337, [336]); (339, [338]);
  (341, [340]); (343, [342]); (345, [344]); (347, [346]); (349, [348]);
  (351, [350]); (353, [352]); (355, [354]); (357, [356]); (359, [358]);
  (361, [360]); (363, [362]); (365, [364]); (367, [366]); (369, [368]);
  (371, [370]); (373, [372]); (375, [374]); (378, [377]); (380, [379]);
  (382, [381]); (383, [83]); (384, [579]); (387, [386]); (389, [388]);
  (392, [391]); (396, [395]); (402, [401]); (405, [502]); (409, [408]);
  (410, [573]); (414, [544]); (417, [416]); (419, [418]); (421, [420]);
  (424, [423]); (429, [428]); (432, [431]); (436, [435]); (438, [437]);
  (441, [440]); (445, [444]); (447, [503]); (453, [452]); (454, [452]);
  (456, [455]); (457, [455]); (459, [458]); (460, [458]); (462, [461]);
  (464, [463]); (466, [465]); (468, [467]); (470, [469]); (472, [471]);
  (474, [473]); (476, [475]); (477, [398]); (479, [478]); (481, [480]);
  (483, [482]); (485, [484]); (487, [486]); (489, [488]); (491, [490]);
  (493, [492]); (495, [494]); (496, [74; 780]); (498, [497]); (499, [497]);
  (501, [500]); (505, [504]); (507, [506]); (509, [508]); (511, [510]);
  (513, [512]); (515, [514]); (517, [516]); (519, [518]); (521, [520]);
  (523, [522]); (525, [524]); (527, [526]); (529, [528]); (531, [530]);
  (533, [532]); (535, [534]); (537, [536]); (539, [538]); (541, [540]);
  (543, [542]); (547, [546]); (549, [548]); (551, [550]); (553, [552]);
  (555, [554]); (557, [556]); (559, [558]); (561, [560]); (563, [562]);
  (572, [571]); (575, [11390]); (576, [11391]); (578, [577]); (583, [582]);
  (585, [584]); (587, [586]); (589, [588]); (591, [590]); (592, [11375]);
  (593, [11373]); (594, [11376]); (595, [385]); (596, [390]); (598, [393]);
  (599, [394]); (601, [399]); (603, [400]); (604, [42923]); (608, [403]);
  (609, [42924]); (611, [404]); (613, [42893]); (614, [42922]); (616, [407]);
  (617, [406]); (618, [42926]); (619, [11362]); (620, [42925]); (623, [412]);
  (625, [11374]); (626, [413]); (629, [415]); (637, [11364]); (640, [422]);
  (642, [42949]); (643, [425]); (647, [42929]); (648, [430]); (649, [580]);
  (650, [433]); (651, [434]); (652, [581]); (658, [439]); (669, [42930]);
  (670, [42928]); (837, [921]); (881, [880]); (883, [882]); (887, [886]);
  (891, [1021]); (892, [1022]); (893, [1023]); (912, [921; 776; 769]);
  (940, [902]); (941, [904]); (942, [905]); (943, [906]);
  (944, [933; 776; 769]); (945, [913]); (946, [914]); (947, [915]);
  (948, [916]); (949, [917]); (950, [918]); (951, [919]); (952, [920]);
  (953, [921]); (954, [922]); (955, [923]); (956, [924]); (957, [925]);
  (958, [926]); (959, [927]); (960, [928]); (961, [929]); (962, [931]);
  (963, [931]); (964, [932]); (965, [933]); (966, [934]); (967, [935]);
  (968, [936]); (969, [937]); (970, [938]); (971, [939]); (972, [908]);
  (973, [910]); (974, [911]); (976, [914]); (977, [920]); (981, [934]);
  (982, [928]); (983, [975]); (985, [984]); (987, [986]); (989, [988]);
  (991, [990]); (993, [992]); (995, [994]); (997, [996]); (999, [998]);
  (1001, [1000]); (1003, [1002]); (1005, [1004]); (1007, [1006]);
  (1008, [922]); (1009, [929]); (1010, [1017]); (1011, [895]); (1013, [917]);
  (1016, [1015]); (1019, [1018]); (1072, [1040]); (1073, [1041]);
  (1074, [1042]); (1075, [1043]); (1076, [1044]); (1077, [1045]);
  (1078, [1046]); (1079, [1047]); (1080, [1048]); (1081, [1049]);
  (1082, [1050]); (1083, [1051]); (1084, [1052]); (1085, [1053]);
  (1086, [1054]); (1087, [1055]); (1088, [1056]); (1089, [1057]);
  (1090, [1058]); (1091, [1059]); (1092, [1060]); (1093, [1061]);
  (1094, [1062]); (1095, [1063]); (1096, [1064]); (1097, [1065]);
  (1098, [1066]); (1099, [1067]); (1100, [1068]); (1101, [1069]);
  (1102, [1070]); (1103, [1071]); (1104, [1024]); (1105, [1025]);
  (1106, [1026]); (1107, [1027]); (1108, [1028]); (1109, [1029]);
  (1110, [1030]); (1111, [1031]); (1112, [1032]); (1113, [1033]);
  (1114, [1034]); (1115, [1035]); (1116, [1036]); (1117, [1037]);
  (1118, [1038]); (1119, [1039]); (1121, [1120]); (1123, [1122]);
  (1125, [1124]); (1127, [1126]); (1129, [1128]); (1131, [1130]);
  (1133, [1132]); (1135, [1134]); (1137, [1136]); (1139, [1138]);
  (1141, [1140]); (1143, [1142]); (1145, [1144]); (1147, [1146]);
  (1149, [1148]); (1151, [1150]); (1153, [1152]); (1163, [1162]);
  (1165, [1164]); (1167, [1166]); (1169, [1168]); (1171, [1170]);
  (1173, [1172]); (1175, [1174]); (1177, [1176]); (1179, [1178]);
  (1181, [1180]); (1183, [1182]); (1185, [1184]); (1187, [1186]);
  (1189, [1188]); (1191, [1190]); (1193, [1192]); (1195, [1194]);
  (1197, [1196]); (1199, [1198]); (1201, [1200]); (1203, [1202]);
  (1205, [1204]); (1207, [1206]); (1209, [1208]); (1211, [1210]);
  (1213, [1212]); (1215, [1214]); (1218, [1217]); (1220, [1219]);
  (1222, [1221]); (1224, [1223]); (1226, [1225]); (1228, [1227]);
  (1230, [1229]); (1231, [1216]); (1233, [1232]); (1235, [1234]);
  (1237, [1236]); (1239, [1238]); (1241, [1240]); (1243, [1242]);
  (1245, [1244]); (1247, [1246]); (1249, [1248]); (1251, [1250]);
  (1253, [1252]); (1255, [1254]); (1257, [1256]); (1259, [1258]);
  (1261, [1260]); (1263, [1262]); (1265, [1264]); (1267, [1266]);
  (1269, [1268]); (1271, [1270]); (1273, [1272]); (1275, [1274]);
  (1277, [1276]); (1279, [1278]); (1281, [1280]); (1283, [1282]);
  (1285, [1284]); (1287, [1286]); (1289, [1288]); (1291, [1290]);
  (1293, [1292]); (1295, [1294]); (1297, [1296]); (1299, [1298]);
  (1301, [1300]); (1303, [1302]); (1305, [1304]); (1307, [1306]);
  (1309, [1308]); (1311, [1310]); (1313, [1312]); (1315, [1314]);
  (1317, [1316]); (1319, [1318]); (1321, [1320]); (1323, [1322]);
  (1325, [1324]); (1327, [1326]); (1377, [1329]); (1378, [1330]);
  (1379, [1331]); (1380, [1332]); (1381, [1333]); (1382, [1334]);
  (1383, [1335]); (1384, [1336]); (1385, [1337]); (1386, [1338]);
  (1387, [1339]); (1388, [1340]); (1389, [1341]); (1390, [1342]);
  (1391, [1343]); (1392, [1344]); (1393, [1345]); (1394, [1346]);
  (1395, [1347]); (1396, [1348]); (1397, [1349]); (1398, [1350]);
  (1399, [1351]); (1400, [1352]); (1401, [1353]); (1402, [1354]);
  (1403, [1355]); (1404, [1356]); (1405, [1357]); (1406, [1358]);
  (1407, [1359]); (1408, [1360]); (1409, [1361]); (1410, [1362]);
  (1411, [1363]); (1412, [1364]); (1413, [1365]); (1414, [1366]);
  (1415, [1333; 1362]); (4304, [7312]); (4305, [7313]); (4306, [7314]);
  (4307, [7315]); (4308, [7316]); (4309, [7317]); (4310, [7318]);
  (4311, [7319]); (4312, [7320]); (4313, [7321]); (4314, [7322]);
  (4315, [7323]); (4316, [7324]); (4317, [7325]); (4318, [7326]);
  (4319, [7327]); (4320, [7328]); (4321, [7329]); (4322, [7330]);
  (4323, [7331]); (4324, [7332]); (4325, [7333]); (4326, [7334]);
  (4327, [7335]); (4328, [7336]); (4329, [7337]); (4330, [7338]);
  (4331, [7339]); (4332, [7340]); (4333, [7341]); (4334, [7342]);
  (4335, [7343]); (4336, [7344]); (4337, [7345]); (4338, [7346]);
  (4339, [7347]); (4340, [7348]); (4341, [7349]); (4342, [7350]);
  (4343, [7351]); (4344, [7352]); (4345, [7353]); (4346, [7354]);
  (4349, [7357]); (4350, [7358]); (4351, [7359]); (5112, [5104]);
  (5113, [5105]); (5114, [5106]); (5115, [5107]); (5116, [5108]);
  (5117, [5109]); (7296, [1042]); (7297, [1044]); (7298, [1054]);
  (7299, [1057]); (7300, [1058]); (7301, [1058]); (7302, [1066]);
  (7303, [1122]); (7304, [42570]); (7545, [42877]); (7549, [11363]);
  (7566, [42950]); (7681, [7680]); (7683, [7682]); (7685, [7684]);
  (7687, [7686]); (7689, [7688]); (7691, [7690]); (7693, [7692]);
  (7695, [7694]); (7697, [7696]); (7699, [7698]); (7701, [7700]);
  (7703, [7702]); (7705, [7704]); (7707, [7706]); (7709, [7708]);
  (7711, [7710]); (7713, [7712]); (7715, [7714]); (7717, [7716]);
  (7719, [7718]); (7721, [7720]); (7723, [7722]); (7725, [7724]);
  (7727, [7726]); (7729, [7728]); (7731, [7730]); (7733, [7732]);
  (7735, [7734]); (7737, [7736]); (7739, [7738]); (7741, [7740]);
  (7743, [7742]); (7745, [7744]); (7747, [7746]); (7749, [7748]);
  (7751, [7750]); (7753, [7752]); (7755, [7754]); (7757, [7756]);
  (7759, [7758]); (7761, [7760]); (7763, [7762]); (7765, [7764]);
  (7767, [7766]); (7769, [7768]); (7771, [7770]); (7773, [7772]);
  (7775, [7774]); (7777, [7776]); (7779, [7778]); (7781, [7780]);
  (7783, [7782]); (7785, [7784]); (7787, [7786]); (7789, [7788]);
  (7791, [7790]); (7793, [7792]); (7795, [7794]); (7797, [7796]);
  (7799, [7798]); (7801, [7800]); (7803, [7802]); (7805, [7804]);
  (7807, [7806]); (7809, [7808]); (7811, [7810]); (7813, [7812]);
  (7815, [7814]); (7817, [7816]); (7819, [7818]); (7821, [7820]);
  (7823, [7822]); (7825, [7824]); (7827, [7826]); (7829, [7828]);
  (7830, [72; 817]); (7831, [84; 776]); (7832, [87; 778]); (7833, [89; 778]);
  (7834, [65; 702]); (7835, [7776]); (7841, [7840]); (7843, [7842]);
  (7845, [7844]); (7847, [7846]); (7849, [7848]); (7851, [7850]);
  (7853, [7852]); (7855, [7854]); (7857, [7856]); (7859, [7858]);
  (7861, [7860]); (7863, [7862]); (7865, [7864]); (7867, [7866]);
  (7869, [7868]); (7871, [7870]); (7873, [7872]); (7875, [7874]);
  (7877, [7876]); (7879, [7878]); (7881, [7880]); (7883, [7882]);
  (7885, [7884]); (7887, [7886]); (7889, [7888]); (7891, [7890]);
  (7893, [7892]); (7895, [7894]); (7897, [7896]); (7899, [7898]);
  (7901, [7900]); (7903, [7902]); (7905, [7904]); (7907, [7906]);
  (7909, [7908]); (7911, [7910]); (7913, [7912]); (7915, [7914]);
  (7917, [7916]); (7919, [7918]); (7921, [7920]); (7923, [7922]);
  (7925, [7924]); (7927, [7926]); (7929, [7928]); (7931, [7930]);
  (7933, [7932]); (7935, [7934]); (7936, [7944]); (7937, [7945]);
  (7938, [7946]); (7939, [7947]); (7940, [7948]); (7941, [7949]);
  (7942, [7950]); (7943, [7951]); (7952, [7960]); (7953, [7961]);
  (7954, [7962]); (7955, [7963]); (7956, [7964]); (7957, [7965]);
  (7968, [7976]); (7969, [7977]); (7970, [7978]); (7971, [7979]);
  (7972, [7980]); (7973, [7981]); (7974, [7982]); (7975, [7983]);
  (7984, [7992]); (7985, [7993]); (7986, [7994]); (7987, [7995]);
  (7988, [7996]); (7989, [7997]); (7990, [7998]); (7991, [7999]);
  (8000, [8008]); (8001, [8009]); (8002, [8010]); (8003, [8011]);
  (8004, [8012]); (8005, [8013]); (8016, [933; 787]); (8017, [8025]);
  (8018, [933; 787; 768]); (8019, [8027]); (8020, [933; 787; 769]);
  (8021, [8029]); (8022, [933; 787; 834]); (8023, [8031]); (8032, [8040]);
  (8033, [8041]); (8034, [8042]); (8035, [8043]); (8036, [8044]);
  (8037, [8045]); (8038, [8046]); (8039, [8047]); (8048, [8122]);
  (8049, [8123]); (8050, [8136]); (8051, [8137]); (8052, [8138]);
  (8053, [8139]); (8054, [8154]); (8055, [8155]); (8056, [8184]);
  (8057, [8185]); (8058, [8170]); (8059, [8171]); (8060, [8186]);
  (8061, [8187]); (8064, [7944; 921]); (8065, [7945; 921]);
  (8066, [7946; 921]); (8067, [7947; 921]); (8068, [7948; 921]);
  (8069, [7949; 921]); (8070, [7950; 921]); (8071, [7951; 921]);
  (8072, [7944; 921]); (8073, [7945; 921]); (8074, [7946; 921]);
  (8075, [7947; 921]); (8076, [7948; 921]); (8077, [7949; 921]);
  (8078, [7950; 921]); (8079, [7951; 921]); (8080, [7976; 921]);
  (8081, [7977; 921]); (8082, [7978; 921]); (8083, [7979; 921]);
  (8084, [7980; 921]); (8085, [7981; 921]); (8086, [7982; 921]);
  (8087, [7983; 921]); (8088, [7976; 921]); (8089, [7977; 921]);
  (8090, [7978; 921]); (8091, [7979; 921]); (8092, [7980; 921]);
  (8093, [7981; 921]); (8094, [7982; 921]); (8095, [7983; 921]);
  (8096, [8040; 921]); (8097, [8041; 921]); (8098, [8042; 921]);
  (8099, [8043; 921]); (8100, [8044; 921]); (8101, [8045; 921]);
  (8102, [8046; 921]); (8103, [8047; 921]); (8104, [8040; 921]);
  (8105, [8041; 921]); (8106, [8042; 921]); (8107, [8043; 921]);
  (8108, [8044; 921]); (8109, [8045; 921]); (8110, [8046; 921]);
  (8111, [8047; 921]); (8112, [8120]); (8113, [8121]); (8114, [8122; 921]);
  (8115, [913; 921]); (8116, [902; 921]); (8118, [913; 834]);
  (8119, [913; 834; 921]); (8124, [913; 921]); (8126, [921]);
  (8130, [8138; 921]); (8131, [919; 921]); (8132, [905; 921]);
  (8134, [919; 834]); (8135, [919; 834; 921]); (8140, [919; 921]);
  (8144, [8152]); (8145, [8153]); (8146, [921; 776; 768]);
  (8147, [921; 776; 769]); (8150, [921; 834]); (8151, [921; 776; 834]);
  (8160, [8168]); (8161, [8169]); (8162, [933; 776; 768]);
  (8163, [933; 776; 769]); (8164, [929; 787]); (8165, [8172]);
  (8166, [933; 834]); (8167, [933; 776; 834]); (8178, [8186; 921]);
  (8179, [937; 921]); (8180, [911; 921]); (8182, [937; 834]);
  (8183, [937; 834; 921]); (8188, [937; 921]); (8526, [8498]);
  (8560, [8544]); (8561, [8545]); (8562, [8546]); (8563, [8547]);
  (8564, [8548]); (8565, [8549]); (8566, [8550]); (8567, [8551]);
  (8568, [8552]); (8569, [8553]); (8570, [8554]); (8571, [8555]);
  (8572, [8556]); (8573, [8557]); (8574, [8558]); (8575, [8559]);
  (8580, [8579]); (9424, [9398]); (9425, [9399]); (9426, [9400]);
  (9427, [9401]); (9428, [9402]); (9429, [9403]); (9430, [9404]);
  (9431, [9405]); (9432, [9406]); (9433, [9407]); (9434, [9408]);
  (9435, [9409]); (9436, [9410]); (9437, [9411]); (9438, [9412]);
  (9439, [9413]); (9440, [9414]); (9441, [9415]); (9442, [9416]);
  (9443, [9417]); (9444, [9418]); (9445, [9419]); (9446, [9420]);
  (9447, [9421]); (9448, [9422]); (9449, [9423]); (11312, [11264]);
  (11313, [11265]); (11314, [11266]); (11315, [11267]); (11316, [11268]);
  (11317, [11269]); (11318, [11270]); (11319, [11271]); (11320, [11272]);
  (11321, [11273]); (11322, [11274]); (11323, [11275]); (11324, [11276]);
  (11325, [11277]); (11326, [11278]); (11327, [11279]); (11328, [11280]);
  (11329, [11281]); (11330, [11282]); (11331, [11283]); (11332, [11284]);
  (11333, [11285]); (11334, [11286]); (11335, [11287]); (11336, [11288]);
  (11337, [11289]); (11338, [11290]); (11339, [11291]); (11340, [11292]);
  (11341, [11293]); (11342, [11294]); (11343, [11295]); (11344, [11296]);
  (11345, [11297]); (11346, [11298]); (11347, [11299]); (11348, [11300]);
  (11349, [11301]); (11350, [11302]); (11351, [11303]); (11352, [11304]);
  (11353, [11305]); (11354, [11306]); (11355, [11307]); (11356, [11308]);
  (11357, [11309]); (11358, [11310]); (11359, [11311]); (11361, [11360]);
  (11365, [570]); (11366, [574]); (11368, [11367]); (11370, [11369]);
  (11372, [11371]); (11379, [11378]); (11382, [11381]); (11393, [11392]);
  (11395, [11394]); (11397, [11396]); (11399, [11398]); (11401, [11400]);
  (11403, [11402]); (11405, [11404]); (11407, [11406]); (11409, [11408]);
  (11411, [11410]); (11413, [11412]); (11415, [11414]); (11417, [11416]);
  (11419, [11418]); (11421, [11420]); (11423, [11422]); (11425, [11424]);
  (11427, [11426]); (11429, [11428]); (11431, [11430]); (11433, [11432]);
  (11435, [11434]); (11437, [11436]); (11439, [11438]); (11441, [11440]);
  (11443, [11442]); (11445, [11444]); (11447, [11446]); (11449, [11448]);
  (11451, [11450]); (11453, [11452]); (11455, [11454]); (11457, [11456]);
  (11459, [11458]); (11461, [11460]); (11463, [11462]); (11465, [11464]);
  (11467, [11466]); (11469, [11468]); (11471, [11470]); (11473, [11472]);
  (11475, [11474]); (11477, [11476]); (11479, [11478]); (11481, [11480]);
  (11483, [11482]); (11485, [11484]); (11487, [11486]); (11489, [11488]);
  (11491, [11490]); (11500, [11499]); (11502, [11501]); (11507, [11506]);
  (11520, [4256]); (11521, [4257]); (11522, [4258]); (11523, [4259]);
  (11524, [4260]); (11525, [4261]); (11526, [4262]); (11527, [4263]);
  (11528, [4264]); (11529, [4265]); (11530, [4266]); (11531, [4267]);
  (11532, [4268]); (11533, [4269]); (11534, [4270]); (11535, [4271]);
  (11536, [4272]); (11537, [4273]); (11538, [4274]); (11539, [4275]);
  (11540, [4276]); (11541, [4277]); (11542, [4278]); (11543, [4279]);
  (11544, [4280]); (11545, [4281]); (11546, [4282]); (11547, [4283]);
  (11548, [4284]); (11549, [4285]); (11550, [4286]); (11551, [4287]);
  (11552, [4288]); (11553, [4289]); (11554, [4290]); (11555, [4291]);
  (11556, [4292]); (11557, [4293]); (11559, [4295]); (11565, [4301]);
  (42561, [42560]); (42563, [42562]); (42565, [42564]); (42567, [42566]);
  (42569, [42568]); (42571, [42570]); (42573, [42572]); (42575, [42574]);
  (42577, [42576]); (42579, [42578]); (42581, [42580]); (42583, [42582]);
  (42585, [42584]); (42587, [42586]); (42589, [42588]); (42591, [42590]);
  (42593, [42592]); (42595, [42594]); (42597, [42596]); (42599, [42598]);
  (42601, [42600]); (42603, [42602]); (42605, [42604]); (42625, [42624]);
  (42627, [42626]); (42629, [42628]); (42631, [42630]); (42633, [42632]);
  (42635, [42634]); (42637, [42636]); (42639, [42638]); (42641, [42640]);
  (42643, [42642]); (42645, [42644]); (42647, [42646]); (42649, [42648]);
  (42651, [42650]); (42787, [42786]); (42789, [42788]); (42791, [42790]);
  (42793, [42792]); (42795, [42794]); (42797, [42796]); (42799, [42798]);
  (42803, [42802]); (42805, [42804]); (42807, [42806]); (42809, [42808]);
  (42811, [42810]); (42813, [42812]); (42815, [42814]); (42817, [42816]);
  (42819, [42818]); (42821, [42820]); (42823, [42822]); (42825, [42824]);
  (42827, [42826]); (42829, [42828]); (42831, [42830]); (42833, [42832]);
  (42835, [42834]); (42837, [42836]); (42839, [42838]); (42841, [42840]);
  (42843, [42842]); (42845, [42844]); (42847, [42846]); (42849, [42848]);
  (42851, [42850]); (42853, [42852]); (42855, [42854]); (42857, [42856]);
  (42859, [42858]); (42861, [42860]); (42863, [42862]); (42874, [42873]);
  (42876, [42875]); (42879, [42878]); (42881, [42880]); (42883, [42882]);
  (42885, [42884]); (42887, [42886]); (42892, [42891]); (42897, [42896]);
  (42899, [42898]); (42900, [42948]); (42903, [42902]); (42905, [42904]);
  (42907, [42906]); (42909, [42908]); (42911, [42910]); (42913, [42912]);
  (42915, [42914]); (42917, [42916]); (42919, [42918]); (42921, [42920]);
  (42933, [42932]); (42935, [42934]); (42937, [42936]); (42939, [42938]);
  (42941, [42940]); (42943, [42942]); (42945, [42944]); (42947, [42946]);
  (42952, [42951]); (42954, [42953]); (42961, [42960]); (42967, [42966]);
  (42969, [42968]); (42998, [42997]); (43859, [42931]); (43888, [5024]);
  (43889, [5025]); (43890, [5026]); (43891, [5027]); (43892, [5028]);
  (43893, [5029]); (43894, [5030]); (43895, [5031]); (43896, [5032]);
  (43897, [5033]); (43898, [5034]); (43899, [5035]); (43900, [5036]);
  (43901, [5037]); (43902, [5038]); (43903, [5039]); (43904, [5040]);
  (43905, [5041]); (43906, [5042]); (43907, [5043]); (43908, [5044]);
  (43909, [5045]); (43910, [5046]); (43911, [5047]); (43912, [5048]);
  (43913, [5049]); (43914, [5050]); (43915, [5051]); (43916, [5052]);
  (43917, [5053]); (43918, [5054]); (43919, [5055]); (43920, [5056]);
  (43921, [5057]); (43922, [5058]); (43923, [5059]); (43924, [5060]);
  (43925, [5061]); (43926, [5062]); (43927, [5063]); (43928, [5064]);
  (43929, [5065]); (43930, [5066]); (43931, [5067]); (43932, [5068]);
  (43933, [5069]); (43934, [5070]); (43935, [5071]); (43936, [5072]);
  (43937, [5073]); (43938, [5074]); (43939, [5075]); (43940, [5076]);
  (43941, [5077]); (43942, [5078]); (43943, [5079]); (43944, [5080]);
  (43945, [5081]); (43946, [5082]); (43947, [5083]); (43948, [5084]);
  (43949, [5085]); (43950, [5086]); (43951, [5087]); (43952, [5088]);
  (43953, [5089]); (43954, [5090]); (43955, [5091]); (43956, [5092]);
  (43957, [5093]); (43958, [5094]); (43959, [5095]); (43960, [5096]);
  (43961, [5097]); (43962, [5098]); (43963, [5099]); (43964, [5100]);
  (43965, [5101]); (43966, [5102]); (43967, [5103]); (64256, [70; 70]);
  (64257, [70; 73]); (64258, [70; 76]); (64259, [70; 70; 73]);
  (64260, [70; 70; 76]); (64261, [83; 84]); (64262, [83; 84]);
  (64275, [1348; 1350]); (64276, [1348; 1333]); (64277, [1348; 1339]);
  (64278, [1358; 1350]); (64279, [1348; 1341]); (65345, [65313]);
  (65346, [65314]); (65347, [65315]); (65348, [65316]); (65349, [65317]);
  (65350, [65318]); (65351, [65319]); (65352, [65320]); (65353, [65321]);
  (65354, [65322]); (65355, [65323]); (65356, [65324]); (65357, [65325]);
  (65358, [65326]); (65359, [65327]); (65360, [65328]); (65361, [65329]);
  (65362, [65330]); (65363, [65331]); (65364, [65332]); (65365, [65333]);
  (65366, [65334]); (65367, [65335]); (65368, [65336]); (65369, [65337]);
  (65370, [65338]); (66600, [66560]); (66601, [66561]); (66602, [66562]);
  (66603, [66563]); (66604, [66564]); (66605, [66565]); (66606, [66566]);
  (66607, [66567]); (66608, [66568]); (66609, [66569]); (66610, [66570]);
  (66611, [66571]); (66612, [66572]); (66613, [66573]); (66614, [66574]);
  (66615, [66575]); (66616, [66576]); (66617, [66577]); (66618, [66578]);
  (66619, [66579]); (66620, [66580]); (66621, [66581]); (66622, [66582]);
  (66623, [66583]); (66624, [66584]); (66625, [66585]); (66626, [66586]);
  (66627, [66587]); (66628, [66588]); (66629, [66589]); (66630, [66590]);
  (66631, [66591]); (66632, [66592]); (66633, [66593]); (66634, [66594]);
  (66635, [66595]); (66636, [66596]); (66637, [66597]); (66638, [66598]);
  (66639, [66599]); (66776, [66736]); (66777, [66737]); (66778, [66738]);
  (66779, [66739]); (66780, [66740]); (66781, [66741]); (66782, [66742]);
  (66783, [66743]); (66784, [66744]); (66785, [66745]); (66786, [66746]);
  (66787, [66747]); (66788, [66748]); (66789, [66749]); (66790, [66750]);
  (66791, [66751]); (66792, [66752]); (66793, [66753]); (66794, [66754]);
  (66795, [66755]); (66796, [66756]); (66797, [66757]); (66798, [66758]);
  (66799, [66759]); (66800, [66760]); (66801, [66761]); (66802, [66762]);
  (66803, [66763]); (66804, [66764]); (66805, [66765]); (66806, [66766]);
  (66807, [66767]); (66808, [66768]); (66809, [66769]); (66810, [66770]);
  (66811, [66771]); (66967, [66928]); (66968, [66929]); (66969, [66930]);
  (66970, [66931]); (66971, [66932]); (66972, [66933]); (66973, [66934]);
  (66974, [66935]); (66975, [66936]); (66976, [66937]); (66977, [66938]);
  (66979, [66940]); (66980, [66941]); (66981, [66942]); (66982, [66943]);
  (66983, [66944]); (66984, [66945]); (66985, [66946]); (66986, [66947]);
  (66987, [66948]); (66988, [66949]); (66989, [66950]); (66990, [66951]);
  (66991, [66952]); (66992, [66953]); (66993, [66954]); (66995, [66956]);
  (66996, [66957]); (66997, [66958]); (66998, [66959]); (66999, [66960]);
  (67000, [66961]); (67001, [66962]); (67003, [66964]); (67004, [66965]);
  (68800, [68736]); (68801, [68737]); (68802, [68738]); (68803, [68739]);
  (68804, [68740]); (68805, [68741]); (68806, [68742]); (68807, [68743]);
  (68808, [68744]); (68809, [68745]); (68810, [68746]); (68811, [68747]);
  (68812, [68748]); (68813, [68749]); (68814, [68750]); (68815, [68751]);
  (68816, [68752]); (68817, [68753]); (68818, [68754]); (68819, [68755]);
  (68820, [68756]); (68821, [68757]); (68822, [68758]); (68823, [68759]);
  (68824, [68760]); (68825, [68761]); (68826, [68762]); (68827, [68763]);
  (68828, [68764]); (68829, [68765]); (68830, [68766]); (68831, [68767]);
  (68832, [68768]); (68833, [68769]); (68834, [68770]); (68835, [68771]);
  (68836, [68772]); (68837, [68773]); (68838, [68774]); (68839, [68775]);
  (68840, [68776]); (68841, [68777]); (68842, [68778]); (68843, [68779]);
  (68844, [68780]); (68845, [68781]); (68846, [68782]); (68847, [68783]);
  (68848, [68784]); (68849, [68785]); (68850, [68786]); (71872, [71840]);
  (71873, [71841]); (71874, [71842]); (71875, [71843]); (71876, [71844]);
  (71877, [71845]); (71878, [71846]); (71879, [71847]); (71880, [71848]);
  (71881, [71849]); (71882, [71850]); (71883, [71851]); (71884, [71852]);
  (71885, [71853]); (71886, [71854]); (71887, [71855]); (71888, [71856]);
  (71889, [71857]); (71890, [71858]); (71891, [71859]); (71892, [71860]);
  (71893, [71861]); (71894, [71862]); (71895, [71863]); (71896, [71864]);
  (71897, [71865]); (71898, [71866]); (71899, [71867]); (71900, [71868]);
  (71901, [71869]); (71902, [71870]); (71903, [71871]); (93792, [93760]);
  (93793, [93761]); (93794, [93762]); (93795, [93763]); (93796, [93764]);
  (93797, [93765]); (93798, [93766]); (93799, [93767]); (93800, [93768]);
  (93801, [93769]); (93802, [93770]); (93803, [93771]); (93804, [93772]);
  (93805, [93773]); (93806, [93774]); (93807, [93775]); (93808, [93776]);
  (93809, [93777]); (93810, [93778]); (93811, [93779]); (93812, [93780]);
  (93813, [93781]); (93814, [93782]); (93815, [93783]); (93816, [93784]);
  (93817, [93785]); (93818, [93786]); (93819, [93787]); (93820, [93788]);
  (93821, [93789]); (93822, [93790]); (93823, [93791]); (125218, [125184]);
  (125219, [125185]); (125220, [125186]); (125221, [125187]);
  (125222, [125188]); (125223, [125189]); (125224, [125190]);
  (125225, [125191]); (125226, [125192]); (125227, [125193]);
  (125228, [125194]); (125229, [125195]); (125230, [125196]);
  (125231, [125197]); (125232, [125198]); (125233, [125199]);
  (125234, [125200]); (125235, [125201]); (125236, [125202]);
  (125237, [125203]); (125238, [125204]); (125239, [125205]);
  (125240, [125206]); (125241, [125207]); (125242, [125208]);
  (125243, [125209]); (125244, [125210]); (125245, [125211]);
  (125246, [125212]); (125247, [125213]); (125248, [125214]);
  (125249, [125215]); (125250, [125216]); (125251, [125217])
 ]%N.

Fixpoint uppercase_of (c : N) (table : list (N * list N)) : list N :=
  match table with
  | [] => [c]
  | (k, u) :: rest => if N.eqb c k then u else uppercase_of c rest
  end.

(** A Python string is held as the UTF-8 bytes of its code points (a lone
    surrogate, which a Python string may hold, as its three-byte form). *)
Definition utf8 (c : N) : string :=
  let byte n := ascii_of_N n in
  if N.ltb c 128 then String (byte c) EmptyString
  else if N.ltb c 2048 then
    String (byte (192 + c / 64)%N)
      (String (byte (128 + c mod 64)%N) EmptyString)
  else if N.ltb c 65536 then
    String (byte (224 + c / 4096)%N)
      (String (byte (128 + (c / 64) mod 64)%N)
         (String (byte (128 + c mod 64)%N) EmptyString))
  else
    String (byte (240 + c / 262144)%N)
      (String (byte (128 + (c / 4096) mod 64)%N)
         (String (byte (128 + (c / 64) mod 64)%N)
            (String (byte (128 + c mod 64)%N) EmptyString))).

(** The uppercase mapping of one code point, as bytes. *)
Definition upper_point (c : N) : string :=
  fold_right (fun u rest => String.append (utf8 u) rest) EmptyString
             (uppercase_of c uppercase_mappings).

(** The six low bits of a continuation byte. *)
Definition continuation (b : ascii) : option N :=
  let n := N_of_ascii b in
  if (N.leb 128 n && N.ltb n 192)%bool then Some (n - 128)%N else None.

(** [str.upper]: the string is read one UTF-8 sequence at a time and each
    code point is replaced by its uppercase mapping.  A byte that starts no
    shortest-form sequence of a code point below 0x110000 belongs to no
    Python string; it is copied. *)
Fixpoint upper (s : string) : string :=
  match s with
  | EmptyString => EmptyString
  | String b0 s1 =>
      let n0 := N_of_ascii b0 in
      if N.ltb n0 128 then String.append (upper_point n0) (upper s1)
      else if N.ltb n0 192 then String b0 (upper s1)
      else
        match s1 with
        | EmptyString => String b0 (upper s1)
        | String b1 s2 =>
            match continuation b1 with
            | None => String b0 (upper s1)
            | Some c1 =>
                if N.ltb n0 224 then
                  let cp := ((n0 - 192) * 64 + c1)%N in
                  if N.leb 128 cp
                  then String.append (upper_point cp) (upper s2)
                  else String b0 (upper s1)
                else
                  match s2 with
                  | EmptyString => String b0 (upper s1)
                  | String b2 s3 =>
                      match continuation b2 with
                      | None => String b0 (upper s1)
                      | Some c2 =>
                          if N.ltb n0 240 then
                            let cp := (((n0 - 224) * 64 + c1) * 64 + c2)%N in
                            if N.leb 2048 cp
                            then String.append (upper_point cp) (upper s3)
                            else String b0 (upper s1)
                          else
                            match s3 with
                            | EmptyString => String b0 (upper s1)
                            | String b3 s4 =>
                                match continuation b3 with
                                | None => String b0 (upper s1)
                                | Some c3 =>
                                    let cp :=
                                      ((((n0 - 240) * 64 + c1) * 64 + c2) * 64
                                       + c3)%N in
                                    if (N.leb 65536 cp && N.ltb cp 1114112)%bool
                                    then String.append (upper_point cp)
                                                       (upper s4)
                                    else String b0 (upper s1)
                                end
                            end
                      end
                  end
            end
        end
  end.

Definition in_watchlist (s : string) : bool :=
  existsb (String.eqb s) WATCHLIST.

Definition new_position (sym : string) (price : float) (now : string)
  : position :=
  mkPosition sym price now "ACTIVE" false price 0%float None None None.

(** POST [/buy] *)
Definition buy_stock (w : world) (order_symbol : string) (st : state)
  : response (Z * position) * state :=
  let sym := upper order_symbol in
  if negb (in_watchlist sym) then
    (HTTPException 400 "Stock not in supported watchlist", st)
  else
    match get_live_price (yf_Ticker w) sym with
    | None => (HTTPException 503 "Market data unavailable", st)
    | Some execution_price =>
        if negb (PyFloat.truthy execution_price) then
          (HTTPException 503 "Market data unavailable", st)
        else
          let tx_id := Z.of_nat (List.length (portfolio st)) + 1 in
          let pos := new_position sym execution_price (clock w 0) in
          (Ok (tx_id, pos),
           mkState (Dict.set tx_id pos (portfolio st)) (alert_history st))
    end.

(** GET [/alerts] *)
Definition view_alerts (st : state)
  : response (Dict.t (list alert_event) * nat) * state :=
  (Ok (alert_history st,
       fold_right (fun kv n => (List.length (snd kv) + n)%nat) 0%nat (alert_history st)),
   st).

(** A list split into its front and its last element, [None] when empty. *)
Fixpoint unsnoc {A} (l : list A) : option (list A * A) :=
  match l with
  | [] => None
  | x :: l' =>
      match unsnoc l' with
      | None => Some ([], x)
      | Some (front, y) => Some (x :: front, y)
      end
  end.

(** [latest['transaction_id'] = tx_id] *)
Definition with_transaction_id (e : alert_event) (tx_id : Z) : alert_event :=
  mkEvent (timestamp e) (ev_type e) (ev_percent_change e)
          (ev_current_price e) (ev_buy_price e) (Some tx_id).

(** The loop of [get_latest_alerts].  [alerts_list[-1]] is the stored
    dictionary itself, not a copy, so the assignment of the transaction id
    is a write to the store: the loop returns the list it collects together
    with the history as the writes leave it. *)
Fixpoint latest_per_transaction (h : Dict.t (list alert_event))
  : list alert_event * Dict.t (list alert_event) :=
  match h with
  | [] => ([], [])
  | (tx_id, alerts_list) :: rest =>
      let '(out, rest') := latest_per_transaction rest in
      match unsnoc alerts_list with
      | None => (out, (tx_id, alerts_list) :: rest')
      | Some (front, last_alert) =>
          let latest := with_transaction_id last_alert tx_id in
          (latest :: out, (tx_id, front ++ [latest]) :: rest')
      end
  end.

(** [list.sort(key=timestamp, reverse=True)]: Python's sort is stable, also
    when reversed, so it is the stable insertion sort on the timestamps,
    strings compared character by character. *)
Fixpoint insert_newest_first (x : alert_event) (l : list alert_event)
  : list alert_event :=
  match l with
  | [] => [x]
  | y :: l' =>
      if String.leb (timestamp y) (timestamp x) then x :: l
      else y :: insert_newest_first x l'
  end.

Definition sort_newest_first (l : list alert_event) : list alert_event :=
  fold_right insert_newest_first [] l.

(** GET [/alerts/latest]: the body is [latest_alerts] and [total]. *)
Definition get_latest_alerts (st : state)
  : response (list alert_event * nat) * state :=
  let '(latest_alerts, h) := latest_per_transaction (alert_history st) in
  (Ok (firstn 10 (sort_newest_first latest_alerts), List.length latest_alerts),
   mkState (portfolio st) h).

Definition clear_alert (data : position) : position :=
  mkPosition (symbol data) (buy_price data) (bought_at data) (status data)
             false (current_price data) (percent_change data)
             None None
             (simulated_current_price data).

(** POST [/reset-alert/{transaction_id}] *)
Definition reset_alert (tx_id : Z) (st : state) : response unit * state :=
  match Dict.get tx_id (portfolio st) with
  | None => (HTTPException 404 "Transaction not found", st)
  | Some data =>
      (Ok tt,
       mkState (Dict.set tx_id (clear_alert data) (portfolio st))
               (alert_history st))
  end.

Definition set_simulated (data : position) (p : float) : position :=
  mkPosition (symbol data) (buy_price data) (bought_at data) (status data)
             false (current_price data) (percent_change data)
             (alert_type data) (alert_triggered_at data)
             (Some p).

Definition unset_simulated (data : position) : position :=
  mkPosition (symbol data) (buy_price data) (bought_at data) (status data)
             (alert_sent data) (current_price data) (percent_change data)
             (alert_type data) (alert_triggered_at data)
             None.

(** POST [/simulate-price-movement/{transaction_id}]: the body is
    [buy_price], [simulated_current_price] and [expected_percent_change].
    The division comes after the two writes. *)
Definition simulate_price_movement (tx_id : Z) (simulated : float) (st : state)
  : response (float * float * float) * state :=
  match Dict.get tx_id (portfolio st) with
  | None => (HTTPException 404 "Transaction not found", st)
  | Some data =>
      let st' := mkState (Dict.set tx_id (set_simulated data simulated)
                                   (portfolio st))
                         (alert_history st) in
      match percent_change_of (buy_price data) simulated with
      | None => (Unhandled ZeroDivisionError, st')
      | Some pc => (Ok (buy_price data, simulated, PyFloat.round2 pc), st')
      end
  end.

(** DELETE [/simulate-price-movement/{transaction_id}] *)
Definition clear_simulation (tx_id : Z) (st : state) : response unit * state :=
  match Dict.get tx_id (portfolio st) with
  | None => (HTTPException 404 "Transaction not found", st)
  | Some data =>
      (Ok tt,
       mkState (Dict.set tx_id (unset_simulated data) (portfolio st))
               (alert_history st))
  end.

(** GET [/portfolio]: every record is copied before it is enriched with a
    fresh quote, so the store is only read. *)
Definition enrich (w : world) (data : position) : option position :=
  if String.eqb (status data) "ACTIVE" then
    match get_live_price (yf_Ticker w) (symbol data) with
    | Some cp =>
        if PyFloat.truthy cp then
          match percent_change_of (buy_price data) cp with
          | Some pc => Some (set_tracking data cp (PyFloat.round2 pc))
          | None => None
          end
        else Some data
    | None => Some data
    end
  else Some data.

Fixpoint enrich_all (env : Z -> world) (items : Dict.t position)
  : option (Dict.t position) :=
  match items with
  | [] => Some []
  | (tx_id, data) :: rest =>
      match enrich (env tx_id) data with
      | None => None
      | Some data' =>
          match enrich_all env rest with
          | None => None
          | Some rest' => Some ((tx_id, data') :: rest')
          end
      end
  end.

Definition view_portfolio (env : Z -> world) (st : state)
  : response (Dict.t position * nat) * state :=
  match enrich_all env (portfolio st) with
  | None => (Unhandled ZeroDivisionError, st)
  | Some enriched => (Ok (enriched, List.length (portfolio st)), st)
  end.

(** ** Runs of the service *)

(** One atomic step: a request served or a run of the monitor. *)
Inductive request :=
| Buy (w : world) (order_symbol : string)
| Monitor (env : Z -> world)
| ViewPortfolio (env : Z -> world)
| ViewAlerts
| LatestAlerts
| ResetAlert (tx_id : Z)
| SimulatePrice (tx_id : Z) (simulated : float)
| ClearSimulation (tx_id : Z).

Definition handle (st : state) (r : request) : state :=
  match r with
  | Buy w s => snd (buy_stock w s st)
  | Monitor env => tick env st
  | ViewPortfolio env => snd (view_portfolio env st)
  | ViewAlerts => snd (view_alerts st)
  | LatestAlerts => snd (get_latest_alerts st)
  | ResetAlert tx_id => snd (reset_alert tx_id st)
  | SimulatePrice tx_id p => snd (simulate_price_movement tx_id p st)
  | ClearSimulation tx_id => snd (clear_simulation tx_id st)
  end.

Definition run (rs : list request) : state := fold_left handle rs empty_state.

(** The states the service can be in: both stores start empty. *)
Inductive reachable : state -> Prop :=
| reachable_start : reachable empty_state
| reachable_step st r : reachable st -> reachable (handle st r).

(** What every reachable store satisfies: keys are held once, the ids are
    1, 2, ... in insertion order, and no purchase price is zero. *)
Definition nonzero_buy (kv : Z * position) : Prop :=
  PyFloat.truthy (buy_price (snd kv)) = true.

Record store_ok (st : state) : Prop := mkStoreOk {
  ok_ids : Dict.keys (portfolio st)
           = map Z.of_nat (seq 1 (List.length (portfolio st)));
  ok_buy : Forall nonzero_buy (portfolio st)
}.

(** ** The remaining read-only handlers *)

(** One entry of the answer of [/stocks]. *)
Record stock_entry := mkStockEntry {
  se_symbol : string;
  se_current_price : option float;
  se_status : string
}.

(** GET [/stocks]: one lookup per symbol of the watchlist.  The lookup
    catches every exception itself, so the handler's own [except] branch,
    which would report the status [error], has nothing to catch. *)
Definition list_stocks (w : world) : list stock_entry :=
  map (fun sym =>
         match get_live_price (yf_Ticker w) sym with
         | Some price =>
             if PyFloat.truthy price
             then mkStockEntry sym (Some price) "available"
             else mkStockEntry sym None "unavailable"
         | None => mkStockEntry sym None "unavailable"
         end)
      WATCHLIST.

Definition MONITORING_INTERVAL : Z := 5.

(** [sum(1 for p in portfolio.values() if p.get('status') == 'ACTIVE')] *)
Definition active_positions (st : state) : nat :=
  List.length
    (filter (fun kv => String.eqb (status (snd kv)) "ACTIVE") (portfolio st)).

(** [sum(len(alerts) for alerts in alert_history.values())] *)
Definition total_alerts (st : state) : nat :=
  fold_right (fun kv n => (List.length (snd kv) + n)%nat) 0%nat
             (alert_history st).

(** GET [/status]; [running] is what the scheduler reports about itself. *)
Definition system_status (running : bool) (st : state)
  : Z * list string * nat * nat * bool :=
  (MONITORING_INTERVAL, WATCHLIST, active_positions st, total_alerts st,
   running).

(** ** Notions used in the statements *)

(** The keys the monitor never writes. *)
Definition fixed_part (data : position)
  : string * float * string * string * option float :=
  (symbol data, buy_price data, bought_at data, status data,
   simulated_current_price data).

(** The monitor, looking at [data] in world [w], finds a price past the
    threshold. *)
Definition qualifies (w : world) (data : position) : Prop :=
  exists cp pc k,
    resolve_price w data = Some cp
    /\ percent_change_of (buy_price data) cp = Some pc
    /\ classify pc = Some k.

(** The monitor, looking at [data] in world [w], finds no price or a price
    inside the band. *)
Definition quiet (w : world) (data : position) : Prop :=
  resolve_price w data = None
  \/ exists cp pc,
       resolve_price w data = Some cp
       /\ percent_change_of (buy_price data) cp = Some pc
       /\ classify pc = None.

(** Successive ticks, each in its own world. *)
Definition ticks (envs : list (Z -> world)) (st : state) : state :=
  fold_left (fun s env => tick env s) envs st.

(** Newest first: no later entry has a greater timestamp. *)
Definition newer_or_same (a b : alert_event) : Prop :=
  String.leb (timestamp b) (timestamp a) = true.

(** Some field of the ticker converted to the float [p]. *)
Definition quoted (t : ticker) (p : float) : Prop :=
  fast_info_last_price t = Got p
  \/ info_currentPrice t = Got p
  \/ info_regularMarketPrice t = Got p
  \/ history_1m_close t = Got p
  \/ history_1d_close t = Got p.

(** Two events that differ at most in their [transaction_id]. *)
Definition same_alert (e e' : alert_event) : Prop :=
  timestamp e' = timestamp e
  /\ ev_type e' = ev_type e
  /\ ev_percent_change e' = ev_percent_change e
  /\ ev_current_price e' = ev_current_price e
  /\ ev_buy_price e' = ev_buy_price e.

(** The entry of the alert history holds at least one event. *)
Definition has_alerts (kv : Z * list alert_event) : bool :=
  match snd kv with [] => false | _ :: _ => true end.

(** What holds of every position a run of the service can store. *)
Definition position_ok (data : position) : Prop :=
  status data = "ACTIVE"
  /\ In (symbol data) WATCHLIST
  /\ PyFloat.truthy (buy_price data) = true
  /\ (alert_sent data = true ->
      alert_type data <> None /\ alert_triggered_at data <> None).

(** An event of transaction [tx], bought at [buy]: it records that purchase
    price, and if it carries a transaction id it is its own. *)
Definition event_ok (tx : Z) (buy : float) (e : alert_event) : Prop :=
  ev_buy_price e = buy
  /\ (transaction_id e = None \/ transaction_id e = Some tx).

(** The alert history against a table of purchase prices: keys are held
    once, no list is empty, and every event of a transaction is an event
    of that transaction at its purchase price. *)
Definition hist_inv (bp : Z -> option float) (h : Dict.t (list alert_event))
  : Prop :=
  Dict.wf h
  /\ forall tx l,
       Dict.get tx h = Some l ->
       l <> [] /\ exists b, bp tx = Some b /\ Forall (event_ok tx b) l.

(** The purchase prices of a portfolio, by transaction id. *)
Definition buy_prices (p : Dict.t position) : Z -> option float :=
  fun tx => option_map buy_price (Dict.get tx p).

(** From [st] to [st'] nothing changed but, at most, the record stored
    under [tx]. *)
Definition only_touches (tx : Z) (st st' : state) : Prop :=
  alert_history st' = alert_history st
  /\ Dict.keys (portfolio st') = Dict.keys (portfolio st)
  /\ forall k, k <> tx ->
       Dict.get k (portfolio st') = Dict.get k (portfolio st).

(** The requests that arm a transaction again: a reset and a simulated
    price, both of which set [alert_sent] to false. *)
Definition arms (tx : Z) (r : request) : nat :=
  match r with
  | ResetAlert k | SimulatePrice k _ => if k =? tx then 1%nat else 0%nat
  | _ => 0%nat
  end.

Definition armings (tx : Z) (rs : list request) : nat :=
  fold_right (fun r n => (arms tx r + n)%nat) 0%nat rs.

(** 1 when the position exists and has no alert pending, 0 otherwise. *)
Definition armed (tx : Z) (st : state) : nat :=
  match Dict.get tx (portfolio st) with
  | Some data => if alert_sent data then 0%nat else 1%nat
  | None => 0%nat
  end.

(** The number of alerts recorded for a transaction. *)
Definition alerts_of (tx : Z) (st : state) : nat :=
  List.length (history_of tx (alert_history st)).

(** A float, in its specification form, that is +0, positive or +inf. *)
Definition nonneg_sf (x : spec_float) : bool :=
  match x with
  | S754_zero false | S754_infinity false | S754_finite false _ _ => true
  | _ => false
  end.

(** ** Sample worlds and runs *)

Definition quote_at (p : float) : string -> option ticker :=
  fun _ => Some (mkTicker (Got p) Missing Missing Missing Missing).

Definition no_quote : string -> option ticker :=
  fun _ => Some (mkTicker Raised Raised Missing Missing Raised).

Definition clock_at (t0 t1 : string) : nat -> string :=
  fun n => match n with O => t0 | S _ => t1 end.

Definition world_100 : world :=
  mkWorld (quote_at 100) (clock_at "2024-01-01T10:00:00" "2024-01-01T10:00:00").

Definition world_105 : world :=
  mkWorld (quote_at 105)
          (clock_at "2024-01-01T10:00:05.000100" "2024-01-01T10:00:05.000200").

Definition world_closed : world :=
  mkWorld no_quote (clock_at "2024-01-01T10:00:10" "2024-01-01T10:00:10").

(** A quote of 1/256, under half a cent. *)
Definition world_penny : world :=
  mkWorld (quote_at 0.00390625)
          (clock_at "2024-01-01T10:01:00" "2024-01-01T10:01:00").

(** One purchase of TCS.NS at 100. *)
Definition held : position :=
  new_position "TCS.NS" 100 "2024-01-01T10:00:00".

Definition bought : state := mkState [(1, held)] [].

(** The store after a purchase at 100 and a tick at 105. *)
Definition alerted : state :=
  run [Buy world_100 "TCS.NS"; Monitor (fun _ => world_105)].

(** Two transactions with alerts: two on the first, a later one on the
    second. *)
Definition two_histories : state :=
  mkState
    [(1, held); (2, new_position "RELIANCE.NS" 200 "2024-01-01T10:00:01")]
    [(1, [mkEvent "2024-01-01T10:00:05" PROFIT 5 105 100 None;
          mkEvent "2024-01-01T10:02:00" LOSS (-6) 94 100 None]);
     (2, [mkEvent "2024-01-01T10:03:00" PROFIT 10 220 200 None])].

(** * Properties *)

(** ** Dictionaries *)

Module DictFacts.
Section Facts.
Context {V : Type}.
Implicit Types (d : Dict.t V) (k : Z) (v : V).

Lemma get_set_same k v d : Dict.get k (Dict.set k v d) = Some v.
Proof.
  induction d as [|[k' v'] d IH]; simpl.
  - now rewrite Z.eqb_refl.
  - destruct (k =? k') eqn:E; simpl; rewrite ?E, ?Z.eqb_refl; auto.
Qed.

Lemma get_set_other k k' v d :
  k <> k' -> Dict.get k (Dict.set k' v d) = Dict.get k d.
Proof.
  intros Hne. induction d as [|[k0 v0] d IH]; simpl.
  - destruct (k =? k') eqn:E; auto. apply Z.eqb_eq in E. contradiction.
  - destruct (k' =? k0) eqn:E0; simpl.
    + apply Z.eqb_eq in E0. subst k0.
      destruct (k =? k') eqn:E; auto. apply Z.eqb_eq in E. contradiction.
    + now rewrite IH.
Qed.

Lemma get_none_not_in k d : Dict.get k d = None <-> ~ In k (Dict.keys d).
Proof.
  induction d as [|[k' v'] d IH]; simpl.
  - tauto.
  - destruct (k =? k') eqn:E.
    + apply Z.eqb_eq in E. split; [discriminate | intros H; exfalso; auto].
    + apply Z.eqb_neq in E. rewrite IH. split; [intros H [?|?] | ]; auto.
Qed.

Lemma get_some_in k v d : Dict.get k d = Some v -> In k (Dict.keys d).
Proof.
  intros H. destruct (in_dec Z.eq_dec k (Dict.keys d)) as [|Hn]; auto.
  apply get_none_not_in in Hn. congruence.
Qed.

Lemma keys_set_present k v d :
  In k (Dict.keys d) -> Dict.keys (Dict.set k v d) = Dict.keys d.
Proof.
  induction d as [|[k' v'] d IH]; simpl; [tauto|].
  intros H. destruct (k =? k') eqn:E; simpl.
  - apply Z.eqb_eq in E. now subst.
  - apply Z.eqb_neq in E. f_equal. apply IH. destruct H; congruence.
Qed.

Lemma keys_set_absent k v d :
  ~ In k (Dict.keys d) -> Dict.keys (Dict.set k v d) = Dict.keys d ++ [k].
Proof.
  induction d as [|[k' v'] d IH]; simpl; auto.
  intros H. destruct (k =? k') eqn:E; simpl.
  - apply Z.eqb_eq in E. exfalso; auto.
  - f_equal. apply IH. auto.
Qed.

Lemma set_absent k v d :
  ~ In k (Dict.keys d) -> Dict.set k v d = d ++ [(k, v)].
Proof.
  induction d as [|[k' v'] d IH]; simpl; auto.
  intros H. destruct (k =? k') eqn:E; simpl.
  - apply Z.eqb_eq in E. exfalso; auto.
  - f_equal. apply IH. auto.
Qed.

Lemma Forall_set (P : Z * V -> Prop) k v d :
  Forall P d -> P (k, v) -> Forall P (Dict.set k v d).
Proof.
  intros Hd Hv. induction Hd as [|[k' v'] d Hx Hd IH]; simpl.
  - auto.
  - destruct (k =? k'); auto.
Qed.

Lemma get_Forall (P : Z * V -> Prop) k v d :
  Forall P d -> Dict.get k d = Some v -> P (k, v).
Proof.
  intros Hd. induction Hd as [|[k' v'] d Hx Hd IH]; simpl; [discriminate|].
  destruct (k =? k') eqn:E; auto.
  apply Z.eqb_eq in E. intros [= <-]. now subst.
Qed.
End Facts.
End DictFacts.

Lemma ids_fresh (n : nat) : ~ In (Z.of_nat n + 1) (map Z.of_nat (seq 1 n)).
Proof.
  intros H. apply in_map_iff in H. destruct H as [m [Hm Hin]].
  apply in_seq in Hin. lia.
Qed.

Lemma ids_NoDup (n : nat) : NoDup (map Z.of_nat (seq 1 n)).
Proof.
  apply Injective_map_NoDup.
  - intros a b. apply Nat2Z.inj.
  - apply seq_NoDup.
Qed.

Lemma ids_snoc (n : nat) :
  map Z.of_nat (seq 1 n) ++ [Z.of_nat n + 1] = map Z.of_nat (seq 1 (S n)).
Proof.
  rewrite seq_S, map_app. simpl. do 2 f_equal. lia.
Qed.

Lemma store_ok_wf st : store_ok st -> Dict.wf (portfolio st).
Proof. intros [Hids _]. unfold Dict.wf. rewrite Hids. apply ids_NoDup. Qed.

(** ** The body of the monitor loop *)

Section Body.
Variables (w : world) (data : position).
Hypothesis Hactive : status data = "ACTIVE".

Lemma body_skip :
  resolve_price w data = None -> monitor_position w data = Some (data, None).
Proof.
  intros Hr. unfold monitor_position.
  rewrite Hactive, String.eqb_refl, Hr. reflexivity.
Qed.

Variables (cp pc : float).
Hypothesis Hprice : resolve_price w data = Some cp.
Hypothesis Hpc : percent_change_of (buy_price data) cp = Some pc.

Lemma body_fire k :
  classify pc = Some k -> alert_sent data = false ->
  monitor_position w data
  = Some (set_alerted (set_tracking data cp (PyFloat.round2 pc)) k (clock w 0),
          Some (new_event w k pc cp (buy_price data))).
Proof.
  intros Hk Hs. unfold monitor_position.
  rewrite Hactive, String.eqb_refl, Hprice, Hpc, Hk. simpl.
  now rewrite Hs.
Qed.

Lemma body_debounce k :
  classify pc = Some k -> alert_sent data = true ->
  monitor_position w data
  = Some (set_tracking data cp (PyFloat.round2 pc), None).
Proof.
  intros Hk Hs. unfold monitor_position.
  rewrite Hactive, String.eqb_refl, Hprice, Hpc, Hk. simpl.
  now rewrite Hs.
Qed.

Lemma body_quiet :
  classify pc = None ->
  monitor_position w data
  = Some (set_tracking data cp (PyFloat.round2 pc), None).
Proof.
  intros Hk. unfold monitor_position.
  now rewrite Hactive, String.eqb_refl, Hprice, Hpc, Hk.
Qed.
End Body.

Lemma body_fixed_part w data data' ev :
  monitor_position w data = Some (data', ev) ->
  fixed_part data' = fixed_part data.
Proof.
  unfold monitor_position. intros H.
  destruct (negb (String.eqb (status data) "ACTIVE")); [now inversion H|].
  destruct (resolve_price w data) as [cp|]; [|now inversion H].
  destruct (percent_change_of (buy_price data) cp) as [pc|]; [|discriminate].
  destruct (classify pc) as [k|]; [|now inversion H].
  simpl in H. destruct (alert_sent data); now inversion H.
Qed.

Lemma body_returns w data :
  PyFloat.truthy (buy_price data) = true ->
  exists data' ev, monitor_position w data = Some (data', ev).
Proof.
  intros Hb. unfold monitor_position.
  destruct (negb (String.eqb (status data) "ACTIVE")); [eauto|].
  destruct (resolve_price w data) as [cp|]; [|eauto].
  unfold percent_change_of. unfold PyFloat.truthy in Hb.
  destruct (PrimFloat.eqb (buy_price data) 0); [discriminate|].
  destruct (classify _); [|eauto].
  destruct (alert_sent _); eauto.
Qed.

Lemma resolve_price_fixed w data data' :
  fixed_part data' = fixed_part data ->
  resolve_price w data' = resolve_price w data.
Proof.
  unfold fixed_part, resolve_price. intros [= Hsym _ _ _ Hsim].
  now rewrite Hsym, Hsim.
Qed.

(** ** The history under one key *)

Lemma get_record_alert_other tx k ev h :
  tx <> k -> Dict.get tx (record_alert k ev h) = Dict.get tx h.
Proof.
  intros Hne. destruct ev; simpl; auto.
  now apply DictFacts.get_set_other.
Qed.

Lemma get_record_alert_same tx e h :
  Dict.get tx (record_alert tx (Some e) h) = Some (history_of tx h ++ [e]).
Proof. apply DictFacts.get_set_same. Qed.

(** ** The monitor loop *)

Lemma monitor_loop_keys env items : forall h items' h' c,
  monitor_loop env items h = (items', h', c) ->
  Dict.keys items' = Dict.keys items.
Proof.
  induction items as [|[k d] rest IH]; simpl; intros h items' h' c H.
  - now inversion H.
  - destruct (monitor_position (env k) d) as [[d' ev]|]; [|now inversion H].
    destruct (monitor_loop env rest (record_alert k ev h)) as [[r1 h1] c1] eqn:E.
    inversion H; subst. simpl. f_equal. eapply IH; eauto.
Qed.

(** A key the loop does not visit keeps its history. *)
Lemma monitor_loop_history_other env tx items : forall h items' h' c,
  monitor_loop env items h = (items', h', c) ->
  ~ In tx (Dict.keys items) ->
  Dict.get tx h' = Dict.get tx h.
Proof.
  induction items as [|[k d] rest IH]; simpl; intros h items' h' c H Hn.
  - now inversion H.
  - destruct (monitor_position (env k) d) as [[d' ev]|]; [|now inversion H].
    destruct (monitor_loop env rest (record_alert k ev h)) as [[r1 h1] c1] eqn:E.
    inversion H; subst.
    rewrite (IH _ _ _ _ E) by tauto.
    apply get_record_alert_other. intros ->. tauto.
Qed.

(** What the loop does to one item: either an earlier item raised and the
    item is untouched, or the body ran on it, against the history the item
    had when the loop started. *)
Lemma monitor_loop_at env tx data items : forall h items' h' c,
  monitor_loop env items h = (items', h', c) ->
  Dict.wf items ->
  Dict.get tx items = Some data ->
  (c = ZeroDivisionError /\ Dict.get tx items' = Some data
   /\ Dict.get tx h' = Dict.get tx h)
  \/ (exists data' ev,
        monitor_position (env tx) data = Some (data', ev)
        /\ Dict.get tx items' = Some data'
        /\ Dict.get tx h' = Dict.get tx (record_alert tx ev h)).
Proof.
  induction items as [|[k d] rest IH]; simpl; intros h items' h' c H Hwf Hget.
  - discriminate.
  - unfold Dict.wf in Hwf. simpl in Hwf.
    apply NoDup_cons_iff in Hwf. destruct Hwf as [Hk Hwf].
    destruct (monitor_position (env k) d) as [[d' ev]|] eqn:Hbody.
    + destruct (monitor_loop env rest (record_alert k ev h))
        as [[r1 h1] c1] eqn:E.
      inversion H; subst. simpl.
      destruct (tx =? k) eqn:Etx.
      * apply Z.eqb_eq in Etx. subst k. inversion Hget; subst d.
        right. exists d', ev. repeat split; auto.
        eapply monitor_loop_history_other; eauto.
      * apply Z.eqb_neq in Etx.
        destruct (IH _ _ _ _ E Hwf Hget) as [(Hc & Hi & Hh)|(d1 & e1 & Hb & Hi & Hh)].
        -- left. repeat split; auto.
           rewrite Hh. now apply get_record_alert_other.
        -- right. exists d1, e1. repeat split; auto.
           rewrite Hh. destruct e1 as [e1|]; simpl.
           ++ rewrite !DictFacts.get_set_same. unfold history_of.
              now rewrite get_record_alert_other.
           ++ now apply get_record_alert_other.
    + inversion H; subst. left. simpl. auto.
Qed.

(** With no zero purchase price in the store, the loop runs to its end. *)
Lemma monitor_loop_returns env items : forall h,
  Forall nonzero_buy items ->
  snd (monitor_loop env items h) = Returned.
Proof.
  induction items as [|[k d] rest IH]; simpl; intros h Hf; auto.
  inversion Hf as [|? ? Hd Hrest]; subst.
  destruct (body_returns (env k) d Hd) as (d' & ev & ->).
  specialize (IH (record_alert k ev h) Hrest).
  destruct (monitor_loop env rest (record_alert k ev h)) as [[r1 h1] c1].
  exact IH.
Qed.

Lemma monitor_loop_nonzero env items : forall h items' h' c,
  monitor_loop env items h = (items', h', c) ->
  Forall nonzero_buy items -> Forall nonzero_buy items'.
Proof.
  induction items as [|[k d] rest IH]; simpl; intros h items' h' c H Hf.
  - now inversion H.
  - destruct (monitor_position (env k) d) as [[d' ev]|] eqn:Hbody;
      [|now inversion H].
    destruct (monitor_loop env rest (record_alert k ev h)) as [[r1 h1] c1] eqn:E.
    inversion H; subst. inversion Hf as [|? ? Hd Hrest]; subst.
    constructor; [|eapply IH; eauto].
    apply body_fixed_part in Hbody. unfold fixed_part in Hbody.
    unfold nonzero_buy in *. simpl in *. congruence.
Qed.

(** ** A tick on the whole state *)

Lemma tick_unfold env st :
  monitor_loop env (portfolio st) (alert_history st)
  = (portfolio (tick env st), alert_history (tick env st),
     snd (monitor_market env st)).
Proof.
  unfold tick, monitor_market.
  now destruct (monitor_loop env (portfolio st) (alert_history st)) as [[p h] c].
Qed.

Lemma tick_returns env st :
  store_ok st -> snd (monitor_market env st) = Returned.
Proof.
  intros [_ Hbuy].
  pose proof (monitor_loop_returns env _ (alert_history st) Hbuy) as H.
  now rewrite tick_unfold in H.
Qed.

(** On a reachable store the body runs on every item, and the item and its
    history after the tick are what the body made of them. *)
Lemma tick_at env st tx data :
  store_ok st ->
  Dict.get tx (portfolio st) = Some data ->
  exists data' ev,
    monitor_position (env tx) data = Some (data', ev)
    /\ Dict.get tx (portfolio (tick env st)) = Some data'
    /\ Dict.get tx (alert_history (tick env st))
       = Dict.get tx (record_alert tx ev (alert_history st)).
Proof.
  intros Hok Hget.
  destruct (monitor_loop_at env tx data _ _ _ _ _
              (tick_unfold env st) (store_ok_wf st Hok) Hget)
    as [(Hc & _)|H]; auto.
  rewrite (tick_returns env st Hok) in Hc. discriminate.
Qed.

Lemma keys_length {V} (d d' : Dict.t V) :
  Dict.keys d' = Dict.keys d -> List.length d' = List.length d.
Proof.
  unfold Dict.keys. intros H.
  rewrite <- (length_map fst d'), <- (length_map fst d). now rewrite H.
Qed.

Lemma store_ok_same_keys st p h :
  store_ok st ->
  Dict.keys p = Dict.keys (portfolio st) ->
  Forall nonzero_buy p ->
  store_ok (mkState p h).
Proof.
  intros [Hids Hbuy] Hk Hf. constructor; simpl; auto.
  now rewrite Hk, (keys_length _ _ Hk).
Qed.

Lemma tick_store_ok env st : store_ok st -> store_ok (tick env st).
Proof.
  intros Hok. pose proof (tick_unfold env st) as H.
  destruct (tick env st) as [p h]. simpl in H.
  apply store_ok_same_keys with (st := st); auto.
  - eapply monitor_loop_keys; eauto.
  - eapply monitor_loop_nonzero; eauto. apply Hok.
Qed.

(** Rewriting the record of a known transaction without touching its
    purchase price keeps the store well formed. *)
Lemma update_store_ok st tx data data' :
  store_ok st ->
  Dict.get tx (portfolio st) = Some data ->
  buy_price data' = buy_price data ->
  store_ok (mkState (Dict.set tx data' (portfolio st)) (alert_history st)).
Proof.
  intros Hok Hget Hb.
  apply store_ok_same_keys with (st := st); auto.
  - apply DictFacts.keys_set_present. eapply DictFacts.get_some_in; eauto.
  - apply DictFacts.Forall_set; [apply Hok|].
    pose proof (DictFacts.get_Forall _ _ _ _ (ok_buy st Hok) Hget) as Hd.
    unfold nonzero_buy in *. simpl in *. now rewrite Hb.
Qed.

Lemma buy_store_ok w s st : store_ok st -> store_ok (snd (buy_stock w s st)).
Proof.
  intros Hok. unfold buy_stock.
  destruct (negb (in_watchlist (upper s))); auto.
  destruct (get_live_price (yf_Ticker w) (upper s)) as [p|]; auto.
  destruct (negb (PyFloat.truthy p)) eqn:Ht; auto.
  apply negb_false_iff in Ht. destruct Hok as [Hids Hbuy].
  assert (Hfresh : ~ In (Z.of_nat (List.length (portfolio st)) + 1)
                        (Dict.keys (portfolio st)))
    by (rewrite Hids; apply ids_fresh).
  constructor; simpl.
  - rewrite DictFacts.keys_set_absent by exact Hfresh.
    rewrite DictFacts.set_absent by exact Hfresh.
    rewrite Hids, length_app. simpl.
    rewrite Nat.add_1_r. apply ids_snoc.
  - apply DictFacts.Forall_set; auto.
Qed.

Lemma handle_store_ok st r : store_ok st -> store_ok (handle st r).
Proof.
  intros Hok. destruct r; simpl.
  - now apply buy_store_ok.
  - now apply tick_store_ok.
  - unfold view_portfolio. now destruct (enrich_all env (portfolio st)).
  - exact Hok.
  - unfold get_latest_alerts.
    destruct (latest_per_transaction (alert_history st)) as [l h]. simpl.
    destruct Hok. now constructor.
  - unfold reset_alert.
    destruct (Dict.get tx_id (portfolio st)) as [d|] eqn:E; auto.
    simpl. eapply update_store_ok; eauto.
  - unfold simulate_price_movement.
    destruct (Dict.get tx_id (portfolio st)) as [d|] eqn:E; auto.
    destruct (percent_change_of (buy_price d) simulated);
      simpl; eapply update_store_ok; eauto.
  - unfold clear_simulation.
    destruct (Dict.get tx_id (portfolio st)) as [d|] eqn:E; auto.
    simpl. eapply update_store_ok; eauto.
Qed.

Lemma empty_store_ok : store_ok empty_state.
Proof. constructor; simpl; auto. Qed.

Lemma reachable_store_ok st : reachable st -> store_ok st.
Proof.
  induction 1; [apply empty_store_ok | now apply handle_store_ok].
Qed.

Lemma run_reachable rs : reachable (run rs).
Proof.
  unfold run. generalize empty_state, reachable_start.
  induction rs as [|r rs IH]; simpl; intros st Hst; auto.
  apply IH. now constructor.
Qed.

(** ** Crossings *)

Lemma qualifies_fixed w data data' :
  fixed_part data' = fixed_part data -> qualifies w data -> qualifies w data'.
Proof.
  intros Hfix (cp & pc & k & Hr & Hp & Hk). exists cp, pc, k.
  rewrite (resolve_price_fixed w data data' Hfix).
  unfold fixed_part in Hfix. injection Hfix as _ Hb _ _ _.
  now rewrite Hb.
Qed.

Section OneTick.
Variables (env : Z -> world) (st : state) (tx : Z) (data : position).
Hypothesis Hok : store_ok st.
Hypothesis Hget : Dict.get tx (portfolio st) = Some data.
Hypothesis Hactive : status data = "ACTIVE".

(** A crossing on an armed position appends one event and disarms it. *)
Lemma tick_fires cp pc k :
  resolve_price (env tx) data = Some cp ->
  percent_change_of (buy_price data) cp = Some pc ->
  classify pc = Some k ->
  alert_sent data = false ->
  Dict.get tx (alert_history (tick env st))
  = Some (history_of tx (alert_history st)
          ++ [new_event (env tx) k pc cp (buy_price data)])
  /\ Dict.get tx (portfolio (tick env st))
     = Some (set_alerted (set_tracking data cp (PyFloat.round2 pc)) k
                         (clock (env tx) 0)).
Proof.
  intros Hr Hp Hk Hs.
  destruct (tick_at env st tx data Hok Hget) as (d' & ev & Hb & Hd & Hh).
  rewrite (body_fire _ _ Hactive _ _ Hr Hp _ Hk Hs) in Hb.
  inversion Hb; subst. split; auto.
  rewrite Hh. apply get_record_alert_same.
Qed.

(** A crossing on a position that has already alerted appends nothing. *)
Lemma tick_debounced cp pc k :
  resolve_price (env tx) data = Some cp ->
  percent_change_of (buy_price data) cp = Some pc ->
  classify pc = Some k ->
  alert_sent data = true ->
  Dict.get tx (alert_history (tick env st)) = Dict.get tx (alert_history st)
  /\ Dict.get tx (portfolio (tick env st))
     = Some (set_tracking data cp (PyFloat.round2 pc)).
Proof.
  intros Hr Hp Hk Hs.
  destruct (tick_at env st tx data Hok Hget) as (d' & ev & Hb & Hd & Hh).
  rewrite (body_debounce _ _ Hactive _ _ Hr Hp _ Hk Hs) in Hb.
  inversion Hb; subst. split; auto.
Qed.

(** A price inside the band appends nothing and leaves the flag alone. *)
Lemma tick_quiet cp pc :
  resolve_price (env tx) data = Some cp ->
  percent_change_of (buy_price data) cp = Some pc ->
  classify pc = None ->
  Dict.get tx (alert_history (tick env st)) = Dict.get tx (alert_history st)
  /\ Dict.get tx (portfolio (tick env st))
     = Some (set_tracking data cp (PyFloat.round2 pc)).
Proof.
  intros Hr Hp Hk.
  destruct (tick_at env st tx data Hok Hget) as (d' & ev & Hb & Hd & Hh).
  rewrite (body_quiet _ _ Hactive _ _ Hr Hp Hk) in Hb.
  inversion Hb; subst. split; auto.
Qed.

(** No price: the item and its history are as before. *)
Lemma tick_skips :
  resolve_price (env tx) data = None ->
  Dict.get tx (portfolio (tick env st)) = Some data
  /\ Dict.get tx (alert_history (tick env st))
     = Dict.get tx (alert_history st).
Proof.
  intros Hr.
  destruct (tick_at env st tx data Hok Hget) as (d' & ev & Hb & Hd & Hh).
  rewrite (body_skip _ _ Hactive Hr) in Hb. inversion Hb; subst. auto.
Qed.
End OneTick.

(** While a position stays alerted, crossings on later ticks add nothing
    to its history, however many there are. *)
Lemma ticks_debounced tx envs : forall st data,
  store_ok st ->
  Dict.get tx (portfolio st) = Some data ->
  status data = "ACTIVE" ->
  alert_sent data = true ->
  Forall (fun env => qualifies (env tx) data) envs ->
  Dict.get tx (alert_history (ticks envs st)) = Dict.get tx (alert_history st).
Proof.
  unfold ticks.
  induction envs as [|env envs IH]; simpl; intros st data Hok Hget Ha Hs Hq; auto.
  inversion Hq as [|? ? (cp & pc & k & Hr & Hp & Hk) Hrest]; subst.
  destruct (tick_debounced env st tx data Hok Hget Ha cp pc k Hr Hp Hk Hs)
    as [Hh Hd].
  rewrite (IH (tick env st) (set_tracking data cp (PyFloat.round2 pc))); auto.
  now apply tick_store_ok.
Qed.

(** ** C1: debounce *)

(** C1.  On every tick, for every ACTIVE position whose resolved price is
    past the threshold: if [alert_sent] was false, one event is appended to
    the transaction's history and [alert_sent] becomes true; if [alert_sent]
    was already true, the history of the transaction is what it was.  Either
    way the position is alerted after the tick, and however many later ticks
    find a price past the threshold, none of them adds to the history. *)
Theorem debounce env st tx data cp pc k :
  store_ok st ->
  Dict.get tx (portfolio st) = Some data ->
  status data = "ACTIVE" ->
  resolve_price (env tx) data = Some cp ->
  percent_change_of (buy_price data) cp = Some pc ->
  classify pc = Some k ->
  (alert_sent data = false ->
   Dict.get tx (alert_history (tick env st))
   = Some (history_of tx (alert_history st)
           ++ [new_event (env tx) k pc cp (buy_price data)]))
  /\ (alert_sent data = true ->
      Dict.get tx (alert_history (tick env st))
      = Dict.get tx (alert_history st))
  /\ (exists data',
        Dict.get tx (portfolio (tick env st)) = Some data'
        /\ alert_sent data' = true)
  /\ (forall later,
        Forall (fun env' => qualifies (env' tx) data) later ->
        Dict.get tx (alert_history (ticks later (tick env st)))
        = Dict.get tx (alert_history (tick env st))).
Proof.
  intros Hok Hget Hact Hr Hp Hk.
  assert (Hafter : exists data',
             Dict.get tx (portfolio (tick env st)) = Some data'
             /\ alert_sent data' = true
             /\ fixed_part data' = fixed_part data).
  { destruct (alert_sent data) eqn:Hs.
    - destruct (tick_debounced env st tx data Hok Hget Hact cp pc k Hr Hp Hk Hs)
        as [_ Hd].
      eexists; split; [exact Hd|]. simpl. auto.
    - destruct (tick_fires env st tx data Hok Hget Hact cp pc k Hr Hp Hk Hs)
        as [_ Hd].
      eexists; split; [exact Hd|]. simpl. auto. }
  repeat split.
  - intros Hs. now apply tick_fires.
  - intros Hs. now apply (tick_debounced env st tx data Hok Hget Hact cp pc k).
  - destruct Hafter as (d' & Hd & Hs & _). eauto.
  - intros later Hq. destruct Hafter as (d' & Hd & Hs & Hfix).
    apply ticks_debounced with (data := d'); auto.
    + now apply tick_store_ok.
    + unfold fixed_part in Hfix. injection Hfix as _ _ _ Hst _. congruence.
    + eapply Forall_impl; [|exact Hq].
      intros e He. now apply qualifies_fixed with (data := data).
Qed.

Lemma bought_ok : store_ok bought.
Proof. constructor; [reflexivity | repeat constructor]. Qed.

(** The spec's scenario: bought at 100, a tick at 105 records one PROFIT
    alert, and a second tick at the same price records nothing more. *)
Lemma debounce_witness :
  Dict.get 1 (alert_history (tick (fun _ => world_105) bought))
  = Some [mkEvent "2024-01-01T10:00:05.000200" PROFIT 5 105 100 None]
  /\ Dict.get 1 (alert_history
                   (ticks [fun _ => world_105] (tick (fun _ => world_105) bought)))
     = Dict.get 1 (alert_history (tick (fun _ => world_105) bought)).
Proof.
  destruct (debounce (fun _ => world_105) bought 1 held 105 5 PROFIT)
    as (Hfire & _ & _ & Hlater);
    [exact bought_ok | reflexivity | reflexivity | reflexivity
    | reflexivity | reflexivity | ].
  split.
  - exact (Hfire eq_refl).
  - apply Hlater. repeat constructor.
    exists 105%float, 5%float, PROFIT. repeat split.
Defined.

(** ** C2: the threshold *)

(** No float is both at least 5 and at most -5. *)
Lemma thresholds_exclusive pc :
  PyFloat.geb pc 5 = true -> PrimFloat.leb pc (-5) = true -> False.
Proof.
  unfold PyFloat.geb. rewrite !leb_spec.
  set (five := Prim2SF 5). vm_compute in five.
  set (minus_five := Prim2SF (-5)). vm_compute in minus_five.
  subst five minus_five.
  destruct (Prim2SF pc) as [s|s| |s m e]; simpl;
    try destruct s; simpl; discriminate.
Qed.

(** The classification of a percent change, by two inclusive comparisons. *)
Lemma classify_inclusive pc :
  (classify pc = Some PROFIT <-> PyFloat.geb pc 5 = true)
  /\ (classify pc = Some LOSS <-> PrimFloat.leb pc (-5) = true)
  /\ (classify pc = None
      <-> PyFloat.geb pc 5 = false /\ PrimFloat.leb pc (-5) = false).
Proof.
  pose proof (thresholds_exclusive pc) as Hex.
  unfold classify.
  destruct (PyFloat.geb pc 5) eqn:Hp; destruct (PrimFloat.leb pc (-5)) eqn:Hl;
    repeat split; intros; try congruence; try tauto;
    try match goal with H : _ /\ _ |- _ => destruct H; congruence end.
Qed.

(** C2.  For every purchase price other than zero and every resolved
    current price, the percent change the monitor computes is
    (current_price - buy_price) / buy_price * 100 in binary64, and its
    classification is PROFIT exactly when that number is at least 5.0, LOSS
    exactly when it is at most -5.0, and nothing otherwise.  The loop body
    acts on that classification: on an armed ACTIVE position it emits the
    event of that type, or none, and records the type on the position.  A
    change of exactly 5.0 or -5.0 is a crossing, as from 100 to 105 and from
    100 to 95. *)
Theorem threshold_inclusive buy cur :
  PrimFloat.eqb buy 0 = false ->
  let pc := (((cur - buy) / buy) * 100)%float in
  percent_change_of buy cur = Some pc
  /\ (classify pc = Some PROFIT <-> PyFloat.geb pc 5 = true)
  /\ (classify pc = Some LOSS <-> PrimFloat.leb pc (-5) = true)
  /\ (classify pc = None
      <-> PyFloat.geb pc 5 = false /\ PrimFloat.leb pc (-5) = false)
  /\ (forall w data,
        status data = "ACTIVE" ->
        buy_price data = buy ->
        resolve_price w data = Some cur ->
        alert_sent data = false ->
        exists data',
          monitor_position w data
          = Some (data',
                  option_map (fun k => new_event w k pc cur buy) (classify pc))
          /\ (forall k, classify pc = Some k -> alert_type data' = Some k))
  /\ classify 5 = Some PROFIT
  /\ classify (-5) = Some LOSS
  /\ percent_change_of 100 105 = Some 5%float
  /\ percent_change_of 100 95 = Some (-5)%float.
Proof.
  intros Hbuy pc.
  assert (Hpc : percent_change_of buy cur = Some pc).
  { unfold percent_change_of. now rewrite Hbuy. }
  destruct (classify_inclusive pc) as (Hprofit & Hloss & Hnone).
  split; [exact Hpc|]. split; [exact Hprofit|]. split; [exact Hloss|].
  split; [exact Hnone|]. split; [|repeat split].
  intros w data Hact Hb Hr Hs. subst buy.
  destruct (classify pc) as [k|] eqn:Hk.
  - rewrite (body_fire w data Hact cur pc Hr Hpc k Hk Hs).
    eexists. split; [reflexivity|]. simpl. now intros k' [= <-].
  - rewrite (body_quiet w data Hact cur pc Hr Hpc Hk).
    eexists. split; [reflexivity|]. discriminate.
Qed.

(** Bought at 200: a price of 210 is a change of exactly 5.0 and a PROFIT;
    a price of 205, five above the purchase price, is a change of 2.5 and
    is not. *)
Lemma threshold_inclusive_witness :
  percent_change_of 200 210 = Some 5%float
  /\ classify (((210 - 200) / 200) * 100) = Some PROFIT
  /\ percent_change_of 200 205 = Some 2.5%float
  /\ classify (((205 - 200) / 200) * 100) = None.
Proof.
  destruct (threshold_inclusive 200 210 eq_refl) as (Hpc & Hprofit & _).
  destruct (threshold_inclusive 200 205 eq_refl) as (Hpc' & _ & _ & Hnone & _).
  split; [exact Hpc|]. split; [apply Hprofit; reflexivity|].
  split; [exact Hpc'|]. apply Hnone. split; reflexivity.
Defined.

(** ** C3: who writes to the alert history *)

(** Buying, resetting, simulating, clearing and the two plain views leave
    the alert history as it is. *)
Lemma handlers_keep_history st r :
  match r with Monitor _ | LatestAlerts => False | _ => True end ->
  alert_history (handle st r) = alert_history st.
Proof.
  destruct r; simpl; try tauto; intros _.
  - unfold buy_stock. destruct (negb (in_watchlist (upper order_symbol))); auto.
    destruct (get_live_price (yf_Ticker w) (upper order_symbol)) as [p|]; auto.
    destruct (negb (PyFloat.truthy p)); auto.
  - unfold view_portfolio. now destruct (enrich_all env (portfolio st)).
  - unfold reset_alert. now destruct (Dict.get tx_id (portfolio st)).
  - unfold simulate_price_movement.
    destruct (Dict.get tx_id (portfolio st)) as [d|]; auto.
    now destruct (percent_change_of (buy_price d) simulated).
  - unfold clear_simulation. now destruct (Dict.get tx_id (portfolio st)).
Qed.

(** C3.  After a purchase at 100 and a tick at 105 the history of
    transaction 1 holds the event the monitor appended.  One call of
    [/alerts/latest] later the stored event is another one: it has gained a
    [transaction_id], because the handler writes the id into the stored
    dictionary itself. *)
Theorem latest_alerts_rewrites_stored_event :
  history_of 1 (alert_history alerted)
  = [mkEvent "2024-01-01T10:00:05.000200" PROFIT 5 105 100 None]
  /\ history_of 1 (alert_history (snd (get_latest_alerts alerted)))
     = [mkEvent "2024-01-01T10:00:05.000200" PROFIT 5 105 100 (Some 1)]
  /\ alert_history (snd (get_latest_alerts alerted)) <> alert_history alerted.
Proof.
  repeat split. intros H. vm_compute in H. discriminate.
Qed.

(** ** C4: the latest alerts *)

Lemma string_leb_trans : forall a b c,
  String.leb a b = true -> String.leb b c = true -> String.leb a c = true.
Proof.
  unfold String.leb.
  induction a as [|x a IH]; intros [|y b] [|z c]; simpl; try congruence; auto.
  unfold Ascii.compare.
  destruct (N.compare_spec (N_of_ascii x) (N_of_ascii y)) as [Hxy|Hxy|Hxy];
    destruct (N.compare_spec (N_of_ascii y) (N_of_ascii z)) as [Hyz|Hyz|Hyz];
    destruct (N.compare_spec (N_of_ascii x) (N_of_ascii z)) as [Hxz|Hxz|Hxz];
    try congruence; try lia; auto.
  apply IH.
Qed.

Lemma unsnoc_some {A} (l : list A) : forall front y,
  unsnoc l = Some (front, y) -> l = front ++ [y].
Proof.
  induction l as [|x l IH]; simpl; intros front y H; [discriminate|].
  destruct (unsnoc l) as [[f z]|] eqn:E.
  - inversion H; subst. simpl. f_equal. now apply IH.
  - inversion H; subst. destruct l as [|x' l']; auto.
    simpl in E. destruct (unsnoc l') as [[? ?]|]; discriminate.
Qed.

Lemma insert_newest_first_perm x l :
  Permutation (insert_newest_first x l) (x :: l).
Proof.
  induction l as [|y l IH]; simpl; auto.
  destruct (String.leb (timestamp y) (timestamp x)); auto.
  rewrite IH. apply perm_swap.
Qed.

Lemma sort_newest_first_perm l :
  Permutation (sort_newest_first l) l.
Proof.
  induction l as [|x l IH]; simpl; auto.
  rewrite insert_newest_first_perm. now constructor.
Qed.

Lemma insert_newest_first_sorted x l :
  StronglySorted newer_or_same l ->
  StronglySorted newer_or_same (insert_newest_first x l).
Proof.
  induction 1 as [|y l Hs IH Hy]; simpl.
  - repeat constructor.
  - destruct (String.leb (timestamp y) (timestamp x)) eqn:E.
    + constructor; [now constructor|].
      constructor; [exact E|].
      eapply Forall_impl; [|exact Hy].
      intros z Hz. unfold newer_or_same in *.
      eapply string_leb_trans; eauto.
    + constructor; auto.
      assert (Hxy : newer_or_same y x).
      { unfold newer_or_same.
        destruct (String.leb_total (timestamp x) (timestamp y)); congruence. }
      rewrite Forall_forall in *. intros z Hz.
      apply (Permutation_in _ (insert_newest_first_perm x l)) in Hz.
      destruct Hz as [<-|Hz]; auto.
Qed.

Lemma sort_newest_first_sorted l :
  StronglySorted newer_or_same (sort_newest_first l).
Proof.
  induction l as [|x l IH]; simpl; [constructor|].
  now apply insert_newest_first_sorted.
Qed.

Lemma firstn_In {A} n : forall (l : list A) x, In x (firstn n l) -> In x l.
Proof.
  induction n as [|n IH]; intros [|y l] x; simpl; try tauto.
  intros [->|H]; auto.
Qed.

Lemma firstn_sorted {A} (R : A -> A -> Prop) n : forall l,
  StronglySorted R l -> StronglySorted R (firstn n l).
Proof.
  induction n as [|n IH]; intros l Hs; [constructor|].
  destruct Hs as [|y l Hs Hy]; simpl; constructor; auto.
  rewrite Forall_forall in *. intros z Hz. apply Hy. eapply firstn_In; eauto.
Qed.

Lemma firstn_NoDup {A} n : forall l : list A, NoDup l -> NoDup (firstn n l).
Proof.
  induction n as [|n IH]; intros l Hs; [constructor|].
  destruct Hs as [|y l Hy Hs]; simpl; constructor; auto.
  intros Hin. apply Hy. eapply firstn_In; eauto.
Qed.

(** What the loop of [get_latest_alerts] collects: for each key with a
    non-empty list, in the order of the keys, the last event of the list
    carrying the key. *)
Lemma latest_per_transaction_in h e :
  In e (fst (latest_per_transaction h)) ->
  exists tx front last_alert,
    In (tx, front ++ [last_alert]) h
    /\ e = with_transaction_id last_alert tx.
Proof.
  induction h as [|[k l] h IH]; simpl; [tauto|].
  destruct (latest_per_transaction h) as [out rest] eqn:E. simpl in IH.
  destruct (unsnoc l) as [[front y]|] eqn:Hl; simpl; intros H.
  - destruct H as [<-|H].
    + exists k, front, y. split; auto. left. f_equal. now apply unsnoc_some.
    + destruct (IH H) as (tx & f & la & Hin & He). exists tx, f, la. auto.
  - destruct (IH H) as (tx & f & la & Hin & He). exists tx, f, la. auto.
Qed.

Lemma latest_per_transaction_ids h x :
  In x (map transaction_id (fst (latest_per_transaction h))) ->
  exists tx, x = Some tx /\ In tx (Dict.keys h).
Proof.
  induction h as [|[k l] h IH]; simpl; [tauto|].
  destruct (latest_per_transaction h) as [out rest] eqn:E. simpl in IH.
  destruct (unsnoc l) as [[front y]|] eqn:Hl; simpl; intros H.
  - destruct H as [<-|H]; [eauto|].
    destruct (IH H) as (tx & -> & Hin). eauto.
  - destruct (IH H) as (tx & -> & Hin). eauto.
Qed.

Lemma latest_per_transaction_distinct h :
  Dict.wf h -> NoDup (map transaction_id (fst (latest_per_transaction h))).
Proof.
  unfold Dict.wf.
  induction h as [|[k l] h IH]; simpl; intros Hwf; [constructor|].
  apply NoDup_cons_iff in Hwf. destruct Hwf as [Hk Hwf].
  pose proof (latest_per_transaction_ids h) as Hids.
  destruct (latest_per_transaction h) as [out rest] eqn:E. simpl in *.
  destruct (unsnoc l) as [[front y]|]; simpl; auto.
  constructor; auto.
  intros Hin. destruct (Hids _ Hin) as (tx & [= <-] & Hin'). contradiction.
Qed.

Lemma in_wf_get {V} (d : Dict.t V) k v :
  Dict.wf d -> In (k, v) d -> Dict.get k d = Some v.
Proof.
  unfold Dict.wf.
  induction d as [|[k' v'] d IH]; simpl; intros Hwf Hin; [tauto|].
  apply NoDup_cons_iff in Hwf. destruct Hwf as [Hk Hwf].
  destruct Hin as [[= -> ->]|Hin].
  - now rewrite Z.eqb_refl.
  - destruct (k =? k') eqn:E; auto.
    apply Z.eqb_eq in E. subst k'. exfalso. apply Hk.
    change k with (fst (k, v)). now apply in_map.
Qed.

(** C4.  Whatever the alert history holds, [/alerts/latest] answers with at
    most 10 entries, newest timestamp first; every entry is the last event
    stored for a transaction, carrying that transaction's id, and no two
    entries belong to the same transaction. *)
Theorem latest_alerts_capped_sorted st :
  Dict.wf (alert_history st) ->
  exists latest total st',
    get_latest_alerts st = (Ok (latest, total), st')
    /\ (List.length latest <= 10)%nat
    /\ StronglySorted newer_or_same latest
    /\ NoDup (map transaction_id latest)
    /\ (forall e, In e latest ->
        exists tx front last_alert,
          Dict.get tx (alert_history st) = Some (front ++ [last_alert])
          /\ e = with_transaction_id last_alert tx).
Proof.
  intros Hwf. unfold get_latest_alerts.
  pose proof (latest_per_transaction_in (alert_history st)) as Hin.
  pose proof (latest_per_transaction_distinct (alert_history st) Hwf) as Hnd.
  destruct (latest_per_transaction (alert_history st)) as [out h].
  simpl in Hin, Hnd. cbv beta iota.
  do 3 eexists. split; [reflexivity|].
  split; [apply firstn_le_length|].
  split; [apply firstn_sorted, sort_newest_first_sorted|].
  split.
  - rewrite <- firstn_map. apply firstn_NoDup.
    eapply Permutation_NoDup; [|exact Hnd].
    apply Permutation_map. symmetry. apply sort_newest_first_perm.
  - intros e He. apply firstn_In in He.
    apply (Permutation_in _ (sort_newest_first_perm out)) in He.
    destruct (Hin e He) as (tx & front & la & Hx & ->).
    exists tx, front, la. split; auto. now apply in_wf_get.
Qed.

Lemma latest_alerts_capped_sorted_witness :
  Dict.wf (alert_history two_histories)
  /\ exists total st',
      get_latest_alerts two_histories
      = (Ok ([mkEvent "2024-01-01T10:03:00" PROFIT 10 220 200 (Some 2);
              mkEvent "2024-01-01T10:02:00" LOSS (-6) 94 100 (Some 1)],
             total), st').
Proof.
  assert (Hwf : Dict.wf (alert_history two_histories)).
  { unfold Dict.wf. simpl. repeat constructor; simpl; intuition lia. }
  split; [exact Hwf|].
  destruct (latest_alerts_capped_sorted two_histories Hwf)
    as (latest & total & st' & Heq & _).
  exists total, st'. rewrite Heq.
  vm_compute in Heq. inversion Heq. reflexivity.
Defined.

(** ** C5 and C6: buying *)

Lemma in_watchlist_spec s : in_watchlist s = true <-> In s WATCHLIST.
Proof.
  unfold in_watchlist. rewrite existsb_exists. split.
  - intros (x & Hin & Heq). apply String.eqb_eq in Heq. now subst.
  - intros Hin. exists s. split; auto. apply String.eqb_refl.
Qed.

(** [str.upper] is not limited to a-z: the long s (U+017F) becomes S and the
    dotless i (U+0131) becomes I, so these spellings reach the watchlist
    too; an accented letter is upper-cased and does not. *)
Lemma upper_beyond_ascii :
  upper (String.append "tc" (String.append (utf8 383) ".ns")) = "TCS.NS"
  /\ upper (String.append "rel" (String.append (utf8 305) "ance.ns"))
     = "RELIANCE.NS"
  /\ upper (String.append "tc" (String.append (utf8 347) ".ns"))
     = String.append "TC" (String.append (utf8 346) ".NS")
  /\ upper "Hdfcbank.ns" = "HDFCBANK.NS"
  /\ upper "inf,ns" = "INF,NS".
Proof. vm_compute. repeat split. Qed.

(** C5, as stated, fails: a lower-case spelling is not an element of the
    watchlist, and yet the purchase goes through and a position is stored. *)
Lemma buy_lowercase_symbol_accepted :
  ~ In "tcs.ns" WATCHLIST
  /\ buy_stock world_100 "tcs.ns" empty_state = (Ok (1, held), bought).
Proof.
  split; [|reflexivity].
  simpl. intros [H|[H|[H|[H|[]]]]]; discriminate.
Qed.

(** C5, amended.  The symbol of the request is upper-cased first, as
    [str.upper] does it.  If the upper-cased symbol is not in the watchlist
    the answer is a 400; if it is and the lookup yields no price the answer
    is a 503; in both cases the stores are returned as they were. *)
Theorem buy_rejects w s st :
  (~ In (upper s) WATCHLIST ->
   buy_stock w s st = (HTTPException 400 "Stock not in supported watchlist", st))
  /\ (In (upper s) WATCHLIST ->
      get_live_price (yf_Ticker w) (upper s) = None ->
      buy_stock w s st = (HTTPException 503 "Market data unavailable", st)).
Proof.
  unfold buy_stock. split.
  - intros Hn. destruct (in_watchlist (upper s)) eqn:E; auto.
    apply in_watchlist_spec in E. contradiction.
  - intros Hin Hp. apply in_watchlist_spec in Hin. now rewrite Hin, Hp.
Qed.

Lemma buy_rejects_witness :
  buy_stock world_100 "INFY.NS" bought
  = (HTTPException 400 "Stock not in supported watchlist", bought)
  /\ buy_stock world_closed "reliance.ns" bought
     = (HTTPException 503 "Market data unavailable", bought).
Proof.
  split.
  - apply (buy_rejects world_100 "INFY.NS" bought).
    vm_compute. intros [H|[H|[H|[H|[]]]]]; discriminate.
  - apply (buy_rejects world_closed "reliance.ns" bought).
    + vm_compute. auto.
    + reflexivity.
Defined.

(** What a successful purchase went through. *)
Lemma buy_ok_inv w s st tx pos st' :
  buy_stock w s st = (Ok (tx, pos), st') ->
  exists p,
    get_live_price (yf_Ticker w) (upper s) = Some p
    /\ PyFloat.truthy p = true
    /\ tx = Z.of_nat (List.length (portfolio st)) + 1
    /\ pos = new_position (upper s) p (clock w 0)
    /\ st' = mkState (Dict.set tx pos (portfolio st)) (alert_history st).
Proof.
  unfold buy_stock.
  destruct (negb (in_watchlist (upper s))); [discriminate|].
  destruct (get_live_price (yf_Ticker w) (upper s)) as [p|]; [|discriminate].
  destruct (negb (PyFloat.truthy p)) eqn:Ht; [discriminate|].
  apply negb_false_iff in Ht.
  intros [= <- <- <-]. exists p. auto.
Qed.

(** C6.  A purchase that succeeds stores the new position under the number
    of positions plus one; the position is ACTIVE, not alerted, with a
    percent change of 0, and both its prices are the price the lookup gave.
    On a reachable store that id is new, and the ids of the store remain
    1, 2, ... in insertion order. *)
Theorem buy_creates_position w s st tx pos st' :
  buy_stock w s st = (Ok (tx, pos), st') ->
  tx = Z.of_nat (List.length (portfolio st)) + 1
  /\ st' = mkState (Dict.set tx pos (portfolio st)) (alert_history st)
  /\ Dict.get tx (portfolio st') = Some pos
  /\ status pos = "ACTIVE"
  /\ alert_sent pos = false
  /\ percent_change pos = 0%float
  /\ get_live_price (yf_Ticker w) (upper s) = Some (buy_price pos)
  /\ current_price pos = buy_price pos
  /\ (reachable st ->
      Dict.get tx (portfolio st) = None
      /\ Dict.keys (portfolio st') = Dict.keys (portfolio st) ++ [tx]
      /\ Dict.keys (portfolio st')
         = map Z.of_nat (seq 1 (List.length (portfolio st')))).
Proof.
  intros Hbuy.
  destruct (buy_ok_inv _ _ _ _ _ _ Hbuy) as (p & Hp & Ht & Htx & Hpos & Hst).
  subst pos st'. simpl.
  repeat split; auto.
  - apply DictFacts.get_set_same.
  - subst tx. apply DictFacts.get_none_not_in.
    rewrite (ok_ids _ (reachable_store_ok _ H)). apply ids_fresh.
  - subst tx. apply DictFacts.keys_set_absent.
    rewrite (ok_ids _ (reachable_store_ok _ H)). apply ids_fresh.
  - pose proof (handle_store_ok st (Buy w s) (reachable_store_ok _ H)) as Hok.
    simpl in Hok. rewrite Hbuy in Hok. simpl in Hok.
    apply (ok_ids _ Hok).
Qed.

(** The first purchase gets id 1, the second id 2. *)
Lemma buy_creates_position_witness :
  buy_stock world_100 "tcs.ns" empty_state = (Ok (1, held), bought)
  /\ Dict.keys
       (portfolio (snd (buy_stock world_105 "RELIANCE.NS" bought))) = [1; 2].
Proof.
  split; [reflexivity|].
  destruct (buy_creates_position world_105 "RELIANCE.NS" bought 2
              (new_position "RELIANCE.NS" 105 "2024-01-01T10:00:05.000100")
              (snd (buy_stock world_105 "RELIANCE.NS" bought)) eq_refl)
    as (_ & _ & _ & _ & _ & _ & _ & _ & Hreach).
  destruct Hreach as (_ & Hkeys & _).
  - apply (reachable_step empty_state (Buy world_100 "tcs.ns")).
    apply reachable_start.
  - exact Hkeys.
Defined.

(** ** C7: re-arming *)

(** Ticks that find nothing to report keep the flag and the history of a
    position, whatever they do to the others. *)
Lemma ticks_quiet tx envs : forall st data,
  store_ok st ->
  Dict.get tx (portfolio st) = Some data ->
  status data = "ACTIVE" ->
  Forall (fun env => quiet (env tx) data) envs ->
  store_ok (ticks envs st)
  /\ Dict.get tx (alert_history (ticks envs st)) = Dict.get tx (alert_history st)
  /\ exists data',
       Dict.get tx (portfolio (ticks envs st)) = Some data'
       /\ fixed_part data' = fixed_part data
       /\ alert_sent data' = alert_sent data.
Proof.
  unfold ticks.
  induction envs as [|env envs IH]; simpl; intros st data Hok Hget Ha Hq.
  - split; [exact Hok|]. split; [reflexivity|]. exists data. auto.
  - inversion Hq as [|? ? Hone Hrest]; subst.
    assert (Hstep : exists d1,
               Dict.get tx (portfolio (tick env st)) = Some d1
               /\ fixed_part d1 = fixed_part data
               /\ alert_sent d1 = alert_sent data
               /\ Dict.get tx (alert_history (tick env st))
                  = Dict.get tx (alert_history st)).
    { destruct Hone as [Hr|(cp & pc & Hr & Hp & Hk)].
      - destruct (tick_skips env st tx data Hok Hget Ha Hr) as [Hd Hh].
        exists data. auto.
      - destruct (tick_quiet env st tx data Hok Hget Ha cp pc Hr Hp Hk)
          as [Hh Hd].
        eexists. split; [exact Hd|]. auto. }
    destruct Hstep as (d1 & Hd1 & Hfix & Hs & Hh).
    assert (Hact : status d1 = "ACTIVE").
    { unfold fixed_part in Hfix. injection Hfix as _ _ _ Hst _. congruence. }
    assert (Hq1 : Forall (fun e => quiet (e tx) d1) envs).
    { eapply Forall_impl; [|exact Hrest].
      intros e. unfold quiet.
      rewrite (resolve_price_fixed (e tx) data d1 Hfix).
      unfold fixed_part in Hfix. injection Hfix as _ Hb _ _ _.
      now rewrite Hb. }
    destruct (IH (tick env st) d1 (tick_store_ok env st Hok) Hd1 Hact Hq1)
      as (Hok' & Hh' & d2 & Hd2 & Hfix2 & Hs2).
    split; [exact Hok'|]. split; [congruence|].
    exists d2. repeat split; congruence.
Qed.

Lemma reset_alert_known tx st data :
  Dict.get tx (portfolio st) = Some data ->
  reset_alert tx st
  = (Ok tt, mkState (Dict.set tx (clear_alert data) (portfolio st))
                    (alert_history st)).
Proof. intros H. unfold reset_alert. now rewrite H. Qed.

(** C7.  For an unknown id [reset_alert] answers 404 and returns the stores
    as they were.  For a known id it leaves the position with [alert_sent]
    false and without [alert_type] and [alert_triggered_at], and does not
    touch the alert history.  From there, after any number of ticks that
    find nothing to report for the position, the first tick whose price is
    past the threshold adds its event at the end of the history the
    transaction had: every earlier event stays where it was. *)
Theorem reset_alert_rearms tx st :
  (Dict.get tx (portfolio st) = None ->
   reset_alert tx st = (HTTPException 404 "Transaction not found", st))
  /\ (forall data,
        Dict.get tx (portfolio st) = Some data ->
        exists st',
          reset_alert tx st = (Ok tt, st')
          /\ alert_history st' = alert_history st
          /\ Dict.get tx (portfolio st') = Some (clear_alert data)
          /\ alert_sent (clear_alert data) = false
          /\ alert_type (clear_alert data) = None
          /\ alert_triggered_at (clear_alert data) = None
          /\ (store_ok st ->
              status data = "ACTIVE" ->
              forall idle env cp pc k,
                Forall (fun e => quiet (e tx) data) idle ->
                resolve_price (env tx) data = Some cp ->
                percent_change_of (buy_price data) cp = Some pc ->
                classify pc = Some k ->
                Dict.get tx (alert_history (tick env (ticks idle st')))
                = Some (history_of tx (alert_history st)
                        ++ [new_event (env tx) k pc cp (buy_price data)]))).
Proof.
  split.
  - intros H. unfold reset_alert. now rewrite H.
  - intros data Hget.
    exists (mkState (Dict.set tx (clear_alert data) (portfolio st))
                    (alert_history st)).
    split; [apply reset_alert_known; exact Hget|].
    split; [reflexivity|].
    split; [apply DictFacts.get_set_same|].
    do 3 (split; [reflexivity|]).
    set (st' := mkState (Dict.set tx (clear_alert data) (portfolio st))
                        (alert_history st)).
    intros Hok Hact idle env cp pc k Hidle Hr Hp Hk.
    assert (Hok' : store_ok st') by (eapply update_store_ok; eauto).
    assert (Hget' : Dict.get tx (portfolio st') = Some (clear_alert data))
      by apply DictFacts.get_set_same.
    destruct (ticks_quiet tx idle st' (clear_alert data) Hok' Hget' Hact Hidle)
      as (Hok2 & Hh2 & d2 & Hd2 & Hfix & Hs).
    assert (Hb : buy_price d2 = buy_price data).
    { unfold fixed_part in Hfix. now injection Hfix as _ Hb _ _ _. }
    assert (Hact2 : status d2 = "ACTIVE").
    { unfold fixed_part in Hfix. injection Hfix as _ _ _ Hst _.
      simpl in Hst. congruence. }
    assert (Hr2 : resolve_price (env tx) d2 = Some cp).
    { rewrite (resolve_price_fixed (env tx) (clear_alert data) d2 Hfix).
      exact Hr. }
    rewrite <- Hb in Hp.
    destruct (tick_fires env (ticks idle st') tx d2 Hok2 Hd2 Hact2
                cp pc k Hr2 Hp Hk Hs) as [Hh _].
    rewrite Hh, Hb. unfold history_of. now rewrite Hh2.
Qed.

(** After the alert at 105 and a reset, a tick with no quote and then a
    tick at 105 again: the history holds the old event and the new one. *)
Lemma reset_alert_rearms_witness :
  reset_alert 7 alerted = (HTTPException 404 "Transaction not found", alerted)
  /\ history_of 1 (alert_history
                     (tick (fun _ => world_105)
                        (ticks [fun _ => world_closed]
                           (snd (reset_alert 1 alerted)))))
     = [mkEvent "2024-01-01T10:00:05.000200" PROFIT 5 105 100 None;
        mkEvent "2024-01-01T10:00:05.000200" PROFIT 5 105 100 None].
Proof.
  destruct (reset_alert_rearms 7 alerted) as [Hunknown _].
  split; [apply Hunknown; reflexivity|].
  destruct (reset_alert_rearms 1 alerted) as [_ Hknown].
  destruct (Hknown _ eq_refl) as (st' & Hst & _ & _ & _ & _ & _ & Hfire).
  assert (Hst' : st' = snd (reset_alert 1 alerted)) by now rewrite Hst.
  subst st'. unfold history_of.
  rewrite (Hfire (reachable_store_ok _ (run_reachable _)) eq_refl
                 [fun _ => world_closed] (fun _ => world_105) 105%float 5%float
                 PROFIT);
    try reflexivity.
  repeat constructor.
Defined.

(** ** C8: the simulated price *)



(** ** C9: no price, no change *)

(** C9.  On every tick, an ACTIVE position with no simulated override for
    which the lookup yields no price is, after the tick, the record it was
    before, field by field, and the history of its transaction is what it
    was.  This holds on every store, also when the tick stops early. *)
Theorem unresolved_price_leaves_position env st tx data :
  Dict.wf (portfolio st) ->
  Dict.get tx (portfolio st) = Some data ->
  status data = "ACTIVE" ->
  simulated_current_price data = None ->
  get_live_price (yf_Ticker (env tx)) (symbol data) = None ->
  Dict.get tx (portfolio (tick env st)) = Some data
  /\ Dict.get tx (alert_history (tick env st)) = Dict.get tx (alert_history st).
Proof.
  intros Hwf Hget Hact Hsim Hlive.
  assert (Hr : resolve_price (env tx) data = None).
  { unfold resolve_price. now rewrite Hsim. }
  destruct (monitor_loop_at env tx data _ _ _ _ _ (tick_unfold env st) Hwf Hget)
    as [(_ & Hd & Hh)|(d' & ev & Hb & Hd & Hh)]; auto.
  rewrite (body_skip _ _ Hact Hr) in Hb. inversion Hb; subst. auto.
Qed.

Lemma unresolved_price_leaves_position_witness :
  Dict.get 1 (portfolio (tick (fun _ => world_closed) alerted))
  = Dict.get 1 (portfolio alerted)
  /\ Dict.get 1 (alert_history (tick (fun _ => world_closed) alerted))
     = Dict.get 1 (alert_history alerted).
Proof.
  refine (unresolved_price_leaves_position (fun _ => world_closed) alerted 1
            (set_alerted (set_tracking held 105 5) PROFIT
                         "2024-01-01T10:00:05.000100")
            _ eq_refl eq_refl eq_refl eq_refl).
  unfold Dict.wf. vm_compute. repeat constructor. simpl. tauto.
Defined.

(** ** C10: the sign of a looked-up price *)

Lemma percent_change_defined buy cur :
  PyFloat.truthy buy = true -> exists pc, percent_change_of buy cur = Some pc.
Proof.
  unfold PyFloat.truthy, percent_change_of. intros H.
  destruct (PrimFloat.eqb buy 0); [discriminate|eauto].
Qed.

Lemma enrich_all_returns env items :
  Forall nonzero_buy items -> exists enriched, enrich_all env items = Some enriched.
Proof.
  induction 1 as [|[k d] rest Hd Hrest IH]; simpl; [eauto|].
  destruct IH as (r & ->).
  assert (He : exists d', enrich (env k) d = Some d').
  { unfold enrich. destruct (String.eqb (status d) "ACTIVE"); [|eauto].
    destruct (get_live_price _ _) as [cp|]; [|eauto].
    destruct (PyFloat.truthy cp); [|eauto].
    destruct (percent_change_defined (buy_price d) cp Hd) as (pc & ->). eauto. }
  destruct He as (d' & ->). eauto.
Qed.

(** No purchase price in a reachable store is zero, so none of the three
    divisions by the purchase price raises: the monitor runs to its end and
    the two handlers that divide do not fail on the division. *)
Lemma reachable_divisions_defined st :
  reachable st ->
  Forall nonzero_buy (portfolio st)
  /\ (forall env, snd (monitor_market env st) = Returned)
  /\ (forall env, fst (view_portfolio env st) <> Unhandled ZeroDivisionError)
  /\ (forall tx p,
        fst (simulate_price_movement tx p st) <> Unhandled ZeroDivisionError).
Proof.
  intros Hr. pose proof (reachable_store_ok st Hr) as Hok.
  split; [apply Hok|]. split; [intros env; now apply tick_returns|]. split.
  - intros env. unfold view_portfolio.
    destruct (enrich_all_returns env _ (ok_buy st Hok)) as (e & ->).
    discriminate.
  - intros tx p. unfold simulate_price_movement.
    destruct (Dict.get tx (portfolio st)) as [d|] eqn:Hget; [|discriminate].
    pose proof (DictFacts.get_Forall _ _ _ _ (ok_buy st Hok) Hget) as Hd.
    destruct (percent_change_defined (buy_price d) p Hd) as (pc & ->).
    discriminate.
Qed.

(** C10, as stated, fails in its first part.  A strategy yielding 1/256
    passes the test [price > 0], and the lookup returns it rounded to two
    decimals: 0.0, which is a price and is not strictly positive.  The
    purchase refuses it, so no zero purchase price is stored; the monitor
    takes it as the current price of a position bought at 100. *)
Theorem lookup_returns_zero_price :
  PyFloat.gtb 0.00390625 0 = true
  /\ get_live_price (yf_Ticker world_penny) "TCS.NS" = Some 0%float
  /\ PyFloat.gtb 0 0 = false
  /\ buy_stock world_penny "TCS.NS" empty_state
     = (HTTPException 503 "Market data unavailable", empty_state)
  /\ history_of 1 (alert_history (tick (fun _ => world_penny) bought))
     = [mkEvent "2024-01-01T10:01:00" LOSS (-100) 0 100 None].
Proof. repeat split. Qed.


(** * Further properties of the code *)

(** ** The price lookup *)

Lemma accept_some p r :
  accept p = Some r -> PyFloat.gtb p 0 = true /\ r = PyFloat.round2 p.
Proof.
  unfold accept. destruct (PyFloat.gtb p 0); [|discriminate].
  now intros [= <-].
Qed.

Lemma accept_positive p :
  PyFloat.gtb p 0 = true -> accept p = Some (PyFloat.round2 p).
Proof. unfold accept. now intros ->. Qed.

(** Where a returned price comes from. *)
Lemma lookup_origin yf sym r :
  get_live_price yf sym = Some r ->
  exists t p,
    yf sym = Some t
    /\ quoted t p
    /\ PyFloat.gtb p 0 = true
    /\ r = PyFloat.round2 p.
Proof.
  unfold get_live_price. destruct (yf sym) as [t|]; [|discriminate].
  intros H. exists t.
  assert (Hcase : method1 t = Some r \/ method2 t = Some r
                  \/ method3 t = Some r \/ method4 t = Some r).
  { destruct (method1 t); [left; exact H|].
    destruct (method2 t); [right; left; exact H|].
    destruct (method3 t); [right; right; left; exact H|].
    right; right; right; exact H. }
  clear H. unfold method1, method2, method3, method4, quoted in *.
  destruct Hcase as [H|[H|[H|H]]].
  - destruct (fast_info_last_price t) as [| |p]; try discriminate.
    exists p. destruct (accept_some _ _ H). repeat split; auto 10.
  - destruct (info_currentPrice t) as [| |p]; try discriminate.
    + destruct (info_regularMarketPrice t) as [| |p]; try discriminate.
      exists p. destruct (accept_some _ _ H). repeat split; auto 10.
    + exists p. destruct (accept_some _ _ H). repeat split; auto 10.
  - destruct (history_1m_close t) as [| |p]; try discriminate.
    exists p. destruct (accept_some _ _ H). repeat split; auto 10.
  - destruct (history_1d_close t) as [| |p]; try discriminate.
    exists p. destruct (accept_some _ _ H). repeat split; auto 10.
Qed.

(** X1.  Whatever the lookup returns is the two-decimal rounding of a value
    that one of the five fields held and that was strictly positive: the
    lookup invents no price and passes on no value that failed the test. *)
Theorem lookup_price_origin yf sym r :
  get_live_price yf sym = Some r ->
  exists t p,
    yf sym = Some t
    /\ quoted t p
    /\ PyFloat.gtb p 0 = true
    /\ r = PyFloat.round2 p.
Proof. exact (lookup_origin yf sym r). Qed.

Lemma lookup_price_origin_witness :
  exists t p,
    yf_Ticker world_105 "TCS.NS" = Some t
    /\ quoted t p /\ PyFloat.gtb p 0 = true /\ 105%float = PyFloat.round2 p.
Proof.
  exact (lookup_price_origin (yf_Ticker world_105) "TCS.NS" 105 eq_refl).
Defined.

(** X2.  A strictly positive value in the fast quote, in [currentPrice] or
    in the close of either history is enough for the lookup to return a
    price: no exception, absence or rejected value in another strategy
    turns the answer into "no price". *)
Theorem lookup_finds_positive_quote yf sym t p :
  yf sym = Some t ->
  fast_info_last_price t = Got p
  \/ info_currentPrice t = Got p
  \/ history_1m_close t = Got p
  \/ history_1d_close t = Got p ->
  PyFloat.gtb p 0 = true ->
  exists r, get_live_price yf sym = Some r.
Proof.
  intros Ht Hq Hp. unfold get_live_price. rewrite Ht.
  destruct (method1 t) as [r1|] eqn:H1; [simpl; eauto|].
  destruct (method2 t) as [r2|] eqn:H2; [simpl; eauto|].
  destruct (method3 t) as [r3|] eqn:H3; [simpl; eauto|].
  simpl. unfold method1, method2, method3, method4 in *.
  destruct Hq as [Hq|[Hq|[Hq|Hq]]]; rewrite Hq in *;
    rewrite ?(accept_positive p Hp) in *; try discriminate; eauto.
Qed.

(** The fast quote raises, the detailed quote is absent, the minute history
    is empty: the daily close still gives the price. *)
Lemma lookup_finds_positive_quote_witness :
  exists r,
    get_live_price
      (fun _ => Some (mkTicker Raised Missing Raised Missing (Got 250)))
      "TCS.NS" = Some r.
Proof.
  apply (lookup_finds_positive_quote _ "TCS.NS"
           (mkTicker Raised Missing Raised Missing (Got 250)) 250);
    [reflexivity | simpl; auto | reflexivity].
Defined.

(** X3.  [regularMarketPrice] is read only in the [elif], that is when
    [currentPrice] is absent or falsy (a [currentPrice] of 0 is falsy).
    When [currentPrice] is present and truthy, whatever float it converts
    to, or when the detailed quote raised, the answer of the lookup is the
    same whatever [regularMarketPrice] is: a truthy [currentPrice] that is
    rejected hides a valid [regularMarketPrice].  When [currentPrice] is
    absent or falsy and the fast quote gave nothing, a strictly positive
    [regularMarketPrice] is the answer, rounded. *)
Theorem lookup_ignores_shadowed_regular_price fast cur reg h1m h1d sym :
  (cur <> Missing ->
   forall reg',
     get_live_price (fun _ => Some (mkTicker fast cur reg h1m h1d)) sym
     = get_live_price (fun _ => Some (mkTicker fast cur reg' h1m h1d)) sym)
  /\ (cur = Missing ->
      method1 (mkTicker fast cur reg h1m h1d) = None ->
      forall p,
        reg = Got p -> PyFloat.gtb p 0 = true ->
        get_live_price (fun _ => Some (mkTicker fast cur reg h1m h1d)) sym
        = Some (PyFloat.round2 p)).
Proof.
  split.
  - intros Hc reg'. unfold get_live_price, method2. simpl.
    destruct cur; [reflexivity | contradiction | reflexivity].
  - intros -> H1 p -> Hp. unfold get_live_price. rewrite H1.
    unfold method2. simpl. now rewrite (accept_positive p Hp).
Qed.

(** A truthy [currentPrice] of -1 hides a [regularMarketPrice] of 50: the
    lookup goes on to the histories and finds nothing.  Without a
    [currentPrice] the 50 is returned. *)
Lemma lookup_ignores_shadowed_regular_price_witness :
  get_live_price
    (fun _ => Some (mkTicker Missing (Got (-1)) (Got 50) Missing Missing))
    "TCS.NS" = None
  /\ get_live_price
       (fun _ => Some (mkTicker Missing Missing (Got 50) Missing Missing))
       "TCS.NS" = Some 50%float.
Proof.
  split.
  - rewrite (proj1 (lookup_ignores_shadowed_regular_price
                      Missing (Got (-1)) (Got 50) Missing Missing "TCS.NS")
                   ltac:(discriminate) Missing).
    reflexivity.
  - exact (proj2 (lookup_ignores_shadowed_regular_price
                    Missing Missing (Got 50) Missing Missing "TCS.NS")
                 eq_refl eq_refl 50%float eq_refl eq_refl).
Defined.

(** ** What a tick does to one position *)

(** The three ways the loop body can end for an item. *)
Lemma body_cases w d d' ev :
  monitor_position w d = Some (d', ev) ->
  (d' = d /\ ev = None)
  \/ exists cp pc,
       status d = "ACTIVE"
       /\ resolve_price w d = Some cp
       /\ percent_change_of (buy_price d) cp = Some pc
       /\ ((d' = set_tracking d cp (PyFloat.round2 pc) /\ ev = None
            /\ (alert_sent d = true \/ classify pc = None))
           \/ exists k,
                classify pc = Some k /\ alert_sent d = false
                /\ d' = set_alerted (set_tracking d cp (PyFloat.round2 pc)) k
                                    (clock w 0)
                /\ ev = Some (new_event w k pc cp (buy_price d))).
Proof.
  unfold monitor_position.
  destruct (String.eqb (status d) "ACTIVE") eqn:Hs; simpl;
    [|intros [= <- <-]; auto].
  apply String.eqb_eq in Hs.
  destruct (resolve_price w d) as [cp|] eqn:Hr; [|intros [= <- <-]; auto].
  destruct (percent_change_of (buy_price d) cp) as [pc|] eqn:Hp;
    [|discriminate].
  intros H. right. exists cp, pc. do 3 (split; [reflexivity || assumption|]).
  destruct (classify pc) as [k|]; simpl in H.
  - destruct (alert_sent d) eqn:Ha; inversion H; subst; [left; auto|].
    right. exists k. auto.
  - inversion H; subst. left. auto.
Qed.

(** The state of one item after a tick on a store with distinct keys:
    either the tick stopped before the item, or the body ran on it. *)
Lemma tick_item env st tx data :
  Dict.wf (portfolio st) ->
  Dict.get tx (portfolio st) = Some data ->
  exists data' ev,
    Dict.get tx (portfolio (tick env st)) = Some data'
    /\ Dict.get tx (alert_history (tick env st))
       = Dict.get tx (record_alert tx ev (alert_history st))
    /\ ((data' = data /\ ev = None)
        \/ monitor_position (env tx) data = Some (data', ev)).
Proof.
  intros Hwf Hget.
  destruct (monitor_loop_at env tx data _ _ _ _ _ (tick_unfold env st) Hwf Hget)
    as [(_ & Hd & Hh)|(d' & ev & Hb & Hd & Hh)].
  - exists data, None. auto.
  - exists d', ev. auto.
Qed.

(** A tick leaves the fixed part of every position alone. *)
Lemma tick_keeps_fixed_part env st tx data :
  Dict.wf (portfolio st) ->
  Dict.get tx (portfolio st) = Some data ->
  exists data',
    Dict.get tx (portfolio (tick env st)) = Some data'
    /\ fixed_part data' = fixed_part data.
Proof.
  intros Hwf Hget.
  destruct (tick_item env st tx data Hwf Hget) as (d' & ev & Hd & _ & Hc).
  exists d'. split; [exact Hd|].
  destruct Hc as [[-> _]|Hb]; [reflexivity|].
  eapply body_fixed_part; eauto.
Qed.

(** X4.  A tick creates and deletes no position and never rewrites what a
    purchase fixed: the keys of the portfolio are the same, in the same
    order, and every position keeps its symbol, purchase price, purchase
    time, status and simulated override. *)
Theorem tick_keeps_purchases env st :
  Dict.wf (portfolio st) ->
  Dict.keys (portfolio (tick env st)) = Dict.keys (portfolio st)
  /\ forall tx data,
       Dict.get tx (portfolio st) = Some data ->
       exists data',
         Dict.get tx (portfolio (tick env st)) = Some data'
         /\ symbol data' = symbol data
         /\ buy_price data' = buy_price data
         /\ bought_at data' = bought_at data
         /\ status data' = status data
         /\ simulated_current_price data' = simulated_current_price data.
Proof.
  intros Hwf. split.
  - eapply monitor_loop_keys. apply tick_unfold.
  - intros tx data Hget.
    destruct (tick_item env st tx data Hwf Hget) as (d' & ev & Hd & _ & Hc).
    exists d'. split; [exact Hd|].
    assert (Hfix : fixed_part d' = fixed_part data).
    { destruct Hc as [[-> _]|Hb]; [reflexivity|].
      eapply body_fixed_part; eauto. }
    unfold fixed_part in Hfix. injection Hfix as H1 H2 H3 H4 H5. auto.
Qed.

Lemma alerted_wf : Dict.wf (portfolio alerted).
Proof. unfold Dict.wf. vm_compute. repeat constructor. simpl. tauto. Qed.

Lemma tick_keeps_purchases_witness :
  Dict.keys (portfolio (tick (fun _ => world_penny) alerted)) = [1].
Proof.
  destruct (tick_keeps_purchases (fun _ => world_penny) alerted alerted_wf)
    as [Hkeys _].
  exact Hkeys.
Defined.

(** X5.  A tick only ever appends to the alert history, and at most one
    event per transaction: the list of a transaction after the tick is the
    list before it, or that list with one event added at the end. *)
Theorem tick_history_append_only env st tx :
  Dict.wf (portfolio st) ->
  Dict.get tx (alert_history (tick env st)) = Dict.get tx (alert_history st)
  \/ exists e,
       Dict.get tx (alert_history (tick env st))
       = Some (history_of tx (alert_history st) ++ [e]).
Proof.
  intros Hwf.
  destruct (Dict.get tx (portfolio st)) as [data|] eqn:Hget.
  - destruct (tick_item env st tx data Hwf Hget) as (d' & ev & _ & Hh & _).
    destruct ev as [e|]; [right; exists e|left]; rewrite Hh; auto.
    apply get_record_alert_same.
  - left. eapply monitor_loop_history_other; [apply tick_unfold|].
    now apply DictFacts.get_none_not_in.
Qed.

Lemma tick_history_append_only_witness :
  Dict.get 1 (alert_history (tick (fun _ => world_penny) alerted))
  = Dict.get 1 (alert_history alerted)
  \/ exists e,
       Dict.get 1 (alert_history (tick (fun _ => world_penny) alerted))
       = Some (history_of 1 (alert_history alerted) ++ [e]).
Proof.
  exact (tick_history_append_only (fun _ => world_penny) alerted 1 alerted_wf).
Defined.

(** X6.  The monitor never disarms and never re-alerts: a position whose
    [alert_sent] is true keeps the flag, its [alert_type] and its
    [alert_triggered_at] through a tick, and its history is unchanged,
    whatever the price does (a new crossing, a return inside the band, no
    price at all). *)
Theorem tick_keeps_alerted env st tx data :
  Dict.wf (portfolio st) ->
  Dict.get tx (portfolio st) = Some data ->
  alert_sent data = true ->
  Dict.get tx (alert_history (tick env st)) = Dict.get tx (alert_history st)
  /\ exists data',
       Dict.get tx (portfolio (tick env st)) = Some data'
       /\ alert_sent data' = true
       /\ alert_type data' = alert_type data
       /\ alert_triggered_at data' = alert_triggered_at data.
Proof.
  intros Hwf Hget Ha.
  destruct (tick_item env st tx data Hwf Hget) as (d' & ev & Hd & Hh & Hc).
  assert (Hres : ev = None /\ alert_sent d' = true
                 /\ alert_type d' = alert_type data
                 /\ alert_triggered_at d' = alert_triggered_at data).
  { destruct Hc as [[-> ->]|Hb]; [auto|].
    destruct (body_cases _ _ _ _ Hb)
      as [[-> ->]|(cp & pc & _ & _ & _ & [(-> & -> & _)|(k & _ & Hf & _)])];
      auto; congruence. }
  destruct Hres as (-> & H1 & H2 & H3). split; [exact Hh|].
  exists d'. auto.
Qed.

(** Alerted at 105, then a tick at a price inside the band: still alerted,
    with one event. *)
Lemma tick_keeps_alerted_witness :
  Dict.get 1 (alert_history (tick (fun _ => world_100) alerted))
  = Dict.get 1 (alert_history alerted).
Proof.
  refine (proj1 (tick_keeps_alerted (fun _ => world_100) alerted 1
                   (set_alerted (set_tracking held 105 5) PROFIT
                                "2024-01-01T10:00:05.000100")
                   alerted_wf eq_refl eq_refl)).
Defined.

(** X7.  The flag and the history move together.  If a tick turns
    [alert_sent] from false to true, it appended exactly one event for the
    transaction, and the event is a copy of what the record says after the
    tick: its type is the record's [alert_type], its prices and percent
    change are the record's, it carries no [transaction_id], and
    [alert_triggered_at] is set.  If the flag did not turn, the history of
    the transaction is what it was. *)
Theorem tick_alert_matches_record env st tx data data' :
  Dict.wf (portfolio st) ->
  Dict.get tx (portfolio st) = Some data ->
  Dict.get tx (portfolio (tick env st)) = Some data' ->
  (alert_sent data = false -> alert_sent data' = true ->
   exists e k,
     Dict.get tx (alert_history (tick env st))
     = Some (history_of tx (alert_history st) ++ [e])
     /\ alert_type data' = Some k
     /\ ev_type e = k
     /\ ev_current_price e = current_price data'
     /\ ev_percent_change e = percent_change data'
     /\ ev_buy_price e = buy_price data'
     /\ transaction_id e = None
     /\ alert_triggered_at data' <> None)
  /\ (alert_sent data' = alert_sent data ->
      Dict.get tx (alert_history (tick env st))
      = Dict.get tx (alert_history st)).
Proof.
  intros Hwf Hget Hget'.
  destruct (tick_item env st tx data Hwf Hget) as (d' & ev & Hd & Hh & Hc).
  rewrite Hget' in Hd. injection Hd as <-.
  assert (Hcases :
            (ev = None /\ alert_sent data' = alert_sent data)
            \/ exists cp pc k,
                 alert_sent data = false
                 /\ data' = set_alerted (set_tracking data cp (PyFloat.round2 pc))
                                        k (clock (env tx) 0)
                 /\ ev = Some (new_event (env tx) k pc cp (buy_price data))).
  { destruct Hc as [[-> ->]|Hb]; [auto|].
    destruct (body_cases _ _ _ _ Hb)
      as [[-> ->]|(cp & pc & _ & _ & _ & [(-> & -> & _)|(k & _ & Hf & -> & ->)])];
      auto.
    right. exists cp, pc, k. auto. }
  split.
  - intros Hf Ht.
    destruct Hcases as [[_ Heq]|(cp & pc & k & _ & -> & ->)]; [congruence|].
    exists (new_event (env tx) k pc cp (buy_price data)), k.
    rewrite Hh. split; [apply get_record_alert_same|].
    simpl. repeat split; auto. discriminate.
  - intros Heq.
    destruct Hcases as [[-> _]|(cp & pc & k & Hf & -> & _)]; [exact Hh|].
    simpl in Heq. congruence.
Qed.

Lemma tick_alert_matches_record_witness :
  exists e k,
    Dict.get 1 (alert_history (tick (fun _ => world_105) bought))
    = Some (history_of 1 (alert_history bought) ++ [e])
    /\ ev_type e = k /\ ev_current_price e = 105%float.
Proof.
  assert (Hwf : Dict.wf (portfolio bought)).
  { unfold Dict.wf. simpl. repeat constructor. simpl. tauto. }
  destruct (tick_alert_matches_record (fun _ => world_105) bought 1 held
              (set_alerted (set_tracking held 105 5) PROFIT
                           "2024-01-01T10:00:05.000100")
              Hwf eq_refl eq_refl) as [Hfire _].
  destruct (Hfire eq_refl eq_refl)
    as (e & k & Hh & _ & Hk & Hcp & _).
  exists e, k. auto.
Defined.

(** X8.  On a reachable store, whenever a price resolves for an ACTIVE
    position the tick records it: the position's [current_price] is that
    price and its [percent_change] is the rounded percent change from the
    purchase price, whether or not an alert fires or is suppressed. *)
Theorem tick_records_price env st tx data cp :
  store_ok st ->
  Dict.get tx (portfolio st) = Some data ->
  status data = "ACTIVE" ->
  resolve_price (env tx) data = Some cp ->
  exists pc data',
    percent_change_of (buy_price data) cp = Some pc
    /\ Dict.get tx (portfolio (tick env st)) = Some data'
    /\ current_price data' = cp
    /\ percent_change data' = PyFloat.round2 pc.
Proof.
  intros Hok Hget Hact Hr.
  destruct (tick_at env st tx data Hok Hget) as (d' & ev & Hb & Hd & _).
  unfold monitor_position in Hb.
  rewrite Hact, String.eqb_refl, Hr in Hb. simpl in Hb.
  destruct (percent_change_of (buy_price data) cp) as [pc|] eqn:Hp;
    [|discriminate].
  exists pc, d'. split; [reflexivity|]. split; [exact Hd|].
  destruct (classify pc); simpl in Hb;
    [destruct (alert_sent data)|]; inversion Hb; subst; simpl; auto.
Qed.

(** Alerted at 105, then a tick at 100: the record shows 100 and 0%. *)
Lemma tick_records_price_witness :
  exists pc data',
    percent_change_of 100 100 = Some pc
    /\ Dict.get 1 (portfolio (tick (fun _ => world_100) alerted)) = Some data'
    /\ current_price data' = 100%float
    /\ percent_change data' = PyFloat.round2 pc.
Proof.
  exact (tick_records_price (fun _ => world_100) alerted 1
           (set_alerted (set_tracking held 105 5) PROFIT
                        "2024-01-01T10:00:05.000100")
           100 (reachable_store_ok _ (run_reachable _))
           eq_refl eq_refl eq_refl).
Defined.

(** ** The latest alerts, beyond the cap and the order *)

Lemma unsnoc_snoc {A} (l : list A) x : unsnoc (l ++ [x]) = Some (l, x).
Proof.
  induction l as [|y l IH]; simpl; [reflexivity|]. now rewrite IH.
Qed.

Lemma unsnoc_none {A} (l : list A) : unsnoc l = None -> l = [].
Proof.
  destruct l as [|x l]; simpl; [reflexivity|].
  destruct (unsnoc l) as [[? ?]|]; discriminate.
Qed.

Lemma latest_per_transaction_again h :
  latest_per_transaction (snd (latest_per_transaction h))
  = latest_per_transaction h.
Proof.
  induction h as [|[k l] h IH]; simpl; [reflexivity|].
  destruct (latest_per_transaction h) as [out rest] eqn:E. simpl in IH.
  destruct (unsnoc l) as [[front y]|] eqn:Hl; simpl; rewrite IH.
  - now rewrite unsnoc_snoc.
  - now rewrite Hl.
Qed.

(** X9.  The write of [/alerts/latest] happens once: a second call gives
    the same answer as the first and leaves the stores as the first call
    left them. *)
Theorem latest_alerts_twice st :
  get_latest_alerts (snd (get_latest_alerts st))
  = (fst (get_latest_alerts st), snd (get_latest_alerts st)).
Proof.
  unfold get_latest_alerts.
  pose proof (latest_per_transaction_again (alert_history st)) as H.
  destruct (latest_per_transaction (alert_history st)) as [out h].
  simpl in *. now rewrite H.
Qed.

Lemma latest_per_transaction_count h :
  List.length (fst (latest_per_transaction h))
  = List.length (filter has_alerts h).
Proof.
  induction h as [|[k l] h IH]; simpl; [reflexivity|].
  destruct (latest_per_transaction h) as [out rest]. simpl in IH.
  unfold has_alerts at 1. simpl.
  destruct l as [|x l]; simpl; [exact IH|].
  destruct (unsnoc l) as [[? ?]|]; simpl; now rewrite IH.
Qed.

(** X10.  The [total] of [/alerts/latest] counts the transactions that have
    at least one alert, before the cap: the number of entries returned is
    the smaller of 10 and [total]. *)
Theorem latest_alerts_total st :
  exists latest total,
    fst (get_latest_alerts st) = Ok (latest, total)
    /\ total = List.length (filter has_alerts (alert_history st))
    /\ List.length latest = Nat.min 10 total.
Proof.
  unfold get_latest_alerts.
  pose proof (latest_per_transaction_count (alert_history st)) as Hc.
  destruct (latest_per_transaction (alert_history st)) as [out h].
  simpl in Hc. cbv beta iota.
  do 2 eexists. split; [reflexivity|]. split; [exact Hc|].
  rewrite length_firstn.
  now rewrite (Permutation_length (sort_newest_first_perm out)).
Qed.

Lemma stamp_same_alert (l : list alert_event) tx front y :
  unsnoc l = Some (front, y) ->
  Forall2 same_alert l (front ++ [with_transaction_id y tx])
  /\ removelast (front ++ [with_transaction_id y tx]) = removelast l.
Proof.
  intros H. apply unsnoc_some in H. subst l. split.
  - apply Forall2_app.
    + induction front; constructor; auto. repeat split.
    + repeat constructor.
  - now rewrite !removelast_last.
Qed.

Lemma Forall2_same_alert_refl l : Forall2 same_alert l l.
Proof. induction l; constructor; auto. repeat split. Qed.

(** X11.  How far the write of [/alerts/latest] goes: the portfolio and
    the keys of the alert history are untouched, and the list of every
    transaction keeps its length, all its events but the last exactly, and
    every field of the last one except [transaction_id]. *)
Theorem latest_alerts_write_extent st :
  let st' := snd (get_latest_alerts st) in
  portfolio st' = portfolio st
  /\ Dict.keys (alert_history st') = Dict.keys (alert_history st)
  /\ forall tx l,
       Dict.get tx (alert_history st) = Some l ->
       exists l',
         Dict.get tx (alert_history st') = Some l'
         /\ Forall2 same_alert l l'
         /\ removelast l' = removelast l.
Proof.
  unfold get_latest_alerts.
  assert (H : Dict.keys (snd (latest_per_transaction (alert_history st)))
              = Dict.keys (alert_history st)
              /\ forall tx l,
                   Dict.get tx (alert_history st) = Some l ->
                   exists l',
                     Dict.get tx (snd (latest_per_transaction (alert_history st)))
                     = Some l'
                     /\ Forall2 same_alert l l'
                     /\ removelast l' = removelast l).
  { induction (alert_history st) as [|[k l0] h [IHk IHg]]; simpl.
    - split; [reflexivity|discriminate].
    - destruct (latest_per_transaction h) as [out rest]. simpl in *.
      destruct (unsnoc l0) as [[front y]|] eqn:Hl; simpl.
      + split; [now rewrite IHk|].
        intros tx l. destruct (tx =? k); [|apply IHg].
        intros [= <-]. eexists. split; [reflexivity|].
        now apply stamp_same_alert.
      + split; [now rewrite IHk|].
        intros tx l. destruct (tx =? k); [|apply IHg].
        intros [= <-]. exists l0. split; [reflexivity|].
        split; [apply Forall2_same_alert_refl|reflexivity]. }
  destruct (latest_per_transaction (alert_history st)) as [out h].
  simpl in *. destruct H. auto.
Qed.

(** ** More on dictionaries *)

Lemma set_same_value {V} k (v : V) d :
  Dict.get k d = Some v -> Dict.set k v d = d.
Proof.
  induction d as [|[k' v'] d IH]; simpl; [discriminate|].
  destruct (k =? k') eqn:E.
  - apply Z.eqb_eq in E. intros [= ->]. now subst.
  - intros H. now rewrite IH.
Qed.

Lemma set_set {V} k (v v' : V) d :
  Dict.set k v (Dict.set k v' d) = Dict.set k v d.
Proof.
  induction d as [|[k0 v0] d IH]; simpl.
  - now rewrite Z.eqb_refl.
  - destruct (k =? k0) eqn:E; simpl; rewrite ?Z.eqb_refl, ?E; auto.
    now rewrite IH.
Qed.

Lemma wf_set {V} k (v : V) d : Dict.wf d -> Dict.wf (Dict.set k v d).
Proof.
  unfold Dict.wf. intros Hwf.
  destruct (in_dec Z.eq_dec k (Dict.keys d)) as [Hin|Hout].
  - now rewrite DictFacts.keys_set_present.
  - rewrite DictFacts.keys_set_absent by exact Hout.
    apply NoDup_app; auto.
    + repeat constructor. simpl. tauto.
    + intros x Hx [<-|[]]. contradiction.
Qed.

Lemma in_keys_get {V} k (d : Dict.t V) :
  In k (Dict.keys d) -> exists v, Dict.get k d = Some v.
Proof.
  intros Hin. destruct (Dict.get k d) as [v|] eqn:E; [eauto|].
  apply DictFacts.get_none_not_in in E. contradiction.
Qed.

Lemma get_in {V} k (v : V) d : Dict.get k d = Some v -> In (k, v) d.
Proof.
  induction d as [|[k' v'] d IH]; simpl; [discriminate|].
  destruct (k =? k') eqn:E; auto.
  apply Z.eqb_eq in E. intros [= ->]. subst. auto.
Qed.

(** ** What every stored position satisfies *)

Lemma monitor_loop_Forall (P : position -> Prop) env items :
  (forall w d d' ev, P d -> monitor_position w d = Some (d', ev) -> P d') ->
  forall h items' h' c,
    monitor_loop env items h = (items', h', c) ->
    Forall (fun kv => P (snd kv)) items ->
    Forall (fun kv => P (snd kv)) items'.
Proof.
  intros HP.
  induction items as [|[k d] rest IH]; simpl; intros h items' h' c H Hf.
  - now inversion H.
  - destruct (monitor_position (env k) d) as [[d' ev]|] eqn:Hbody;
      [|now inversion H].
    destruct (monitor_loop env rest (record_alert k ev h)) as [[r1 h1] c1] eqn:E.
    inversion H; subst. inversion Hf as [|? ? Hd Hrest]; subst.
    constructor; [|eapply IH; eauto].
    simpl in *. eapply HP; eauto.
Qed.

Lemma body_position_ok w d d' ev :
  position_ok d -> monitor_position w d = Some (d', ev) -> position_ok d'.
Proof.
  intros (Hs & Hw & Hb & Ha) Hbody. unfold position_ok.
  destruct (body_cases _ _ _ _ Hbody)
    as [[-> ->]|(cp & pc & _ & _ & _ & [(-> & _ & _)|(k & _ & _ & -> & _)])];
    simpl; repeat split; auto; try discriminate;
    try (apply Ha; assumption).
Qed.

Lemma handle_positions_ok st r :
  Forall (fun kv => position_ok (snd kv)) (portfolio st) ->
  Forall (fun kv => position_ok (snd kv)) (portfolio (handle st r)).
Proof.
  intros Hf.
  assert (Hupd : forall tx d d',
             Dict.get tx (portfolio st) = Some d ->
             (position_ok d -> position_ok d') ->
             Forall (fun kv => position_ok (snd kv))
                    (Dict.set tx d' (portfolio st))).
  { intros tx d d' Hget Himp. apply DictFacts.Forall_set; auto.
    simpl. apply Himp.
    exact (DictFacts.get_Forall (fun kv => position_ok (snd kv)) _ _ _ Hf Hget). }
  destruct r; simpl.
  - unfold buy_stock.
    destruct (negb (in_watchlist (upper order_symbol))) eqn:Hw; auto.
    destruct (get_live_price (yf_Ticker w) (upper order_symbol)) as [p|]; auto.
    destruct (negb (PyFloat.truthy p)) eqn:Ht; auto. simpl.
    apply negb_false_iff in Hw, Ht. apply in_watchlist_spec in Hw.
    apply DictFacts.Forall_set; auto.
    simpl. repeat split; auto; discriminate.
  - pose proof (tick_unfold env st) as H.
    eapply monitor_loop_Forall; [|exact H|exact Hf].
    intros. eapply body_position_ok; eauto.
  - unfold view_portfolio. now destruct (enrich_all env (portfolio st)).
  - exact Hf.
  - unfold get_latest_alerts.
    now destruct (latest_per_transaction (alert_history st)).
  - unfold reset_alert.
    destruct (Dict.get tx_id (portfolio st)) as [d|] eqn:E; auto.
    simpl. apply (Hupd tx_id d); auto.
    intros (Hs & Hw & Hb & _). repeat split; auto; discriminate.
  - unfold simulate_price_movement.
    destruct (Dict.get tx_id (portfolio st)) as [d|] eqn:E; auto.
    assert (Hset : Forall (fun kv => position_ok (snd kv))
                          (Dict.set tx_id (set_simulated d simulated)
                                    (portfolio st))).
    { apply (Hupd tx_id d); auto.
      intros (Hs & Hw & Hb & _). repeat split; auto; discriminate. }
    now destruct (percent_change_of (buy_price d) simulated).
  - unfold clear_simulation.
    destruct (Dict.get tx_id (portfolio st)) as [d|] eqn:E; auto.
    simpl. apply (Hupd tx_id d); auto.
Qed.

Lemma reachable_positions_ok st :
  reachable st -> Forall (fun kv => position_ok (snd kv)) (portfolio st).
Proof.
  induction 1; [simpl; constructor|now apply handle_positions_ok].
Qed.

(** X12.  Every position a run of the service stores is ACTIVE, holds a
    symbol of the watchlist and a non-zero purchase price, and sits under an
    id between 1 and the number of positions; and whenever its [alert_sent]
    is true, its [alert_type] and [alert_triggered_at] are set. *)
Theorem reachable_positions st tx data :
  reachable st ->
  Dict.get tx (portfolio st) = Some data ->
  position_ok data
  /\ 1 <= tx <= Z.of_nat (List.length (portfolio st)).
Proof.
  intros Hr Hget. split.
  - pose proof (reachable_positions_ok st Hr) as Hf.
    exact (DictFacts.get_Forall (fun kv => position_ok (snd kv)) _ _ _ Hf Hget).
  - apply DictFacts.get_some_in in Hget.
    rewrite (ok_ids _ (reachable_store_ok _ Hr)) in Hget.
    apply in_map_iff in Hget. destruct Hget as (n & <- & Hn).
    apply in_seq in Hn. lia.
Qed.

Lemma reachable_positions_witness :
  position_ok (set_alerted (set_tracking held 105 5) PROFIT
                           "2024-01-01T10:00:05.000100")
  /\ 1 <= 1 <= Z.of_nat (List.length (portfolio alerted)).
Proof.
  exact (reachable_positions alerted 1 _ (run_reachable _) eq_refl).
Defined.

(** ** What every stored alert satisfies *)

Lemma hist_inv_mono bp bp' h :
  (forall tx b, bp tx = Some b -> bp' tx = Some b) ->
  hist_inv bp h -> hist_inv bp' h.
Proof.
  intros Hm [Hwf Hl]. split; [exact Hwf|].
  intros tx l Hget. destruct (Hl tx l Hget) as (Hne & b & Hb & Hf).
  split; [exact Hne|]. exists b. auto.
Qed.

Lemma record_alert_inv bp k e h b :
  hist_inv bp h -> bp k = Some b -> event_ok k b e ->
  hist_inv bp (record_alert k (Some e) h).
Proof.
  intros [Hwf Hl] Hb He. split; [now apply wf_set|].
  intros tx l. simpl. destruct (Z.eq_dec tx k) as [->|Hne].
  - rewrite DictFacts.get_set_same. intros [= <-]. split.
    + intros Habs. apply app_eq_nil in Habs. destruct Habs; discriminate.
    + exists b. split; [exact Hb|]. apply Forall_app. split; [|auto].
      unfold history_of. destruct (Dict.get k h) as [l0|] eqn:E; [|constructor].
      destruct (Hl k l0 E) as (_ & b' & Hb' & Hf). congruence.
  - rewrite DictFacts.get_set_other by exact Hne. apply Hl.
Qed.

Lemma body_event w d d' e :
  monitor_position w d = Some (d', Some e) ->
  ev_buy_price e = buy_price d /\ transaction_id e = None.
Proof.
  intros Hb.
  destruct (body_cases _ _ _ _ Hb)
    as [[_ Hn]|(cp & pc & _ & _ & _ & [(_ & Hn & _)|(k & _ & _ & _ & He)])];
    try discriminate.
  injection He as ->. auto.
Qed.

Lemma monitor_loop_hist_inv bp env items :
  (forall k d, In (k, d) items -> bp k = Some (buy_price d)) ->
  forall h items' h' c,
    monitor_loop env items h = (items', h', c) ->
    hist_inv bp h -> hist_inv bp h'.
Proof.
  induction items as [|[k d] rest IH]; simpl; intros Hbp h items' h' c H Hinv.
  - inversion H; subst. exact Hinv.
  - destruct (monitor_position (env k) d) as [[d' ev]|] eqn:Hbody;
      [|inversion H; subst; exact Hinv].
    destruct (monitor_loop env rest (record_alert k ev h)) as [[r1 h1] c1] eqn:E.
    inversion H; subst.
    eapply IH; [intros; apply Hbp; auto|exact E|].
    destruct ev as [e|]; [|exact Hinv].
    destruct (body_event _ _ _ _ Hbody) as [Hb Hid].
    apply record_alert_inv with (b := buy_price d); auto.
    split; auto.
Qed.

Lemma latest_store_get h tx l' :
  Dict.get tx (snd (latest_per_transaction h)) = Some l' ->
  exists l,
    Dict.get tx h = Some l
    /\ (l' = l
        \/ exists front y,
             l = front ++ [y] /\ l' = front ++ [with_transaction_id y tx]).
Proof.
  induction h as [|[k l0] h IH]; simpl; [discriminate|].
  destruct (latest_per_transaction h) as [out rest]. simpl in IH.
  destruct (unsnoc l0) as [[front y]|] eqn:Hl; simpl;
    destruct (tx =? k) eqn:E; auto.
  - apply Z.eqb_eq in E. subst k. intros [= <-]. exists l0.
    split; [reflexivity|]. right. exists front, y.
    split; [now apply unsnoc_some|reflexivity].
  - intros [= <-]. exists l0. auto.
Qed.

Lemma latest_store_inv bp h :
  hist_inv bp h -> hist_inv bp (snd (latest_per_transaction h)).
Proof.
  intros [Hwf Hl]. split.
  - unfold Dict.wf in *.
    assert (Hk : Dict.keys (snd (latest_per_transaction h)) = Dict.keys h).
    { clear. induction h as [|[k l0] h IH]; simpl; [reflexivity|].
      destruct (latest_per_transaction h) as [out rest]. simpl in IH.
      destruct (unsnoc l0) as [[front y]|]; simpl; now rewrite IH. }
    now rewrite Hk.
  - intros tx l' Hget.
    destruct (latest_store_get h tx l' Hget)
      as (l & Hg & [->|(front & y & -> & ->)]); [now apply Hl|].
    destruct (Hl tx _ Hg) as (_ & b & Hb & Hf).
    split.
    + intros Habs. apply app_eq_nil in Habs. destruct Habs; discriminate.
    + exists b. split; [exact Hb|].
      apply Forall_app in Hf. destruct Hf as [Hfront Hy].
      apply Forall_app. split; [exact Hfront|].
      apply Forall_inv in Hy. destruct Hy as [Hprice _].
      constructor; [|constructor].
      split; [exact Hprice|right; reflexivity].
Qed.

Lemma buy_prices_set_same p tx d d' :
  Dict.get tx p = Some d -> buy_price d' = buy_price d ->
  forall k b, buy_prices p k = Some b -> buy_prices (Dict.set tx d' p) k = Some b.
Proof.
  intros Hget Hb k b. unfold buy_prices.
  destruct (Z.eq_dec k tx) as [->|Hne].
  - rewrite DictFacts.get_set_same, Hget. simpl. congruence.
  - now rewrite DictFacts.get_set_other.
Qed.

Lemma handle_hist_inv st r :
  store_ok st ->
  hist_inv (buy_prices (portfolio st)) (alert_history st) ->
  hist_inv (buy_prices (portfolio (handle st r))) (alert_history (handle st r)).
Proof.
  intros Hok Hinv. destruct r; simpl.
  - unfold buy_stock.
    destruct (negb (in_watchlist (upper order_symbol))); auto.
    destruct (get_live_price (yf_Ticker w) (upper order_symbol)) as [p|]; auto.
    destruct (negb (PyFloat.truthy p)); auto. simpl.
    eapply hist_inv_mono; [|exact Hinv].
    intros k b. unfold buy_prices.
    destruct (Z.eq_dec k (Z.of_nat (List.length (portfolio st)) + 1))
      as [->|Hne]; [|now rewrite DictFacts.get_set_other].
    assert (Hnone : Dict.get (Z.of_nat (List.length (portfolio st)) + 1)
                             (portfolio st) = None).
    { apply DictFacts.get_none_not_in. rewrite (ok_ids _ Hok).
      apply ids_fresh. }
    rewrite Hnone. discriminate.
  - pose proof (tick_unfold env st) as H.
    pose proof (store_ok_wf st Hok) as Hwf.
    apply hist_inv_mono with (bp := buy_prices (portfolio st)).
    + intros k b. unfold buy_prices.
      destruct (Dict.get k (portfolio st)) as [d|] eqn:Hget; [|discriminate].
      destruct (tick_keeps_fixed_part env st k d Hwf Hget) as (d' & -> & Hfix).
      unfold fixed_part in Hfix. injection Hfix as _ Hb _ _ _.
      simpl. congruence.
    + eapply monitor_loop_hist_inv; [|exact H|exact Hinv].
      intros k d Hin. unfold buy_prices.
      now rewrite (in_wf_get _ _ _ Hwf Hin).
  - unfold view_portfolio. now destruct (enrich_all env (portfolio st)).
  - exact Hinv.
  - unfold get_latest_alerts.
    pose proof (latest_store_inv _ _ Hinv) as H.
    now destruct (latest_per_transaction (alert_history st)).
  - unfold reset_alert.
    destruct (Dict.get tx_id (portfolio st)) as [d|] eqn:E; auto. simpl.
    eapply hist_inv_mono; [|exact Hinv].
    now apply buy_prices_set_same with (d := d).
  - unfold simulate_price_movement.
    destruct (Dict.get tx_id (portfolio st)) as [d|] eqn:E; auto.
    assert (H : hist_inv (buy_prices (Dict.set tx_id (set_simulated d simulated)
                                               (portfolio st)))
                         (alert_history st)).
    { eapply hist_inv_mono; [|exact Hinv].
      now apply buy_prices_set_same with (d := d). }
    now destruct (percent_change_of (buy_price d) simulated).
  - unfold clear_simulation.
    destruct (Dict.get tx_id (portfolio st)) as [d|] eqn:E; auto. simpl.
    eapply hist_inv_mono; [|exact Hinv].
    now apply buy_prices_set_same with (d := d).
Qed.

Lemma reachable_hist_inv st :
  reachable st -> hist_inv (buy_prices (portfolio st)) (alert_history st).
Proof.
  induction 1 as [|st r Hr IH].
  - split; [constructor|discriminate].
  - apply handle_hist_inv; auto. now apply reachable_store_ok.
Qed.

(** X13.  In every store a run of the service reaches, the alert history
    holds each transaction once and no empty list; every transaction with
    alerts is a position of the portfolio; every one of its events records
    the purchase price of that position, and the only [transaction_id] an
    event ever carries is the id it is stored under. *)
Theorem reachable_histories st :
  reachable st ->
  Dict.wf (alert_history st)
  /\ forall tx l,
       Dict.get tx (alert_history st) = Some l ->
       l <> []
       /\ exists data,
            Dict.get tx (portfolio st) = Some data
            /\ Forall (event_ok tx (buy_price data)) l.
Proof.
  intros Hr. destruct (reachable_hist_inv st Hr) as [Hwf Hl].
  split; [exact Hwf|].
  intros tx l Hget. destruct (Hl tx l Hget) as (Hne & b & Hb & Hf).
  split; [exact Hne|]. unfold buy_prices in Hb.
  destruct (Dict.get tx (portfolio st)) as [data|]; [|discriminate].
  exists data. simpl in Hb. injection Hb as <-. auto.
Qed.

Lemma reachable_histories_witness :
  Dict.wf (alert_history (snd (get_latest_alerts alerted))).
Proof.
  apply (reachable_histories (snd (get_latest_alerts alerted))).
  apply (reachable_step alerted LatestAlerts). apply run_reachable.
Defined.

(** ** Buying: the three answers *)

(** X14.  The answers of a purchase and when each is given.  It is a 400
    exactly when the upper-cased symbol is not in the watchlist; a 503 when
    the symbol is accepted and the lookup gives no price or a price of
    zero; otherwise the purchase succeeds under the id [len(portfolio) + 1],
    and the position holds the upper-cased symbol, the looked-up price and
    the time of the purchase.  The handler lets no exception escape, and on
    both errors the stores are returned as they were.  The request symbol
    matters only through its upper-cased form: two spellings with the same
    upper-cased form get the same answer and leave the same stores. *)
Theorem buy_outcomes w s st :
  match buy_stock w s st with
  | (Ok (tx, pos), st') =>
      In (upper s) WATCHLIST
      /\ tx = Z.of_nat (List.length (portfolio st)) + 1
      /\ st' = mkState (Dict.set tx pos (portfolio st)) (alert_history st)
      /\ exists p,
           get_live_price (yf_Ticker w) (upper s) = Some p
           /\ PyFloat.truthy p = true
           /\ pos = new_position (upper s) p (clock w 0)
  | (HTTPException code _, st') =>
      st' = st
      /\ ((code = 400 /\ ~ In (upper s) WATCHLIST)
          \/ (code = 503 /\ In (upper s) WATCHLIST
              /\ (get_live_price (yf_Ticker w) (upper s) = None
                  \/ exists p,
                       get_live_price (yf_Ticker w) (upper s) = Some p
                       /\ PrimFloat.eqb p 0 = true)))
  | (Unhandled _, _) => False
  end
  /\ (forall s', upper s' = upper s -> buy_stock w s' st = buy_stock w s st).
Proof.
  split.
  - unfold buy_stock.
    destruct (in_watchlist (upper s)) eqn:Hw; simpl.
    + apply in_watchlist_spec in Hw.
      destruct (get_live_price (yf_Ticker w) (upper s)) as [p|].
      * unfold PyFloat.truthy.
        destruct (PrimFloat.eqb p 0) eqn:Hz; simpl.
        -- split; [reflexivity|]. right. repeat split; auto. right. eauto.
        -- split; [exact Hw|]. split; [reflexivity|]. split; [reflexivity|].
           exists p. rewrite Hz. auto.
      * split; [reflexivity|]. right. auto.
    + split; [reflexivity|]. left. split; [reflexivity|].
      intros Hin. apply in_watchlist_spec in Hin. congruence.
  - intros s' Hs. unfold buy_stock. now rewrite Hs.
Qed.

(** The spelling with a long s is bought as TCS.NS. *)
Lemma buy_outcomes_witness :
  buy_stock world_100 (String.append "tc" (String.append (utf8 383) ".ns"))
            empty_state
  = buy_stock world_100 "TCS.NS" empty_state.
Proof.
  apply (proj2 (buy_outcomes world_100 "TCS.NS" empty_state)).
  vm_compute. reflexivity.
Defined.

(** X15.  On a reachable store a successful purchase adds one position and
    disturbs nothing: every position stored before is found unchanged under
    its id, the portfolio is one longer, and the alert history is the
    same. *)
Theorem buy_keeps_positions w s st tx pos st' :
  reachable st ->
  buy_stock w s st = (Ok (tx, pos), st') ->
  (forall k data,
      Dict.get k (portfolio st) = Some data ->
      Dict.get k (portfolio st') = Some data)
  /\ List.length (portfolio st') = S (List.length (portfolio st))
  /\ alert_history st' = alert_history st.
Proof.
  intros Hr Hbuy.
  destruct (buy_ok_inv _ _ _ _ _ _ Hbuy) as (p & _ & _ & Htx & _ & ->).
  assert (Hfresh : ~ In tx (Dict.keys (portfolio st))).
  { subst tx. rewrite (ok_ids _ (reachable_store_ok _ Hr)). apply ids_fresh. }
  simpl. repeat split.
  - intros k data Hget. rewrite DictFacts.get_set_other; auto.
    intros ->. apply Hfresh. eapply DictFacts.get_some_in; eauto.
  - rewrite DictFacts.set_absent by exact Hfresh.
    rewrite length_app. simpl. lia.
Qed.

Lemma buy_keeps_positions_witness :
  Dict.get 1 (portfolio (snd (buy_stock world_105 "RELIANCE.NS" bought)))
  = Some held.
Proof.
  refine (proj1 (buy_keeps_positions world_105 "RELIANCE.NS" bought 2
                   (new_position "RELIANCE.NS" 105 "2024-01-01T10:00:05.000100")
                   (snd (buy_stock world_105 "RELIANCE.NS" bought)) _ eq_refl)
                1 held eq_refl).
  apply (reachable_step empty_state (Buy world_100 "tcs.ns")).
  apply reachable_start.
Defined.

(** ** The handlers addressed to one transaction *)

Lemma only_touches_refl tx st : only_touches tx st st.
Proof. repeat split. Qed.

Lemma only_touches_set tx st d d' :
  Dict.get tx (portfolio st) = Some d ->
  only_touches tx st (mkState (Dict.set tx d' (portfolio st)) (alert_history st)).
Proof.
  intros Hget. repeat split; simpl.
  - apply DictFacts.keys_set_present. eapply DictFacts.get_some_in; eauto.
  - intros k Hne. now apply DictFacts.get_set_other.
Qed.

(** X16.  Resetting an alert, setting a simulated price and clearing it
    reach one record only: whatever the id and whatever the answer, the
    alert history, the keys of the portfolio and every other position are
    as before. *)
Theorem addressed_handlers_touch_one tx simulated st :
  only_touches tx st (snd (reset_alert tx st))
  /\ only_touches tx st (snd (simulate_price_movement tx simulated st))
  /\ only_touches tx st (snd (clear_simulation tx st)).
Proof.
  unfold reset_alert, simulate_price_movement, clear_simulation.
  destruct (Dict.get tx (portfolio st)) as [d|] eqn:Hget; simpl.
  - split; [|split]; try (now apply (only_touches_set tx st d)).
    destruct (percent_change_of (buy_price d) simulated);
      now apply (only_touches_set tx st d).
  - split; [|split]; apply only_touches_refl.
Qed.

(** X17.  Resetting and clearing are idempotent, and each is a no-op when
    there is nothing to undo: a second reset (a second clearing) changes
    nothing; a reset of a position that has no alert set, and a clearing of
    a position that has no simulated price, return the stores as they
    were. *)
Theorem reset_and_clear_idempotent tx st :
  snd (reset_alert tx (snd (reset_alert tx st))) = snd (reset_alert tx st)
  /\ snd (clear_simulation tx (snd (clear_simulation tx st)))
     = snd (clear_simulation tx st)
  /\ (forall data,
        Dict.get tx (portfolio st) = Some data ->
        alert_sent data = false -> alert_type data = None ->
        alert_triggered_at data = None ->
        snd (reset_alert tx st) = st)
  /\ (forall data,
        Dict.get tx (portfolio st) = Some data ->
        simulated_current_price data = None ->
        snd (clear_simulation tx st) = st).
Proof.
  unfold reset_alert, clear_simulation.
  destruct (Dict.get tx (portfolio st)) as [d|] eqn:Hget; simpl.
  - rewrite !DictFacts.get_set_same. simpl. rewrite !set_set.
    repeat split.
    + intros data [= <-] Ha Ht Hat. destruct st as [p h]. simpl in *.
      f_equal. apply set_same_value. rewrite Hget. f_equal.
      destruct d. simpl in *. now subst.
    + intros data [= <-] Hsim. destruct st as [p h]. simpl in *.
      f_equal. apply set_same_value. rewrite Hget. f_equal.
      destruct d. simpl in *. now subst.
  - rewrite Hget. simpl. repeat split; discriminate.
Qed.

(** ** Simulation and the monitor together *)

(** X18.  A simulated price past the threshold always produces an alert on
    the next tick, whether or not the position had alerted before and
    whatever the provider quotes: the event carries the simulated price,
    and the percent change the handler announced in its answer is the one
    the tick stores on the position. *)
Theorem simulated_crossing_fires env st tx data simulated pc k :
  store_ok st ->
  Dict.get tx (portfolio st) = Some data ->
  status data = "ACTIVE" ->
  percent_change_of (buy_price data) simulated = Some pc ->
  classify pc = Some k ->
  fst (simulate_price_movement tx simulated st)
  = Ok (buy_price data, simulated, PyFloat.round2 pc)
  /\ Dict.get tx (alert_history
                   (tick env (snd (simulate_price_movement tx simulated st))))
     = Some (history_of tx (alert_history st)
             ++ [new_event (env tx) k pc simulated (buy_price data)])
  /\ exists data',
       Dict.get tx (portfolio
                      (tick env (snd (simulate_price_movement tx simulated st))))
       = Some data'
       /\ alert_sent data' = true
       /\ current_price data' = simulated
       /\ percent_change data' = PyFloat.round2 pc.
Proof.
  intros Hok Hget Hact Hp Hk.
  unfold simulate_price_movement. rewrite Hget, Hp. simpl.
  split; [reflexivity|].
  set (st1 := mkState (Dict.set tx (set_simulated data simulated) (portfolio st))
                      (alert_history st)).
  assert (Hok1 : store_ok st1) by (eapply update_store_ok; eauto).
  assert (Hget1 : Dict.get tx (portfolio st1) = Some (set_simulated data simulated))
    by apply DictFacts.get_set_same.
  destruct (tick_fires env st1 tx (set_simulated data simulated) Hok1 Hget1
              Hact simulated pc k eq_refl Hp Hk eq_refl) as [Hh Hd].
  split; [exact Hh|].
  eexists. split; [exact Hd|]. auto.
Qed.

(** Already alerted at 105; a simulated price of 90 alerts again, as a
    LOSS, in a world that quotes 100. *)
Lemma simulated_crossing_fires_witness :
  history_of 1 (alert_history
                  (tick (fun _ => world_100)
                        (snd (simulate_price_movement 1 90 alerted))))
  = [mkEvent "2024-01-01T10:00:05.000200" PROFIT 5 105 100 None;
     mkEvent "2024-01-01T10:00:00" LOSS (-10) 90 100 None].
Proof.
  unfold history_of.
  rewrite (proj1 (proj2 (simulated_crossing_fires (fun _ => world_100) alerted 1
             (set_alerted (set_tracking held 105 5) PROFIT
                          "2024-01-01T10:00:05.000100")
             90 (-10) LOSS
             (reachable_store_ok _ (run_reachable _))
             eq_refl eq_refl eq_refl eq_refl))).
  reflexivity.
Defined.

(** ** The portfolio view *)

Lemma enrich_all_get env items enriched tx data :
  enrich_all env items = Some enriched ->
  Dict.get tx items = Some data ->
  exists data',
    Dict.get tx enriched = Some data' /\ enrich (env tx) data = Some data'.
Proof.
  revert enriched.
  induction items as [|[k d] rest IH]; simpl; intros enriched H Hget;
    [discriminate|].
  destruct (enrich (env k) d) as [d'|] eqn:Hd; [|discriminate].
  destruct (enrich_all env rest) as [rest'|]; [|discriminate].
  injection H as <-. simpl.
  destruct (tx =? k) eqn:E.
  - apply Z.eqb_eq in E. subst k. injection Hget as <-. eauto.
  - now apply IH.
Qed.

Lemma enrich_all_keys env items : forall enriched,
  enrich_all env items = Some enriched ->
  Dict.keys enriched = Dict.keys items.
Proof.
  induction items as [|[k d] rest IH]; simpl; intros enriched H.
  - now injection H as <-.
  - destruct (enrich (env k) d) as [d'|]; [|discriminate].
    destruct (enrich_all env rest) as [rest'|]; [|discriminate].
    injection H as <-. simpl. f_equal. now apply IH.
Qed.

(** X19.  [/portfolio] only reads.  The stores are returned as they were,
    and when the handler answers, the answer lists the same ids in the same
    order.  An entry differs from the stored record at most in
    [current_price] and [percent_change]; these two are refreshed from a
    live lookup when it gives a non-zero price, also for a position with a
    simulated override (which the view ignores), and otherwise the entry is
    the stored record. *)
Theorem view_portfolio_reads env st enriched total :
  fst (view_portfolio env st) = Ok (enriched, total) ->
  snd (view_portfolio env st) = st
  /\ total = List.length (portfolio st)
  /\ Dict.keys enriched = Dict.keys (portfolio st)
  /\ forall tx data,
       Dict.get tx (portfolio st) = Some data ->
       exists data',
         Dict.get tx enriched = Some data'
         /\ fixed_part data' = fixed_part data
         /\ alert_sent data' = alert_sent data
         /\ alert_type data' = alert_type data
         /\ alert_triggered_at data' = alert_triggered_at data
         /\ match get_live_price (yf_Ticker (env tx)) (symbol data) with
            | Some cp =>
                if (String.eqb (status data) "ACTIVE" && PyFloat.truthy cp)%bool
                then current_price data' = cp
                     /\ exists pc,
                          percent_change_of (buy_price data) cp = Some pc
                          /\ percent_change data' = PyFloat.round2 pc
                else data' = data
            | None => data' = data
            end.
Proof.
  unfold view_portfolio.
  destruct (enrich_all env (portfolio st)) as [e|] eqn:He; [|discriminate].
  simpl. intros [= <- <-].
  split; [reflexivity|]. split; [reflexivity|].
  split; [now apply (enrich_all_keys env)|].
  intros tx data Hget.
  destruct (enrich_all_get env _ _ tx data He Hget) as (d' & Hd & Hen).
  exists d'. split; [exact Hd|].
  unfold enrich in Hen.
  destruct (String.eqb (status data) "ACTIVE"); simpl.
  - destruct (get_live_price (yf_Ticker (env tx)) (symbol data)) as [cp|].
    + destruct (PyFloat.truthy cp).
      * destruct (percent_change_of (buy_price data) cp) as [pc|];
          [|discriminate].
        injection Hen as <-. simpl. repeat split; eauto.
      * injection Hen as <-. repeat split; auto.
    + injection Hen as <-. repeat split; auto.
  - injection Hen as <-.
    destruct (get_live_price (yf_Ticker (env tx)) (symbol data));
      repeat split; auto.
Qed.

(** A position with a simulated price of 90, viewed while the provider
    quotes 105: the entry shows 105 and keeps the override. *)
Lemma view_portfolio_reads_witness :
  exists data',
    Dict.get 1 (portfolio (snd (simulate_price_movement 1 90 bought)))
    = Some (set_simulated held 90)
    /\ fixed_part data' = fixed_part (set_simulated held 90)
    /\ current_price data' = 105%float.
Proof.
  destruct (view_portfolio_reads (fun _ => world_105)
              (snd (simulate_price_movement 1 90 bought))
              [(1, set_tracking (set_simulated held 90) 105 5)] 1%nat eq_refl)
    as (_ & _ & _ & Hentry).
  destruct (Hentry 1 (set_simulated held 90) eq_refl)
    as (d' & _ & Hfix & _ & _ & _ & Hlive).
  exists d'. split; [reflexivity|]. split; [exact Hfix|].
  simpl in Hlive. apply Hlive.
Defined.

(** ** The watchlist and the status *)

(** X20.  [/stocks] answers with one entry per symbol of the watchlist, in
    the order of the watchlist.  An entry is either [available], with the
    non-zero price the lookup gave for its symbol, or [unavailable], with
    no price, when the lookup gave none or gave zero; no entry has any
    other status. *)
Theorem list_stocks_entries w :
  map se_symbol (list_stocks w) = WATCHLIST
  /\ forall e,
       In e (list_stocks w) ->
       (se_status e = "available"
        /\ exists p,
             se_current_price e = Some p
             /\ get_live_price (yf_Ticker w) (se_symbol e) = Some p
             /\ PyFloat.truthy p = true)
       \/ (se_status e = "unavailable"
           /\ se_current_price e = None
           /\ (get_live_price (yf_Ticker w) (se_symbol e) = None
               \/ exists p,
                    get_live_price (yf_Ticker w) (se_symbol e) = Some p
                    /\ PyFloat.truthy p = false)).
Proof.
  unfold list_stocks. split.
  - rewrite map_map. rewrite <- (map_id WATCHLIST) at 2.
    apply map_ext. intros sym.
    destruct (get_live_price (yf_Ticker w) sym) as [p|]; [|reflexivity].
    now destruct (PyFloat.truthy p).
  - intros e He. apply in_map_iff in He. destruct He as (sym & <- & _).
    destruct (get_live_price (yf_Ticker w) sym) as [p|] eqn:Hp.
    + destruct (PyFloat.truthy p) eqn:Ht; simpl; rewrite Hp.
      * left. split; [reflexivity|]. exists p. auto.
      * right. repeat split. right. exists p. auto.
    + simpl. rewrite Hp. right. repeat split. now left.
Qed.

Lemma filter_all {A} (f : A -> bool) l :
  Forall (fun x => f x = true) l -> filter f l = l.
Proof.
  induction 1 as [|x l Hx Hl IH]; simpl; [reflexivity|].
  now rewrite Hx, IH.
Qed.

(** X21.  Nothing ever closes a position: in every store a run of the
    service reaches, the number of active positions that [/status] reports
    is the number of positions. *)
Theorem status_counts_every_position running st :
  reachable st ->
  system_status running st
  = (MONITORING_INTERVAL, WATCHLIST, List.length (portfolio st),
     total_alerts st, running).
Proof.
  intros Hr. unfold system_status, active_positions.
  rewrite filter_all; [reflexivity|].
  eapply Forall_impl; [|exact (reachable_positions_ok st Hr)].
  intros [k d] (Hs & _). simpl in *. rewrite Hs. apply String.eqb_refl.
Qed.

Lemma status_counts_every_position_witness :
  system_status true alerted = (5, WATCHLIST, 1%nat, 1%nat, true).
Proof.
  exact (status_counts_every_position true alerted (run_reachable _)).
Defined.

(** ** One alert per arming *)

Lemma armed_le_1 tx st : (armed tx st <= 1)%nat.
Proof.
  unfold armed. destruct (Dict.get tx (portfolio st)) as [d|]; [|lia].
  destruct (alert_sent d); lia.
Qed.

Lemma alerts_of_absent tx st :
  reachable st -> Dict.get tx (portfolio st) = None -> alerts_of tx st = 0%nat.
Proof.
  intros Hr Hnone. unfold alerts_of, history_of.
  destruct (Dict.get tx (alert_history st)) as [l|] eqn:E; [|reflexivity].
  destruct (reachable_hist_inv st Hr) as [_ Hl].
  destruct (Hl tx l E) as (_ & b & Hb & _).
  unfold buy_prices in Hb. rewrite Hnone in Hb. discriminate.
Qed.

Lemma armed_set_same tx st k d :
  k <> tx ->
  armed tx (mkState (Dict.set k d (portfolio st)) (alert_history st))
  = armed tx st.
Proof.
  intros Hne. unfold armed. simpl.
  rewrite DictFacts.get_set_other; auto.
Qed.

(** A successful purchase on a reachable store writes under a fresh id. *)
Lemma buy_creates_position_aux w s st tx pos st' :
  reachable st ->
  buy_stock w s st = (Ok (tx, pos), st') ->
  st' = mkState (Dict.set tx pos (portfolio st)) (alert_history st)
  /\ Dict.get tx (portfolio st) = None.
Proof.
  intros Hr Hbuy.
  destruct (buy_ok_inv _ _ _ _ _ _ Hbuy) as (p & _ & _ & Htx & _ & Hst).
  split; [exact Hst|]. subst tx.
  apply DictFacts.get_none_not_in.
  rewrite (ok_ids _ (reachable_store_ok _ Hr)). apply ids_fresh.
Qed.

Lemma latest_alerts_portfolio st :
  portfolio (snd (get_latest_alerts st)) = portfolio st.
Proof.
  unfold get_latest_alerts.
  now destruct (latest_per_transaction (alert_history st)).
Qed.

(** A purchase that fails returns the stores it was given, and no
    exception escapes the handler. *)
Lemma buy_error_keeps_state w s st :
  match buy_stock w s st with
  | (Ok _, _) => True
  | (HTTPException _ _, st') => st' = st
  | (Unhandled _, _) => False
  end.
Proof.
  unfold buy_stock.
  destruct (negb (in_watchlist (upper s))); [reflexivity|].
  destruct (get_live_price (yf_Ticker w) (upper s)) as [p|]; [|reflexivity].
  now destruct (negb (PyFloat.truthy p)).
Qed.

(** One step moves the number of alerts plus the pending arming by no more
    than the step arms; a purchase starts the count at one. *)
Lemma handle_credit_step tx st r :
  reachable st ->
  (alerts_of tx (handle st r) + armed tx (handle st r)
   <= alerts_of tx st + armed tx st + arms tx r)%nat
  \/ (alerts_of tx (handle st r) + armed tx (handle st r) <= 1 + arms tx r)%nat.
Proof.
  intros Hr. pose proof (reachable_store_ok st Hr) as Hok.
  destruct r; simpl arms.
  - (* a purchase *)
    simpl. pose proof (buy_error_keeps_state w order_symbol st) as Hout.
    destruct (buy_stock w order_symbol st) as [resp st'] eqn:Hb. simpl.
    destruct resp as [[k pos]|code detail|exn]; [|rewrite Hout; lia|tauto].
    destruct (buy_creates_position_aux w order_symbol st k pos st' Hr Hb)
      as (Hst & Hfresh).
    subst st'. unfold alerts_of. simpl.
    destruct (Z.eq_dec k tx) as [->|Hne].
    + pose proof (alerts_of_absent tx st Hr Hfresh) as H0.
      unfold alerts_of in H0. rewrite H0.
      pose proof (armed_le_1 tx
                    (mkState (Dict.set tx pos (portfolio st)) (alert_history st))).
      lia.
    + rewrite (armed_set_same tx st k pos Hne). lia.
  - (* a tick *)
    simpl. unfold alerts_of, armed.
    destruct (Dict.get tx (portfolio st)) as [d|] eqn:Hget.
    + destruct (tick_at env st tx d Hok Hget) as (d' & ev & Hbody & Hd & Hh).
      rewrite Hd. unfold history_of at 1. rewrite Hh.
      destruct (body_cases _ _ _ _ Hbody)
        as [[-> ->]|(cp & pc & _ & _ & _ &
                     [(-> & -> & _)|(k & _ & Hf & -> & ->)])]; simpl.
      * fold (history_of tx (alert_history st)). lia.
      * fold (history_of tx (alert_history st)). lia.
      * rewrite DictFacts.get_set_same, length_app, Hf. simpl. lia.
    + assert (Hn : Dict.get tx (portfolio (tick env st)) = None).
      { apply DictFacts.get_none_not_in.
        rewrite (monitor_loop_keys env _ _ _ _ _ (tick_unfold env st)).
        now apply DictFacts.get_none_not_in. }
      rewrite Hn. unfold history_of.
      rewrite (monitor_loop_history_other env tx _ _ _ _ _ (tick_unfold env st))
        by now apply DictFacts.get_none_not_in.
      lia.
  - simpl. unfold view_portfolio.
    destruct (enrich_all env (portfolio st)); simpl; lia.
  - simpl. lia.
  - (* the latest alerts *)
    simpl. pose proof (latest_alerts_portfolio st) as Hp.
    unfold alerts_of, armed. rewrite Hp. unfold history_of at 1.
    destruct (Dict.get tx (alert_history (snd (get_latest_alerts st))))
      as [l'|] eqn:E.
    + unfold get_latest_alerts in E.
      destruct (latest_per_transaction (alert_history st)) as [out h] eqn:El.
      simpl in E.
      pose proof (latest_store_get (alert_history st) tx l') as Hg.
      rewrite El in Hg. simpl in Hg.
      destruct (Hg E) as (l & Hgl & Hshape).
      unfold history_of. rewrite Hgl.
      destruct Hshape as [->|(front & y & -> & ->)];
        rewrite ?length_app; simpl; lia.
    + simpl. lia.
  - (* a reset *)
    simpl. unfold reset_alert.
    destruct (Dict.get tx_id (portfolio st)) as [d|] eqn:E;
      [|simpl; destruct (tx_id =? tx); lia].
    simpl. unfold alerts_of. simpl.
    destruct (tx_id =? tx) eqn:Ek.
    + pose proof (armed_le_1 tx
                    (mkState (Dict.set tx_id (clear_alert d) (portfolio st))
                             (alert_history st))).
      lia.
    + apply Z.eqb_neq in Ek. rewrite (armed_set_same tx st tx_id _ Ek). lia.
  - (* a simulated price *)
    simpl. unfold simulate_price_movement.
    destruct (Dict.get tx_id (portfolio st)) as [d|] eqn:E;
      [|simpl; destruct (tx_id =? tx); lia].
    assert (Hgoal :
              (alerts_of tx (mkState (Dict.set tx_id (set_simulated d simulated)
                                               (portfolio st))
                                     (alert_history st))
               + armed tx (mkState (Dict.set tx_id (set_simulated d simulated)
                                             (portfolio st))
                                   (alert_history st))
               <= alerts_of tx st + armed tx st
                  + (if (tx_id =? tx)%Z then 1 else 0))%nat).
    { unfold alerts_of. simpl.
      destruct (tx_id =? tx) eqn:Ek.
      - pose proof (armed_le_1 tx
                      (mkState (Dict.set tx_id (set_simulated d simulated)
                                         (portfolio st))
                               (alert_history st))).
        lia.
      - apply Z.eqb_neq in Ek. rewrite (armed_set_same tx st tx_id _ Ek). lia. }
    destruct (percent_change_of (buy_price d) simulated); left; exact Hgoal.
  - (* clearing a simulation *)
    simpl. unfold clear_simulation.
    destruct (Dict.get tx_id (portfolio st)) as [d|] eqn:E; [|simpl; lia].
    simpl. unfold alerts_of. simpl.
    destruct (Z.eq_dec tx_id tx) as [->|Hne].
    + unfold armed. simpl. rewrite DictFacts.get_set_same, E. simpl. lia.
    + rewrite (armed_set_same tx st tx_id _ Hne). lia.
Qed.

Lemma handle_credit tx st r (bound : nat) :
  reachable st ->
  (1 <= bound)%nat ->
  (alerts_of tx st + armed tx st <= bound)%nat ->
  (alerts_of tx (handle st r) + armed tx (handle st r)
   <= bound + arms tx r)%nat.
Proof.
  intros Hr Hone Hbound. destruct (handle_credit_step tx st r Hr); lia.
Qed.

Lemma run_credit tx rs : forall st bound,
  reachable st ->
  (1 <= bound)%nat ->
  (alerts_of tx st + armed tx st <= bound)%nat ->
  (alerts_of tx (fold_left handle rs st) + armed tx (fold_left handle rs st)
   <= bound + armings tx rs)%nat.
Proof.
  induction rs as [|r rs IH]; simpl; intros st bound Hr Hone Hb; [lia|].
  pose proof (handle_credit tx st r bound Hr Hone Hb) as Hstep.
  specialize (IH (handle st r) (bound + arms tx r)%nat
                 (reachable_step st r Hr)).
  lia.
Qed.

(** X22.  One alert per arming, over whole runs.  However the purchases,
    ticks, views, resets and simulations are interleaved and whatever the
    prices do, the number of alerts recorded for a transaction never
    exceeds one plus the number of resets and simulated prices addressed to
    it; and while the position is armed the count is strictly below that
    bound. *)
Theorem alerts_bounded_by_armings tx rs :
  (alerts_of tx (run rs) + armed tx (run rs) <= 1 + armings tx rs)%nat.
Proof.
  unfold run. apply run_credit.
  - apply reachable_start.
  - lia.
  - unfold alerts_of, armed. simpl. lia.
Qed.

(** ** Alerts are never lost *)

Lemma total_set_append tx e (h : Dict.t (list alert_event)) :
  fold_right (fun kv n => (List.length (snd kv) + n)%nat) 0%nat
             (Dict.set tx (history_of tx h ++ [e]) h)
  = S (fold_right (fun kv n => (List.length (snd kv) + n)%nat) 0%nat h).
Proof.
  unfold history_of.
  induction h as [|[k l] h IH]; simpl; [reflexivity|].
  destruct (tx =? k) eqn:E; simpl.
  - rewrite length_app. simpl. lia.
  - rewrite IH. lia.
Qed.

Lemma monitor_loop_total env items : forall h items' h' c,
  monitor_loop env items h = (items', h', c) ->
  (total_alerts (mkState items h) <= total_alerts (mkState items' h'))%nat.
Proof.
  unfold total_alerts. simpl.
  induction items as [|[k d] rest IH]; simpl; intros h items' h' c H.
  - inversion H; subst. lia.
  - destruct (monitor_position (env k) d) as [[d' ev]|]; [|inversion H; lia].
    destruct (monitor_loop env rest (record_alert k ev h)) as [[r1 h1] c1] eqn:E.
    inversion H; subst. apply IH in E.
    destruct ev as [e|]; simpl in E; [|exact E].
    rewrite total_set_append in E. lia.
Qed.

Lemma latest_per_transaction_total h :
  fold_right (fun kv n => (List.length (snd kv) + n)%nat) 0%nat
             (snd (latest_per_transaction h))
  = fold_right (fun kv n => (List.length (snd kv) + n)%nat) 0%nat h.
Proof.
  induction h as [|[k l] h IH]; simpl; [reflexivity|].
  destruct (latest_per_transaction h) as [out rest]. simpl in IH.
  destruct (unsnoc l) as [[front y]|] eqn:Hl; simpl; rewrite IH; auto.
  apply unsnoc_some in Hl. subst l. now rewrite !length_app.
Qed.

(** X23.  The total number of alerts, as [/alerts] and [/status] report it,
    never goes down: a tick can only raise it, and every request handler
    leaves it as it is. *)
Theorem total_alerts_never_decrease st r :
  fst (view_alerts st) = Ok (alert_history st, total_alerts st)
  /\ (total_alerts st <= total_alerts (handle st r))%nat
  /\ (match r with Monitor _ => True
      | _ => total_alerts (handle st r) = total_alerts st end).
Proof.
  split; [reflexivity|].
  assert (Hrest : match r with Monitor _ => True
                  | _ => total_alerts (handle st r) = total_alerts st end).
  { destruct r; auto.
    - unfold total_alerts. now rewrite (handlers_keep_history st (Buy w order_symbol) I).
    - unfold total_alerts. now rewrite (handlers_keep_history st (ViewPortfolio env) I).
    - simpl. unfold total_alerts, get_latest_alerts.
      pose proof (latest_per_transaction_total (alert_history st)) as H.
      now destruct (latest_per_transaction (alert_history st)).
    - unfold total_alerts. now rewrite (handlers_keep_history st (ResetAlert tx_id) I).
    - unfold total_alerts. now rewrite (handlers_keep_history st (SimulatePrice tx_id simulated) I).
    - unfold total_alerts. now rewrite (handlers_keep_history st (ClearSimulation tx_id) I). }
  split; [|exact Hrest].
  destruct r; try (rewrite Hrest; lia).
  simpl. pose proof (monitor_loop_total env _ _ _ _ _ (tick_unfold env st)) as H.
  destruct st as [p h]. destruct (tick env (mkState p h)) as [p' h'].
  exact H.
Qed.

(** ** Where a purchase price comes from *)

Lemma handle_buy_prices (Q : float -> Prop) st r :
  (forall w s p,
      get_live_price (yf_Ticker w) s = Some p ->
      PyFloat.truthy p = true -> Q p) ->
  Forall (fun kv => Q (buy_price (snd kv))) (portfolio st) ->
  Forall (fun kv => Q (buy_price (snd kv))) (portfolio (handle st r)).
Proof.
  intros HQ Hf.
  assert (Hupd : forall tx d d',
             Dict.get tx (portfolio st) = Some d ->
             buy_price d' = buy_price d ->
             Forall (fun kv => Q (buy_price (snd kv)))
                    (Dict.set tx d' (portfolio st))).
  { intros tx d d' Hget Hb. apply DictFacts.Forall_set; auto.
    simpl. rewrite Hb.
    exact (DictFacts.get_Forall (fun kv => Q (buy_price (snd kv))) _ _ _ Hf Hget). }
  destruct r; simpl.
  - unfold buy_stock.
    destruct (negb (in_watchlist (upper order_symbol))); auto.
    destruct (get_live_price (yf_Ticker w) (upper order_symbol)) as [p|] eqn:Hp;
      auto.
    destruct (negb (PyFloat.truthy p)) eqn:Ht; auto. simpl.
    apply negb_false_iff in Ht.
    apply DictFacts.Forall_set; auto. simpl. eapply HQ; eauto.
  - eapply (monitor_loop_Forall (fun d => Q (buy_price d)));
      [|exact (tick_unfold env st)|exact Hf].
    intros w d d' ev Hd Hb. apply body_fixed_part in Hb.
    unfold fixed_part in Hb. injection Hb as _ Hb _ _ _. now rewrite Hb.
  - unfold view_portfolio. now destruct (enrich_all env (portfolio st)).
  - exact Hf.
  - unfold get_latest_alerts.
    now destruct (latest_per_transaction (alert_history st)).
  - unfold reset_alert.
    destruct (Dict.get tx_id (portfolio st)) as [d|] eqn:E; auto.
    simpl. now apply (Hupd tx_id d).
  - unfold simulate_price_movement.
    destruct (Dict.get tx_id (portfolio st)) as [d|] eqn:E; auto.
    destruct (percent_change_of (buy_price d) simulated);
      simpl; now apply (Hupd tx_id d).
  - unfold clear_simulation.
    destruct (Dict.get tx_id (portfolio st)) as [d|] eqn:E; auto.
    simpl. now apply (Hupd tx_id d).
Qed.

(** ** The sign of a rounded price *)

Lemma shr_1_nonneg mrs : 0 <= shr_m mrs -> 0 <= shr_m (shr_1 mrs).
Proof.
  destruct mrs as [m r s]. simpl.
  destruct m as [|p|p]; try destruct p; simpl; lia.
Qed.

Lemma iter_shr_1_nonneg p : forall mrs,
  0 <= shr_m mrs -> 0 <= shr_m (iter_pos shr_1 p mrs).
Proof.
  induction p as [p IH|p IH|]; simpl; intros mrs H.
  - apply IH, IH. now apply shr_1_nonneg.
  - now apply IH, IH.
  - now apply shr_1_nonneg.
Qed.

Lemma shr_fexp_nonneg m e l :
  0 <= m -> 0 <= shr_m (fst (shr_fexp prec emax m e l)).
Proof.
  intros H. unfold shr_fexp, shr.
  assert (Hm : shr_m (shr_record_of_loc m l) = m)
    by (destruct l as [|[]]; reflexivity).
  destruct (fexp prec emax (Zdigits2 m + e) - e); simpl;
    rewrite <- Hm in H; auto.
  now apply iter_shr_1_nonneg.
Qed.

Lemma round_nearest_even_nonneg m l : 0 <= m -> 0 <= round_nearest_even m l.
Proof.
  intros H. destruct l as [|[]]; simpl; try lia.
  destruct (Z.even m); lia.
Qed.

(** Rounding a non-negative mantissa with the sign bit clear gives +0, a
    positive number or +inf, never a NaN. *)
Lemma binary_round_aux_nonneg mx ex lx :
  0 <= mx -> nonneg_sf (binary_round_aux prec emax false mx ex lx) = true.
Proof.
  intros H. unfold binary_round_aux.
  pose proof (shr_fexp_nonneg mx ex lx H) as H1.
  destruct (shr_fexp prec emax mx ex lx) as [mrs' e']. simpl in H1.
  pose proof (shr_fexp_nonneg _ e' loc_Exact
                (round_nearest_even_nonneg _ (loc_of_shr_record mrs') H1))
    as H2.
  destruct (shr_fexp prec emax
              (round_nearest_even (shr_m mrs') (loc_of_shr_record mrs'))
              e' loc_Exact) as [mrs'' e'']. simpl in H2.
  destruct (shr_m mrs''); [reflexivity| |lia].
  now destruct (e'' <=? emax - prec).
Qed.

Lemma binary_round_nonneg mx ex :
  nonneg_sf (binary_round prec emax false mx ex) = true.
Proof.
  unfold binary_round.
  destruct (shl_align mx ex (fexp prec emax (Z.pos (digits2_pos mx) + ex)))
    as [mz ez].
  apply binary_round_aux_nonneg. lia.
Qed.

Lemma binary_normalize_nonneg m e :
  0 <= m -> nonneg_sf (binary_normalize prec emax m e false) = true.
Proof.
  intros H. destruct m; simpl; [reflexivity|apply binary_round_nonneg|lia].
Qed.

Lemma SFldexp_nonneg f e :
  nonneg_sf f = true -> nonneg_sf (SFldexp prec emax f e) = true.
Proof.
  destruct f as [s|s| |s m ex]; simpl; auto.
  destruct s; [discriminate|]. intros _. apply binary_round_nonneg.
Qed.

Lemma SFdiv_nonneg n :
  nonneg_sf (SFdiv prec emax (S754_finite false n 0) (S754_finite false 100 0))
  = true.
Proof.
  unfold SFdiv, SFdiv_core_binary.
  set (e' := Z.min _ _). set (s := 0 - 0 - e').
  set (m' := match s with
             | Z.pos _ => Z.shiftl (Z.pos n) s
             | 0 => Z.pos n
             | Z.neg _ => 0
             end).
  assert (Hm : 0 <= m').
  { subst m'. destruct s; try lia. apply Z.shiftl_nonneg. lia. }
  assert (Hq : 0 <= fst (Z.div_eucl m' 100)).
  { change (fst (Z.div_eucl m' 100)) with (m' / 100). apply Z.div_pos; lia. }
  destruct (Z.div_eucl m' 100) as [q r]. simpl in Hq. simpl xorb.
  now apply binary_round_aux_nonneg.
Qed.

Lemma SF2Prim_nonneg x :
  nonneg_sf x = true -> nonneg_sf (Prim2SF (SF2Prim x)) = true.
Proof.
  destruct x as [s|s| |s m e]; simpl; try discriminate;
    destruct s; try discriminate; intros _.
  - reflexivity.
  - reflexivity.
  - unfold Z.ldexp. rewrite ldshiftexp_spec, of_uint63_spec.
    apply SFldexp_nonneg, binary_normalize_nonneg.
    apply Uint63.to_Z_bounded.
Qed.

Lemma nonneg_float_positive b :
  nonneg_sf (Prim2SF b) = true -> PrimFloat.eqb b 0 = false ->
  PrimFloat.ltb 0 b = true.
Proof.
  rewrite FloatAxioms.eqb_spec, FloatAxioms.ltb_spec.
  change (Prim2SF 0) with (S754_zero false).
  destruct (Prim2SF b) as [s|s| |s m e]; simpl; try discriminate;
    destruct s; simpl; try discriminate; auto.
Qed.

(** [round(p, 2)] of a strictly positive float is zero or strictly
    positive. *)
Lemma round2_positive p :
  PyFloat.gtb p 0 = true ->
  PrimFloat.eqb (PyFloat.round2 p) 0 = false ->
  PyFloat.gtb (PyFloat.round2 p) 0 = true.
Proof.
  unfold PyFloat.gtb. intros Hp Hz.
  pose proof Hp as Hp'. rewrite FloatAxioms.ltb_spec in Hp'.
  change (Prim2SF 0) with (S754_zero false) in Hp'.
  unfold PyFloat.round2 in *.
  destruct (Prim2SF p) as [s|s| |s m e] eqn:E; simpl in Hp'; try discriminate.
  - exact Hp.
  - destruct s; [discriminate|].
    destruct (PyFloat.round_half_even (Z.pos m * 100) e) as [|n|n].
    + vm_compute in Hz. discriminate.
    + apply nonneg_float_positive; [|exact Hz].
      apply SF2Prim_nonneg, SFdiv_nonneg.
    + vm_compute in Hz. discriminate.
Qed.

(** ** Purchase prices over a run *)

(** Every purchase price of a reachable store is the rounding of a
    strictly positive quote, is not zero, and is strictly positive. *)
Lemma reachable_buy_price_quoted st tx data :
  reachable st ->
  Dict.get tx (portfolio st) = Some data ->
  (exists t p,
      quoted t p /\ PyFloat.gtb p 0 = true
      /\ buy_price data = PyFloat.round2 p)
  /\ PrimFloat.eqb (buy_price data) 0 = false
  /\ PyFloat.gtb (buy_price data) 0 = true.
Proof.
  intros Hr Hget.
  set (Q := fun b =>
              (exists t p, quoted t p /\ PyFloat.gtb p 0 = true
                           /\ b = PyFloat.round2 p)
              /\ PrimFloat.eqb b 0 = false
              /\ PyFloat.gtb b 0 = true).
  assert (Hf : Forall (fun kv => Q (buy_price (snd kv))) (portfolio st)).
  { clear Hget. induction Hr as [|st r Hr IH]; [simpl; constructor|].
    apply handle_buy_prices; [|exact IH].
    intros w s p Hp Ht.
    destruct (lookup_origin _ _ _ Hp) as (t & q & _ & Hquoted & Hq & ->).
    unfold PyFloat.truthy in Ht. apply negb_true_iff in Ht.
    split; [exists t, q; auto|]. split; [exact Ht|].
    now apply round2_positive. }
  exact (DictFacts.get_Forall (fun kv => Q (buy_price (snd kv))) _ _ _ Hf Hget).
Qed.




(** ** C10, amended *)

(** C10, amended.  The lookup returns no price or the two-decimal rounding
    of a strictly positive value held by one of the ticker's fields (each
    strategy tests its price before rounding it); the rounded value is zero
    or strictly positive.  A purchase refuses a zero price, so in every
    store the service reaches every purchase price is strictly positive, and
    each percent change computed from it is defined: the monitor runs to its
    end and neither the portfolio view nor the simulation endpoint fails on
    the division. *)
Theorem stored_buy_prices_positive st :
  reachable st ->
  (forall yf sym r,
      get_live_price yf sym = Some r ->
      (exists t p,
          yf sym = Some t /\ quoted t p
          /\ PyFloat.gtb p 0 = true /\ r = PyFloat.round2 p)
      /\ (PrimFloat.eqb r 0 = true \/ PyFloat.gtb r 0 = true))
  /\ (forall tx data,
        Dict.get tx (portfolio st) = Some data ->
        PyFloat.gtb (buy_price data) 0 = true
        /\ PrimFloat.eqb (buy_price data) 0 = false
        /\ forall cur,
             exists pc, percent_change_of (buy_price data) cur = Some pc)
  /\ (forall env, snd (monitor_market env st) = Returned)
  /\ (forall env, fst (view_portfolio env st) <> Unhandled ZeroDivisionError)
  /\ (forall tx p,
        fst (simulate_price_movement tx p st) <> Unhandled ZeroDivisionError).
Proof.
  intros Hr. split.
  - intros yf sym r Hlook.
    destruct (lookup_origin _ _ _ Hlook) as (t & p & Ht & Hq & Hp & ->).
    split; [exists t, p; auto|].
    destruct (PrimFloat.eqb (PyFloat.round2 p) 0) eqn:Hz; [now left|].
    right. now apply round2_positive.
  - destruct (reachable_divisions_defined st Hr) as (_ & Hm & Hv & Hs).
    split; [|auto].
    intros tx data Hget.
    destruct (reachable_buy_price_quoted st tx data Hr Hget) as (_ & Hz & Hpos).
    split; [exact Hpos|]. split; [exact Hz|].
    intros cur. apply percent_change_defined.
    unfold PyFloat.truthy. now rewrite Hz.
Qed.

(** The position bought at 100 and alerted at 105. *)
Lemma stored_buy_prices_positive_witness :
  PyFloat.gtb 100 0 = true
  /\ exists pc, percent_change_of 100 105 = Some pc.
Proof.
  destruct (stored_buy_prices_positive alerted (run_reachable _))
    as (_ & Hstored & _).
  destruct (Hstored 1 _ eq_refl) as (Hpos & _ & Hdiv).
  exact (conj Hpos (Hdiv 105%float)).
Defined.
